(** * ip-geo-tool: a shallow embedding of [src/ip-geo-tool.py]

    The tool resolves an IP address to geolocation data and renders it on
    the terminal or exports it to JSON, CSV or HTML.  This development
    embeds the functions of the script as Rocq functions and states the
    properties of the specification about them.

    Conventions.
    - A Python [str] is a Rocq [string] holding its UTF-8 encoding; [len]
      counts code points (the bytes that are not continuation bytes).
    - A Python [dict] keeps insertion order: it is an association list
      with distinct keys, updated in place or extended at the end.
    - Parsed JSON is the inductive type [value].
    - [print] appends to an output log; an exception ends the run and is
      returned next to the log.
    - The library functions the script calls are embedded after their
      documentation ([inet_aton], the [csv] writer, [json.dump] and
      [json.loads]) or taken as the fields of a record ([textwrap.wrap],
      [repr] of a container, the grouping of a float). *)

From Stdlib Require Import String Ascii List ZArith Lia Bool.
From Stdlib Require Import DecimalString.
From Stdlib Require DecimalFacts DecimalPos DecimalZ.
Import ListNotations.

Open Scope string_scope.
Open Scope Z_scope.

(** ** Python strings *)

Module Str.

(** A UTF-8 continuation byte has the form 10xxxxxx. *)
Definition is_continuation (a : ascii) : bool :=
  let n := Z.of_nat (nat_of_ascii a) in
  Z.land n 192 =? 128.

(** [len(s)] for a [str]: the number of code points. *)
Fixpoint len (s : string) : Z :=
  match s with
  | EmptyString => 0
  | String a s' => (if is_continuation a then 0 else 1) + len s'
  end.

(** [s * n]: empty when [n <= 0]. *)
Fixpoint repeat_nat (s : string) (n : nat) : string :=
  match n with
  | O => ""
  | S k => s ++ repeat_nat s k
  end.

Definition times (s : string) (n : Z) : string := repeat_nat s (Z.to_nat n).

(** [sep.join(parts)]. *)
Fixpoint join (sep : string) (parts : list string) : string :=
  match parts with
  | [] => ""
  | [p] => p
  | p :: rest => p ++ sep ++ join sep rest
  end.

(** [s.split(c)] for a one-character separator. *)
Fixpoint split_char (c : ascii) (s : string) : list string :=
  match s with
  | EmptyString => [""]
  | String a s' =>
      if Ascii.eqb a c then "" :: split_char c s'
      else match split_char c s' with
           | [] => [String a ""]
           | w :: ws => String a w :: ws
           end
  end.

Fixpoint drop_prefix (p s : string) : option string :=
  match p, s with
  | EmptyString, _ => Some s
  | String a p', String b s' =>
      if Ascii.eqb a b then drop_prefix p' s' else None
  | String _ _, EmptyString => None
  end.

Definition startswith (s p : string) : bool :=
  match drop_prefix p s with Some _ => true | None => false end.

Fixpoint replace_go (old new : string) (skip : nat) (s : string) : string :=
  match s with
  | EmptyString => ""
  | String a s' =>
      match skip with
      | S k => replace_go old new k s'
      | O =>
          match drop_prefix old s with
          | Some _ => new ++ replace_go old new (String.length old - 1) s'
          | None => String a (replace_go old new 0 s')
          end
      end
  end.

Fixpoint interleave (new s : string) : string :=
  match s with
  | EmptyString => new
  | String a s' => new ++ String a (interleave new s')
  end.

(** [s.replace(old, new)]: every occurrence, left to right, without
    overlap; an empty [old] matches before every character and at the
    end. *)
Definition replace (s old new : string) : string :=
  match old with
  | EmptyString => interleave new s
  | _ => replace_go old new 0 s
  end.

Definition newline : string := String (ascii_of_nat 10) "".
Definition newline_char : ascii := ascii_of_nat 10.

(** [str(n)] for an [int]. *)
Definition of_Z (n : Z) : string := NilZero.string_of_int (Z.to_int n).

(** Digits of a natural number grouped by three, as [format(n, ',')]
    prints them. *)
Fixpoint group3 (digits : list ascii) : string :=
  match digits with
  | a :: b :: c :: ((_ :: _) as rest) =>
      group3 rest ++ "," ++ String c (String b (String a ""))
  | _ => string_of_list_ascii (rev digits)
  end.

Definition grouped_of_Z (n : Z) : string :=
  let digits := list_ascii_of_string (of_Z (Z.abs n)) in
  (if n <? 0 then "-" else "") ++ group3 (rev digits).

End Str.

(** ** Python values, dictionaries and exceptions *)

Set Warnings "-register-all".

(** A value as [json.loads] builds it.  A float is carried by the text
    [repr] prints for it, which is also what [str] and an f-string print. *)
Inductive value : Type :=
| VNone
| VBool (b : bool)
| VInt (n : Z)
| VFloat (repr : string)
| VStr (s : string)
| VList (items : list value)
| VDict (items : list (string * value)).

(** A [dict] with [str] keys, in insertion order. *)
Definition dict : Type := list (string * value).

(** The exceptions the script can meet; all of them are subclasses of
    [Exception].  [sys.exit] is not one of them: it is an outcome of
    [main]. *)
Inductive exn : Type :=
| KeyError
| IndexError
| TypeError
| ValueError
| AttributeError
| OSError
| URLError.

Module Dict.

(** [d[k]] when present. *)
Fixpoint lookup (d : dict) (k : string) : option value :=
  match d with
  | [] => None
  | (k', v) :: rest => if String.eqb k' k then Some v else lookup rest k
  end.

(** [k in d]. *)
Definition contains (d : dict) (k : string) : bool :=
  match lookup d k with Some _ => true | None => false end.

(** [d.get(k)]: [None] when the key is missing. *)
Definition get (d : dict) (k : string) : value :=
  match lookup d k with Some v => v | None => VNone end.

(** [d.get(k, default)]. *)
Definition get_default (d : dict) (k : string) (default : value) : value :=
  match lookup d k with Some v => v | None => default end.

(** [d[k] = v]: an existing key keeps its position, a new key goes to
    the end. *)
Fixpoint set (d : dict) (k : string) (v : value) : dict :=
  match d with
  | [] => [(k, v)]
  | (k', v') :: rest =>
      if String.eqb k' k then (k', v) :: rest else (k', v') :: set rest k v
  end.

(** [d.keys()] and [d.items()], in insertion order. *)
Definition keys (d : dict) : list string := map fst d.
Definition items (d : dict) : list (string * value) := d.

End Dict.

(** Truth value of a Python object in a condition. *)
Definition truthy (v : value) : bool :=
  match v with
  | VNone => false
  | VBool b => b
  | VInt n => negb (n =? 0)
  | VFloat r => negb (String.eqb r "0.0" || String.eqb r "-0.0")
  | VStr s => negb (String.eqb s "")
  | VList l => match l with [] => false | _ => true end
  | VDict d => match d with [] => false | _ => true end
  end.

(** [v is not None]. *)
Definition is_not_none (v : value) : bool :=
  match v with VNone => false | _ => true end.

(** [isinstance(v, str)]. *)
Definition is_str (v : value) : bool :=
  match v with VStr _ => true | _ => false end.

(** [v == s] for a string literal [s]. *)
Definition eq_str (v : value) (s : string) : bool :=
  match v with VStr t => String.eqb t s | _ => false end.

(** ** Results and the output log *)

Inductive res (A : Type) : Type :=
| Ret (a : A)
| Raise (e : exn).
Arguments Ret {A} a.
Arguments Raise {A} e.

Definition res_bind {A B} (r : res A) (k : A -> res B) : res B :=
  match r with
  | Ret a => k a
  | Raise e => Raise e
  end.

(** A run of printing code: the lines printed so far, in order, and how the
    run ended. *)
Record run (A : Type) : Type := Run { printed : list string; outcome : res A }.
Arguments Run {A} printed outcome.
Arguments printed {A} r.
Arguments outcome {A} r.

Definition ret {A} (a : A) : run A := Run [] (Ret a).
Definition raise {A} (e : exn) : run A := Run [] (Raise e).
Definition print (s : string) : run unit := Run [s] (Ret tt).
Definition lift {A} (r : res A) : run A := Run [] r.

(** Sequencing: what [m] printed comes first; the rest runs only when [m]
    ended normally. *)
Definition bind {A B} (m : run A) (k : A -> run B) : run B :=
  let rest :=
    match outcome m with
    | Ret a => k a
    | Raise e => Run [] (Raise e)
    end in
  Run (printed m ++ printed rest) (outcome rest).

Declare Scope run_scope.
Delimit Scope run_scope with run.
Notation "x <- m ;; k" := (bind m (fun x => k))
  (at level 61, m at next level, right associativity) : run_scope.
Notation "m ;; k" := (bind m (fun _ => k))
  (at level 61, right associativity) : run_scope.

Open Scope run_scope.

(** [if b: body]. *)
Definition when (b : bool) (body : run unit) : run unit :=
  if b then body else ret tt.

(** [for x in xs: body(x)]. *)
Fixpoint for_each {A} (xs : list A) (body : A -> run unit) : run unit :=
  match xs with
  | [] => ret tt
  | x :: rest => body x ;; for_each rest body
  end.

(** ** What the Python runtime provides

    The script calls library functions whose code is not part of it.  The
    embedding takes them as the fields of a record. *)
Record Runtime : Type := {
  (** [textwrap.wrap(text, width)] for [width > 0]. *)
  textwrap_wrap : string -> Z -> list string;
  (** [repr] of a list or a dict, as an f-string prints it. *)
  repr_container : value -> string;
  (** [format(x, ',')] for the float whose [repr] is given. *)
  format_float_grouped : string -> string
}.

Section WithRuntime.

Variable rt : Runtime.

(** [str(v)], what an f-string field [{v}] prints. *)
Definition py_str (v : value) : string :=
  match v with
  | VNone => "None"
  | VBool true => "True"
  | VBool false => "False"
  | VInt n => Str.of_Z n
  | VFloat r => r
  | VStr s => s
  | VList _ | VDict _ => repr_container rt v
  end.

(** [len(v)]. *)
Definition py_len (v : value) : res Z :=
  match v with
  | VStr s => Ret (Str.len s)
  | VList l => Ret (Z.of_nat (List.length l))
  | VDict d => Ret (Z.of_nat (List.length d))
  | _ => Raise TypeError
  end.

(** [sep.join(parts)]: every part must be a [str]. *)
Fixpoint strings_of (parts : list value) : res (list string) :=
  match parts with
  | [] => Ret []
  | VStr s :: rest => res_bind (strings_of rest) (fun l => Ret (s :: l))
  | _ :: _ => Raise TypeError
  end.

Definition py_join (sep : string) (parts : list value) : res string :=
  res_bind (strings_of parts) (fun l => Ret (Str.join sep l)).

(** [f"{v:,}"]. *)
Definition format_grouped (v : value) : res string :=
  match v with
  | VInt n => Ret (Str.grouped_of_Z n)
  | VBool b => Ret (if b then "1" else "0")
  | VFloat r => Ret (format_float_grouped rt r)
  | VStr _ => Raise ValueError
  | VNone | VList _ | VDict _ => Raise TypeError
  end.

(** [v >= 0]. *)
Definition ge_zero (v : value) : res bool :=
  match v with
  | VInt n => Ret (0 <=? n)
  | VBool _ => Ret true
  | VFloat r =>
      Ret (if String.eqb r "nan" then false
           else String.eqb r "-0.0" || negb (Str.startswith r "-"))
  | _ => Raise TypeError
  end.

(** [textwrap.fill(text, width).split('\n')]: [fill] joins the lines of
    [wrap] with newlines; a text that is not a [str] has no
    [expandtabs], and a width that is not positive is refused. *)
Definition fill_lines (text : value) (width : Z) : res (list string) :=
  match text with
  | VStr s =>
      if width <=? 0 then Raise ValueError
      else Ret (Str.split_char Str.newline_char
                  (Str.join Str.newline (textwrap_wrap rt s width)))
  | _ => Raise AttributeError
  end.

End WithRuntime.

(** ** Terminal colours (class [Colors]) *)

Record Colors : Type := {
  HEADER : string;
  BLUE : string;
  CYAN : string;
  GREEN : string;
  YELLOW : string;
  RED : string;
  ENDC : string;
  BOLD : string;
  UNDERLINE : string;
  BG_BLUE : string;
  BG_BLACK : string
}.

(** The escape character, written [\033] in the script. *)
Definition esc (code : string) : string := String (ascii_of_nat 27) code.

(** The class attributes as the script declares them. *)
Definition colors_ansi : Colors := {|
  HEADER := esc "[95m";
  BLUE := esc "[94m";
  CYAN := esc "[96m";
  GREEN := esc "[92m";
  YELLOW := esc "[93m";
  RED := esc "[91m";
  ENDC := esc "[0m";
  BOLD := esc "[1m";
  UNDERLINE := esc "[4m";
  BG_BLUE := esc "[44m";
  BG_BLACK := esc "[40m"
|}.

(** The class after [main] has blanked every attribute ([--simple]). *)
Definition colors_simple : Colors := {|
  HEADER := ""; BLUE := ""; CYAN := ""; GREEN := ""; YELLOW := "";
  RED := ""; ENDC := ""; BOLD := ""; UNDERLINE := ""; BG_BLUE := "";
  BG_BLACK := ""
|}.

(** ** What the terminal renderer reads from its surroundings *)

Record Env : Type := {
  (** [os.get_terminal_size().columns]; [None] when the output is not a
      terminal and the call raises [OSError]. *)
  terminal_columns : option Z;
  (** [datetime.now().strftime("%Y-%m-%d %H:%M:%S")]. *)
  clock : string
}.

(** [d[k]]. *)
Definition subscript (d : dict) (k : string) : res value :=
  match Dict.lookup d k with
  | Some v => Ret v
  | None => Raise KeyError
  end.

(** [additional_info] is [None] or a dict; this is its truth value. *)
Definition has_info (additional_info : option dict) : bool :=
  match additional_info with
  | Some (_ :: _) => true
  | _ => false
  end.

(** [additional_info and additional_info.get(k)] as a condition. *)
Definition info_has (additional_info : option dict) (k : string) : bool :=
  match additional_info with
  | Some d => has_info additional_info && truthy (Dict.get d k)
  | None => false
  end.

(** [additional_info[k]] once the condition above holds. *)
Definition info_subscript (additional_info : option dict) (k : string)
  : res value :=
  match additional_info with
  | Some d => subscript d k
  | None => Raise TypeError
  end.

(** ** The terminal renderer ([display_ip_info]) *)

Section Display.

Variable rt : Runtime.
Variable c : Colors.
Variable env : Env.

(** The three shapes of box line the function prints. *)

(** A horizontal rule between two corner or tee characters. *)
Definition rule (left right : string) (width : Z) : string :=
  GREEN c ++ left ++ Str.times "─" (width - 2) ++ right ++ ENDC c.

(** A labelled line: label, gap, text, [pad] spaces, right border. *)
Definition row (label gap text : string) (pad : Z) : string :=
  GREEN c ++ "│ " ++ BOLD c ++ label ++ ENDC c ++ gap ++ text
    ++ Str.times " " pad ++ " " ++ GREEN c ++ "│" ++ ENDC c.

(** A continuation line under a label. *)
Definition continuation (indent line : string) (pad : Z) : string :=
  GREEN c ++ "│" ++ indent ++ line ++ Str.times " " pad ++ " "
    ++ GREEN c ++ "│" ++ ENDC c.

(** A section title between the borders. *)
Definition title (text : string) (pad : Z) : string :=
  GREEN c ++ "│ " ++ BOLD c ++ YELLOW c ++ text ++ Str.times " " pad
    ++ ENDC c ++ " " ++ GREEN c ++ "│" ++ ENDC c.

(** [if ip_info.get(k): text = ip_info[k]; print(row)] where the pad is
    computed from [len(text)]. *)
Definition plain_field (ip_info : dict) (k label : string) (base : Z)
  : run unit :=
  when (truthy (Dict.get ip_info k))
    (v <- lift (subscript ip_info k) ;;
     n <- lift (py_len v) ;;
     print (row label " " (py_str rt v) (base - n))).

(** A field wrapped with [textwrap.fill]: the first line carries the
    label, the others are indented. *)
Definition wrapped_lines (label gap : string) (lines : list string)
           (first_base : Z) (indent : string) (rest_base : Z) : run unit :=
  match lines with
  | [] => raise IndexError
  | first :: rest =>
      print (row label gap first (first_base - Str.len first)) ;;
      for_each rest
        (fun line => print (continuation indent line (rest_base - Str.len line)))
  end.

Definition wrapped_field (ip_info : dict) (k label gap : string)
           (fill_width first_base : Z) (indent : string) (rest_base : Z)
  : run unit :=
  when (truthy (Dict.get ip_info k))
    (v <- lift (subscript ip_info k) ;;
     lines <- lift (fill_lines rt v fill_width) ;;
     wrapped_lines label gap lines first_base indent rest_base).

(** Lines 137-141: the banner with the address. *)
Definition header_banner (ip_info : dict) (width : Z) : run unit :=
  print (Str.newline ++ BG_BLUE c ++ BOLD c ++ Str.times " " width ++ ENDC c) ;;
  query <- lift (subscript ip_info "query") ;;
  let ip_header := "  IP: " ++ py_str rt query ++ "  " in
  let pad_length :=
    width - Str.len ip_header + Str.len (BG_BLUE c ++ BOLD c ++ ENDC c) in
  print (BG_BLUE c ++ BOLD c ++ ip_header ++ Str.times " " pad_length ++ ENDC c) ;;
  print (BG_BLUE c ++ BOLD c ++ Str.times " " width ++ ENDC c ++ Str.newline).

(** Lines 144-155: city, region and country joined by commas. *)
Definition location_parts (ip_info : dict) : res (list value) :=
  res_bind
    (if truthy (Dict.get ip_info "city")
     then res_bind (subscript ip_info "city") (fun v => Ret [v])
     else Ret [])
    (fun p1 =>
  res_bind
    (if truthy (Dict.get ip_info "regionName")
     then res_bind (subscript ip_info "regionName") (fun v => Ret (p1 ++ [v])%list)
     else Ret p1)
    (fun p2 =>
    if truthy (Dict.get ip_info "country") then
      if truthy (Dict.get ip_info "countryCode") then
        res_bind (subscript ip_info "country") (fun country =>
        res_bind (subscript ip_info "countryCode") (fun code =>
        Ret (p2 ++ [VStr (py_str rt country ++ " (" ++ py_str rt code ++ ")")])%list))
      else
        res_bind (subscript ip_info "country") (fun v => Ret (p2 ++ [v])%list)
    else Ret p2)).

(** Lines 124-130: the local-time text, empty without a timezone. *)
Definition time_info (ip_info : dict) : string :=
  if Dict.contains ip_info "timezone"
  then BLUE c ++ "Local Time:" ++ ENDC c ++ " " ++ clock env
         ++ " (Approx. based on timezone)"
  else "".

(** Lines 194-207. *)
Definition time_lines (ip_info : dict) (width : Z) : run unit :=
  let info := time_info ip_info in
  when (negb (String.eqb info ""))
    (let time_display := Str.replace (Str.replace info (BLUE c) "") (ENDC c) "" in
     formatted_lines <- lift (fill_lines rt (VStr time_display) (width - 4)) ;;
     match formatted_lines with
     | [] => ret tt
     | line :: rest =>
         print (GREEN c ++ "│ " ++ BLUE c ++ "Local Time:" ++ ENDC c ++ " "
                  ++ Str.replace line "Local Time: " ""
                  ++ Str.times " " (width - 12 - Str.len line + Str.len "Local Time: ")
                  ++ " " ++ GREEN c ++ "│" ++ ENDC c) ;;
         for_each rest
           (fun line => print (continuation "  " line (width - 4 - Str.len line)))
     end).

(** Lines 158-207: top border and the location lines. *)
Definition location_block (ip_info : dict) (location : string) (width : Z)
  : run unit :=
  print (rule "┌" "┐" width) ;;
  print (row "Location:" " " location (width - 11 - Str.len location)) ;;
  when (truthy (Dict.get ip_info "continent"))
    (v <- lift (subscript ip_info "continent") ;;
     let continent :=
       py_str rt v ++ " ("
         ++ py_str rt (Dict.get_default ip_info "continentCode" (VStr "")) ++ ")" in
     print (row "Continent:" " " continent (width - 12 - Str.len continent))) ;;
  plain_field ip_info "district" "District:" (width - 11) ;;
  when (Dict.contains ip_info "lat" && Dict.contains ip_info "lon")
    (lat <- lift (subscript ip_info "lat") ;;
     lon <- lift (subscript ip_info "lon") ;;
     let coords := py_str rt lat ++ ", " ++ py_str rt lon in
     print (row "Coordinates:" " " coords (width - 14 - Str.len coords))) ;;
  plain_field ip_info "zip" "Postal Code:" (width - 14) ;;
  plain_field ip_info "timezone" "Timezone:" (width - 11) ;;
  when (is_not_none (Dict.get ip_info "offset"))
    (v <- lift (subscript ip_info "offset") ;;
     nonneg <- lift (ge_zero v) ;;
     let offset := "UTC " ++ (if nonneg : bool then "+" else "") ++ py_str rt v in
     print (row "Time Offset:" " " offset (width - 14 - Str.len offset))) ;;
  time_lines ip_info width.

(** Lines 217-227: [if ip_info.get(k) is not None], printed as Yes or No. *)
Definition flag_field (ip_info : dict) (k label : string) (base : Z)
  : run unit :=
  when (is_not_none (Dict.get ip_info k))
    (v <- lift (subscript ip_info k) ;;
     let answer := if truthy v then "Yes" else "No" in
     print (row label " " answer (base - Str.len answer))).

(** [v.items()]. *)
Definition dict_items (v : value) : res (list (string * value)) :=
  match v with
  | VDict d => Ret (Dict.items d)
  | _ => Raise AttributeError
  end.

(** Lines 239-244: one entry per currency, named when the provider
    gives a name. *)
Definition currency_entry (entry : string * value) : string :=
  let (code, info) := entry in
  match info with
  | VDict d =>
      match Dict.lookup d "name" with
      | Some name => code ++ " (" ++ py_str rt name ++ ")"
      | None => code
      end
  | _ => code
  end.

(** Lines 255-257: one entry per language. *)
Definition language_entry (entry : string * value) : string :=
  let (code, name) := entry in
  py_str rt name ++ " (" ++ code ++ ")".

(** Lines 238-265: a mapping of the enrichment record, joined by commas
    and wrapped. *)
Definition mapping_field (additional_info : option dict) (k : string)
           (entry : string * value -> string) (label : string)
           (fill_width first_base : Z) (indent : string) (rest_base : Z)
  : run unit :=
  when (info_has additional_info k)
    (v <- lift (info_subscript additional_info k) ;;
     items <- lift (dict_items v) ;;
     let joined := Str.join ", " (map entry items) in
     lines <- lift (fill_lines rt (VStr joined) fill_width) ;;
     wrapped_lines label " " lines first_base indent rest_base).

(** Lines 210-265. *)
Definition additional_block (ip_info : dict) (additional_info : option dict)
           (width : Z) : run unit :=
  when (is_not_none (Dict.get ip_info "proxy")
        || is_not_none (Dict.get ip_info "hosting")
        || is_not_none (Dict.get ip_info "mobile")
        || has_info additional_info)
    (print (rule "├" "┤" width) ;;
     print (title "Additional Information" (width - 23)) ;;
     print (rule "├" "┤" width) ;;
     flag_field ip_info "proxy" "Using Proxy:" (width - 15) ;;
     flag_field ip_info "hosting" "Hosting/DC:" (width - 13) ;;
     flag_field ip_info "mobile" "Mobile Network:" (width - 17) ;;
     when (info_has additional_info "population")
       (v <- lift (info_subscript additional_info "population") ;;
        population <- lift (format_grouped rt v) ;;
        print (row "Country Population:" " " population
                 (width - 21 - Str.len population))) ;;
     when (info_has additional_info "capital")
       (v <- lift (info_subscript additional_info "capital") ;;
        n <- lift (py_len v) ;;
        print (row "Capital:" " " (py_str rt v) (width - 10 - n))) ;;
     mapping_field additional_info "currencies" currency_entry "Currencies:"
       (width - 13) (width - 13) "            " (width - 12) ;;
     mapping_field additional_info "languages" language_entry "Languages:"
       (width - 13) (width - 12) "            " (width - 12)).

(** Lines 268-316. *)
Definition network_block (ip_info : dict) (width : Z) : run unit :=
  print (rule "├" "┤" width) ;;
  print (title "Network Information" (width - 21)) ;;
  print (rule "├" "┤" width) ;;
  wrapped_field ip_info "reverse" "Reverse DNS:" " "
    (width - 15) (width - 14) "              " (width - 14) ;;
  wrapped_field ip_info "isp" "ISP:" " "
    (width - 8) (width - 6) "      " (width - 6) ;;
  wrapped_field ip_info "org" "ORG:" " "
    (width - 8) (width - 6) "      " (width - 6) ;;
  wrapped_field ip_info "as" "AS:" "  "
    (width - 8) (width - 6) "      " (width - 6) ;;
  wrapped_field ip_info "asname" "AS Name:" " "
    (width - 14) (width - 10) "          " (width - 10).

(** Lines 158-319: everything between the two corner lines. *)
Definition box (ip_info : dict) (additional_info : option dict)
           (location : string) (width : Z) : run unit :=
  location_block ip_info location width ;;
  additional_block ip_info additional_info width ;;
  network_block ip_info width ;;
  print (rule "└" "┘" width).

(** Lines 322-328: the map link and the flag link. *)
Definition trailer (ip_info : dict) (additional_info : option dict)
  : run unit :=
  when (Dict.contains ip_info "lat" && Dict.contains ip_info "lon")
    (lat <- lift (subscript ip_info "lat") ;;
     lon <- lift (subscript ip_info "lon") ;;
     let map_url :=
       "https://www.openstreetmap.org/?mlat=" ++ py_str rt lat
         ++ "&mlon=" ++ py_str rt lon ++ "#map=12/" ++ py_str rt lat
         ++ "/" ++ py_str rt lon in
     print (Str.newline ++ BLUE c ++ "View on map:" ++ ENDC c ++ " " ++ map_url)) ;;
  when (info_has additional_info "flag")
    (v <- lift (info_subscript additional_info "flag") ;;
     print (BLUE c ++ "Country flag:" ++ ENDC c ++ " " ++ py_str rt v)).

(** Lines 133-134. *)
Definition box_width : res Z :=
  match terminal_columns env with
  | Some terminal_width => Ret (Z.min 80 (terminal_width - 4))
  | None => Raise OSError
  end.

(** Line 120. *)
Definition error_line (ip_info : dict) : string :=
  RED c ++ "Error: "
    ++ py_str rt (Dict.get_default ip_info "message" (VStr "Unknown error"))
    ++ ENDC c.

Definition display_ip_info (ip_info : dict) (additional_info : option dict)
  : run unit :=
  if negb (eq_str (Dict.get ip_info "status") "success") then
    print (error_line ip_info)
  else
    width <- lift box_width ;;
    header_banner ip_info width ;;
    parts <- lift (location_parts ip_info) ;;
    location <- lift (py_join ", " parts) ;;
    box ip_info additional_info location width ;;
    trailer ip_info additional_info.

End Display.

(** ** Visible text of a terminal line *)

(** Skips the rest of an escape sequence: up to and including the letter
    that ends it. *)
Fixpoint strip_escapes (in_escape : bool) (s : string) : string :=
  match s with
  | EmptyString => ""
  | String a s' =>
      if in_escape then
        strip_escapes (negb (Ascii.eqb a "m")) s'
      else if Ascii.eqb a (ascii_of_nat 27) then strip_escapes true s'
      else String a (strip_escapes false s')
  end.

(** The text a terminal shows for a printed line, and its length in
    columns. *)
Definition visible (s : string) : string := strip_escapes false s.
Definition visible_len (s : string) : Z := Str.len (visible s).

(** ** A sample runtime

    A runtime for running the functions on concrete records: a greedy
    word wrapper on spaces, in which a word longer than the width gets a
    line of its own, and stand-ins for the two printing functions, which
    the sample records never reach. *)

Fixpoint words_of (current : string) (s : string) : list string :=
  match s with
  | EmptyString => match current with EmptyString => [] | _ => [current] end
  | String a s' =>
      if Ascii.eqb a " " then
        match current with
        | EmptyString => words_of "" s'
        | _ => current :: words_of "" s'
        end
      else words_of (current ++ String a "") s'
  end.

Fixpoint greedy_lines (width : Z) (current : string) (words : list string)
  : list string :=
  match words with
  | [] => match current with EmptyString => [] | _ => [current] end
  | w :: rest =>
      match current with
      | EmptyString => greedy_lines width w rest
      | _ =>
          if Str.len current + 1 + Str.len w <=? width
          then greedy_lines width (current ++ " " ++ w) rest
          else current :: greedy_lines width w rest
      end
  end.

Definition greedy_wrap (text : string) (width : Z) : list string :=
  greedy_lines width "" (words_of "" text).

Definition sample_runtime : Runtime := {|
  textwrap_wrap := greedy_wrap;
  repr_container := fun _ => "[...]";
  format_float_grouped := fun r => r
|}.

(** ** The enrichment client ([get_additional_info]) *)

(** The first code point of a string: a byte and the continuation bytes
    that follow it. *)
Fixpoint leading_continuations (s : string) : string :=
  match s with
  | EmptyString => ""
  | String a s' =>
      if Str.is_continuation a then String a (leading_continuations s') else ""
  end.

(** [v[0]]. *)
Definition index0 (v : value) : res value :=
  match v with
  | VList (x :: _) => Ret x
  | VList [] => Raise IndexError
  | VStr (String a s') => Ret (VStr (String a (leading_continuations s')))
  | VStr EmptyString => Raise IndexError
  | VDict _ => Raise KeyError
  | VNone | VBool _ | VInt _ | VFloat _ => Raise TypeError
  end.

(** [v.get(k, default)]: only a dict has [get]. *)
Definition value_get (v : value) (k : string) (default : value) : res value :=
  match v with
  | VDict d => Ret (Dict.get_default d k default)
  | _ => Raise AttributeError
  end.

(** [len(v) > 0] after [v] was found true. *)
Definition len_positive (v : value) : res bool :=
  match v with
  | VStr s => Ret (0 <? Str.len s)
  | VList l => Ret (0 <? Z.of_nat (List.length l))
  | VDict d => Ret (0 <? Z.of_nat (List.length d))
  | _ => Raise TypeError
  end.

(** Lines 104-110: the right-hand sides of the seven assignments, in
    order, each with the key it is stored under. *)
Definition country_fields (country : value) : list (string * res value) :=
  [ ("population", value_get country "population" VNone);
    ("capital",
      res_bind (value_get country "capital" (VList [VStr ""])) index0);
    ("currencies", value_get country "currencies" (VDict []));
    ("languages", value_get country "languages" (VDict []));
    ("flag",
      res_bind (value_get country "flags" (VDict []))
        (fun flags => value_get flags "png" (VStr "")));
    ("region", value_get country "region" VNone);
    ("subregion", value_get country "subregion" VNone) ].

(** Runs the assignments on the dict built so far; the first exception
    stops them and leaves the dict as it is at that point. *)
Fixpoint assign_all (additional_info : dict) (fields : list (string * res value))
  : dict * res unit :=
  match fields with
  | [] => (additional_info, Ret tt)
  | (k, Ret v) :: rest => assign_all (Dict.set additional_info k v) rest
  | (_, Raise e) :: _ => (additional_info, Raise e)
  end.

(** Lines 102-110, the part of the [try] block after the response was
    parsed. *)
Definition extract_country (country_data : value) (additional_info : dict)
  : dict * res unit :=
  if truthy country_data then
    match len_positive country_data with
    | Raise e => (additional_info, Raise e)
    | Ret false => (additional_info, Ret tt)
    | Ret true =>
        match index0 country_data with
        | Raise e => (additional_info, Raise e)
        | Ret country => assign_all additional_info (country_fields country)
        end
    end
  else (additional_info, Ret tt).

Section Enrichment.

Variable rt : Runtime.

(** The country-data service: for a URL, the parsed body of the
    response, or the exception [urlopen], [decode] or [json.loads]
    raises. *)
Variable country_service : string -> res value.

Definition country_url (country_code : value) : string :=
  "https://restcountries.com/v3.1/alpha/" ++ py_str rt country_code.

(** Lines 96-110: the [try] block.  It returns the dict as the block
    leaves it, the URLs it requested, and how it ended. *)
Definition lookup_country (ip_info additional_info : dict)
  : dict * list string * res unit :=
  match subscript ip_info "countryCode" with
  | Raise e => (additional_info, [], Raise e)
  | Ret country_code =>
      let url := country_url country_code in
      match country_service url with
      | Raise e => (additional_info, [url], Raise e)
      | Ret country_data =>
          let (d, r) := extract_country country_data additional_info in
          (d, [url], r)
      end
  end.

(** [except Exception: pass]: every exception of the block is dropped
    and the function goes on with the dict as it is. *)
Definition swallow (r : res unit) : res unit :=
  match r with
  | Ret tt => Ret tt
  | Raise _ => Ret tt
  end.

(** The function: the requests it made and what it returns or raises. *)
Definition get_additional_info (ip_info : dict) : list string * res dict :=
  let additional_info : dict := [] in
  if Dict.contains ip_info "countryCode" then
    let '(d, requests, r) := lookup_country ip_info additional_info in
    (requests, res_bind (swallow r) (fun _ => Ret d))
  else ([], Ret additional_info).

End Enrichment.

(** ** The address validator ([validate_ip])

    The function hands its argument to [socket.inet_aton], which calls
    the C library.  [Inet] follows the GNU C library: numbers as in C
    (decimal, octal after [0], hexadecimal after [0x]), one to four of
    them separated by dots, the last one filling the bytes that remain,
    and anything at all after a first white space. *)

Module Inet.

Definition code (a : ascii) : Z := Z.of_nat (nat_of_ascii a).

(** [isdigit]. *)
Definition is_digit (a : ascii) : bool := (48 <=? code a) && (code a <=? 57).

(** [isascii(c) && isspace(c)]. *)
Definition is_space (a : ascii) : bool :=
  (code a =? 32) || ((9 <=? code a) && (code a <=? 13)).

(** The value of a character as a digit of the base, if it is one. *)
Definition digit_value (base : Z) (a : ascii) : option Z :=
  let n := code a in
  let v :=
    if (48 <=? n) && (n <=? 57) then Some (n - 48)
    else if (97 <=? n) && (n <=? 102) then Some (n - 87)
    else if (65 <=? n) && (n <=? 70) then Some (n - 55)
    else None in
  match v with
  | Some d => if d <? base then Some d else None
  | None => None
  end.

(** Reads digits of the base as long as there are some; returns the
    number and what follows it. *)
Fixpoint digits (base acc : Z) (s : string) : Z * string :=
  match s with
  | EmptyString => (acc, s)
  | String a s' =>
      match digit_value base a with
      | Some d => digits base (acc * base + d) s'
      | None => (acc, s)
      end
  end.

Definition is_x (a : ascii) : bool := Ascii.eqb a "x" || Ascii.eqb a "X".

(** [strtoul(cp, &endp, 0)] where [cp] starts with a digit. *)
Definition strtoul (s : string) : Z * string :=
  match s with
  | String "0" (String x (String h rest)) =>
      if is_x x then
        match digit_value 16 h with
        | Some _ => digits 16 0 (String h rest)
        | None => digits 8 0 s
        end
      else digits 8 0 s
  | String "0" _ => digits 8 0 s
  | _ => digits 10 0 s
  end.

(** The largest last number when [parts] numbers came before it. *)
Definition last_max (parts : nat) : Z :=
  match parts with
  | 0%nat => 4294967295
  | 1%nat => 16777215
  | 2%nat => 65535
  | _ => 255
  end.

(** What may follow the last number: nothing, or white space and then
    anything. *)
Definition trailing_ok (rest : string) : bool :=
  match rest with
  | EmptyString => true
  | String a _ => is_space a
  end.

(** The loop of [inet_aton]; [parts] counts the numbers already stored.
    Every turn reads at least one digit, so the length of the string is
    fuel enough. *)
Fixpoint aton (fuel : nat) (parts : nat) (s : string) : bool :=
  match fuel with
  | O => false
  | S fuel' =>
      match s with
      | EmptyString => false
      | String a _ =>
          if negb (is_digit a) then false
          else
            let (val, rest) := strtoul s in
            if 4294967295 <? val then false
            else
              match rest with
              | String "." rest' =>
                  if (2 <? parts)%nat || (255 <? val) then false
                  else aton fuel' (S parts) rest'
              | _ => trailing_ok rest && (val <=? last_max parts)
              end
      end
  end.

Definition inet_aton (s : string) : bool := aton (S (String.length s)) 0 s.

Fixpoint has_nul (s : string) : bool :=
  match s with
  | EmptyString => false
  | String a s' => (code a =? 0) || has_nul s'
  end.

End Inet.

(** Lines 56-62.  A string with a NUL character cannot be passed to C:
    [socket.inet_aton] raises [ValueError], which is not the
    [socket.error] the function catches. *)
Definition validate_ip (ip : string) : res bool :=
  if Inet.has_nul ip then Raise ValueError
  else Ret (Inet.inet_aton ip).

(** ** The address grammar of the specification

    Four decimal octets, each in 0-255, separated by three dots, and
    nothing else. *)

Definition all_digits (s : string) : bool :=
  negb (String.eqb s EmptyString)
  && forallb Inet.is_digit (list_ascii_of_string s).

Definition decimal_value (s : string) : Z := fst (Inet.digits 10 0 s).

Definition is_octet (s : string) : bool :=
  all_digits s && (decimal_value s <=? 255).

Definition is_dotted_quad (s : string) : bool :=
  match Str.split_char "." s with
  | [a; b; c; d] => is_octet a && is_octet b && is_octet c && is_octet d
  | _ => false
  end.
(** ** CSV text as the [csv] writer prints it *)

Definition quote_char : ascii := ascii_of_nat 34.
Definition carriage_return : ascii := ascii_of_nat 13.
Definition crlf : string := String carriage_return Str.newline.

(** A field is quoted when it holds a comma, a quote or a line break. *)
Fixpoint needs_quotes (s : string) : bool :=
  match s with
  | EmptyString => false
  | String a s' =>
      Ascii.eqb a "," || Ascii.eqb a quote_char || Ascii.eqb a carriage_return
      || Ascii.eqb a Str.newline_char || needs_quotes s'
  end.

(** Inside quotes, a quote is written twice. *)
Fixpoint double_quotes (s : string) : string :=
  match s with
  | EmptyString => EmptyString
  | String a s' =>
      if Ascii.eqb a quote_char
      then String a (String a (double_quotes s'))
      else String a (double_quotes s')
  end.

Definition csv_field (s : string) : string :=
  if needs_quotes s
  then String quote_char (double_quotes s ++ String quote_char EmptyString)
  else s.

(** One record; a record that would be empty is written as a pair of
    quotes. *)
Definition csv_record (fields : list string) : string :=
  match fields with
  | [EmptyString] => String quote_char (String quote_char "")
  | _ => Str.join "," (map csv_field fields)
  end.

(** A record and its line terminator. *)
Definition csv_line (fields : list string) : string :=
  csv_record fields ++ crlf.

(** Whether a text holds a line break. *)
Fixpoint has_break (s : string) : bool :=
  match s with
  | EmptyString => false
  | String a s' =>
      Ascii.eqb a carriage_return || Ascii.eqb a Str.newline_char
      || has_break s'
  end.

(** ** JSON text ([json.dump] and [json.loads])

    The exporter writes its object with [json.dump(data, f, indent=2,
    ensure_ascii=False)].  [Json.dumps] is the text this call writes and
    [Json.loads] the parser that reads it back.  A number with a fraction
    or an exponent is read as the float that prints as the same text. *)

Module Json.

Definition backslash : ascii := ascii_of_nat 92.

(** A lower-case hexadecimal digit. *)
Definition hex_digit (n : Z) : ascii :=
  ascii_of_nat (Z.to_nat (if n <? 10 then 48 + n else 87 + n)).

(** How a character is written inside a string: the quote, the backslash
    and the control characters are escaped, everything else is kept. *)
Definition escape_char (a : ascii) : string :=
  let n := Inet.code a in
  if n =? 34 then String backslash (String quote_char "")
  else if n =? 92 then String backslash (String backslash "")
  else if n =? 10 then String backslash "n"
  else if n =? 13 then String backslash "r"
  else if n =? 9 then String backslash "t"
  else if n =? 8 then String backslash "b"
  else if n =? 12 then String backslash "f"
  else if n <? 32 then
    String backslash
      ("u00" ++ String (hex_digit (n / 16)) (String (hex_digit (n mod 16)) ""))
  else String a "".

Fixpoint escape (s : string) : string :=
  match s with
  | EmptyString => ""
  | String a s' => escape_char a ++ escape s'
  end.

Definition dump_string (s : string) : string :=
  String quote_char (escape s ++ String quote_char "").

(** A float is written as [repr] prints it, except the three values JSON
    has no syntax for. *)
Definition dump_float (r : string) : string :=
  if String.eqb r "nan" then "NaN"
  else if String.eqb r "inf" then "Infinity"
  else if String.eqb r "-inf" then "-Infinity"
  else r.

(** A line break and the indentation of a nesting level. *)
Definition break (level : nat) : string :=
  Str.newline ++ Str.repeat_nat "  " level.

(** The text of a value at a nesting level, with [indent=2]. *)
Fixpoint dump (level : nat) (v : value) {struct v} : string :=
  match v with
  | VNone => "null"
  | VBool true => "true"
  | VBool false => "false"
  | VInt n => Str.of_Z n
  | VFloat r => dump_float r
  | VStr s => dump_string s
  | VList [] => "[]"
  | VList (x :: xs) =>
      "[" ++ break (S level) ++ dump (S level) x
        ++ (fix more (l : list value) : string :=
              match l with
              | [] => break level ++ "]"
              | y :: l' => "," ++ break (S level) ++ dump (S level) y ++ more l'
              end) xs
  | VDict [] => "{}"
  | VDict ((k, x) :: ms) =>
      "{" ++ break (S level) ++ dump_string k ++ ": " ++ dump (S level) x
        ++ (fix more (l : list (string * value)) : string :=
              match l with
              | [] => break level ++ "}"
              | (k', y) :: l' =>
                  "," ++ break (S level) ++ dump_string k' ++ ": "
                    ++ dump (S level) y ++ more l'
              end) ms
  end.

(** The rest of a list after its first item, and of an object after its
    first member: the same text as inside [dump]. *)
Definition more_items (level : nat) : list value -> string :=
  fix more (l : list value) : string :=
    match l with
    | [] => break level ++ "]"
    | y :: l' => "," ++ break (S level) ++ dump (S level) y ++ more l'
    end.

Definition more_members (level : nat) : list (string * value) -> string :=
  fix more (l : list (string * value)) : string :=
    match l with
    | [] => break level ++ "}"
    | (k', y) :: l' =>
        "," ++ break (S level) ++ dump_string k' ++ ": "
          ++ dump (S level) y ++ more l'
    end.

Definition dumps (v : value) : string := dump 0 v.

(** *** Reading *)

Definition is_ws (a : ascii) : bool :=
  let n := Inet.code a in
  (n =? 32) || (n =? 9) || (n =? 10) || (n =? 13).

Fixpoint skip_ws (s : string) : string :=
  match s with
  | EmptyString => ""
  | String a s' => if is_ws a then skip_ws s' else s
  end.

(** The UTF-8 bytes of a code point of the basic plane. *)
Definition utf8 (cp : Z) : string :=
  let byte (n : Z) := ascii_of_nat (Z.to_nat n) in
  if cp <? 128 then String (byte cp) ""
  else if cp <? 2048 then
    String (byte (192 + cp / 64)) (String (byte (128 + cp mod 64)) "")
  else
    String (byte (224 + cp / 4096))
      (String (byte (128 + (cp / 64) mod 64))
         (String (byte (128 + cp mod 64)) "")).

Definition hex4 (a b c d : ascii) : option Z :=
  match Inet.digit_value 16 a, Inet.digit_value 16 b,
        Inet.digit_value 16 c, Inet.digit_value 16 d with
  | Some x, Some y, Some z, Some t => Some (((x * 16 + y) * 16 + z) * 16 + t)
  | _, _, _, _ => None
  end.

(** The character a one-letter escape stands for. *)
Definition unescape (e : ascii) : option ascii :=
  let n := Inet.code e in
  if n =? 34 then Some quote_char
  else if n =? 92 then Some backslash
  else if n =? 47 then Some "/"%char
  else if n =? 110 then Some (ascii_of_nat 10)
  else if n =? 114 then Some (ascii_of_nat 13)
  else if n =? 116 then Some (ascii_of_nat 9)
  else if n =? 98 then Some (ascii_of_nat 8)
  else if n =? 102 then Some (ascii_of_nat 12)
  else None.

Definition prepend (p : string) (r : option (string * string))
  : option (string * string) :=
  match r with
  | Some (s, rest) => Some (p ++ s, rest)
  | None => None
  end.

(** The characters of a string after its opening quote, up to the closing
    quote; returns the string and what follows the quote. *)
Fixpoint string_body (s : string) : option (string * string) :=
  match s with
  | EmptyString => None
  | String a rest =>
      if Ascii.eqb a quote_char then Some ("", rest)
      else if Ascii.eqb a backslash then
        match rest with
        | EmptyString => None
        | String e rest' =>
            match unescape e with
            | Some ch => prepend (String ch "") (string_body rest')
            | None =>
                if Ascii.eqb e "u" then
                  match rest' with
                  | String h1 (String h2 (String h3 (String h4 rest''))) =>
                      match hex4 h1 h2 h3 h4 with
                      | Some cp => prepend (utf8 cp) (string_body rest'')
                      | None => None
                      end
                  | _ => None
                  end
                else None
            end
        end
      else if Inet.code a <? 32 then None
      else prepend (String a "") (string_body rest)
  end.

(** The characters a number is made of. *)
Definition is_number_char (a : ascii) : bool :=
  Inet.is_digit a || Ascii.eqb a "-" || Ascii.eqb a "+" || Ascii.eqb a "."
  || Ascii.eqb a "e" || Ascii.eqb a "E".

Fixpoint take_number (s : string) : string * string :=
  match s with
  | EmptyString => ("", "")
  | String a s' =>
      if is_number_char a
      then let (t, rest) := take_number s' in (String a t, rest)
      else ("", s)
  end.

Fixpoint skip_digits (s : string) : string :=
  match s with
  | EmptyString => ""
  | String a s' => if Inet.is_digit a then skip_digits s' else s
  end.

(** One digit at least, then what follows the digits. *)
Definition digits1 (s : string) : option string :=
  match s with
  | String a s' => if Inet.is_digit a then Some (skip_digits s') else None
  | EmptyString => None
  end.

(** The integer part: a zero, or digits that do not start with zero. *)
Definition int_part (s : string) : option string :=
  match s with
  | String a s' => if Ascii.eqb a "0" then Some s' else digits1 s
  | EmptyString => None
  end.

Definition skip_sign (s : string) : string :=
  match s with
  | String a s' => if Ascii.eqb a "-" then s' else s
  | EmptyString => ""
  end.

Definition skip_exp_sign (s : string) : string :=
  match s with
  | String a s' => if Ascii.eqb a "-" || Ascii.eqb a "+" then s' else s
  | EmptyString => ""
  end.

(** The exponent, when there is one; nothing may follow it. *)
Definition exp_part (s : string) : option bool :=
  match s with
  | EmptyString => Some false
  | String a s' =>
      if Ascii.eqb a "e" || Ascii.eqb a "E" then
        match digits1 (skip_exp_sign s') with
        | Some EmptyString => Some true
        | _ => None
        end
      else None
  end.

(** Whether a token is a number with a fraction or an exponent. *)
Definition is_float_token (t : string) : bool :=
  match int_part (skip_sign t) with
  | Some (String a s' as after) =>
      if Ascii.eqb a "." then
        match digits1 s' with
        | Some s'' => match exp_part s'' with Some _ => true | None => false end
        | None => false
        end
      else match exp_part after with Some true => true | _ => false end
  | Some EmptyString => false
  | None => false
  end.

(** The digits of a decimal number do not start with a zero, unless the
    number is zero. *)
Definition canonical (d : Decimal.uint) : bool :=
  match d with
  | Decimal.D0 Decimal.Nil => true
  | Decimal.D0 _ => false
  | Decimal.Nil => false
  | _ => true
  end.

Definition int_of_token (t : string) : option Z :=
  match NilZero.int_of_string t with
  | Some d => if canonical (Decimal.abs d) then Some (Z.of_int d) else None
  | None => None
  end.

Definition number_of_token (t : string) : option value :=
  if is_float_token t then Some (VFloat t)
  else option_map VInt (int_of_token t).

Definition literal (word : string) (v : value) (s : string)
  : option (value * string) :=
  match Str.drop_prefix word s with
  | Some rest => Some (v, rest)
  | None => None
  end.

(** A value at the head of the text, and the text after it.  Every call
    reads at least one character, so the length of the text is fuel
    enough. *)
Fixpoint parse_value (fuel : nat) (s : string) {struct fuel}
  : option (value * string) :=
  match fuel with
  | O => None
  | S fuel' =>
      match s with
      | EmptyString => None
      | String a rest =>
          if Ascii.eqb a quote_char then
            match string_body rest with
            | Some (str, rest') => Some (VStr str, rest')
            | None => None
            end
          else if Ascii.eqb a "[" then
            match skip_ws rest with
            | EmptyString => None
            | String b rest' =>
                if Ascii.eqb b "]" then Some (VList [], rest')
                else
                  match parse_items fuel' (String b rest') with
                  | Some (items, rest'') => Some (VList items, rest'')
                  | None => None
                  end
            end
          else if Ascii.eqb a "{" then
            match skip_ws rest with
            | EmptyString => None
            | String b rest' =>
                if Ascii.eqb b "}" then Some (VDict [], rest')
                else
                  match parse_members fuel' [] (String b rest') with
                  | Some (members, rest'') => Some (VDict members, rest'')
                  | None => None
                  end
            end
          else if Ascii.eqb a "n" then literal "null" VNone s
          else if Ascii.eqb a "t" then literal "true" (VBool true) s
          else if Ascii.eqb a "f" then literal "false" (VBool false) s
          else if Ascii.eqb a "N" then literal "NaN" (VFloat "nan") s
          else if Ascii.eqb a "I" then literal "Infinity" (VFloat "inf") s
          else if Str.startswith s "-Infinity" then
            literal "-Infinity" (VFloat "-inf") s
          else
            let (t, rest') := take_number s in
            match number_of_token t with
            | Some v => Some (v, rest')
            | None => None
            end
      end
  end

with parse_items (fuel : nat) (s : string) {struct fuel}
  : option (list value * string) :=
  match fuel with
  | O => None
  | S fuel' =>
      match parse_value fuel' s with
      | Some (v, rest) =>
          match skip_ws rest with
          | EmptyString => None
          | String b rest' =>
              if Ascii.eqb b "]" then Some ([v], rest')
              else if Ascii.eqb b "," then
                match parse_items fuel' (skip_ws rest') with
                | Some (vs, rest'') => Some (v :: vs, rest'')
                | None => None
                end
              else None
          end
      | None => None
      end
  end

with parse_members (fuel : nat) (acc : dict) (s : string) {struct fuel}
  : option (dict * string) :=
  match fuel with
  | O => None
  | S fuel' =>
      match s with
      | EmptyString => None
      | String a rest =>
          if Ascii.eqb a quote_char then
            match string_body rest with
            | Some (k, rest1) =>
                match skip_ws rest1 with
                | EmptyString => None
                | String b rest2 =>
                    if Ascii.eqb b ":" then
                      match parse_value fuel' (skip_ws rest2) with
                      | Some (v, rest3) =>
                          let acc' := Dict.set acc k v in
                          match skip_ws rest3 with
                          | EmptyString => None
                          | String d rest4 =>
                              if Ascii.eqb d "}" then Some (acc', rest4)
                              else if Ascii.eqb d "," then
                                parse_members fuel' acc' (skip_ws rest4)
                              else None
                          end
                      | None => None
                      end
                    else None
                end
            | None => None
            end
          else None
      end
  end.

(** [json.loads]: one value, white space around it, and nothing else. *)
Definition loads (s : string) : option value :=
  match parse_value (S (String.length s)) (skip_ws s) with
  | Some (v, rest) =>
      match skip_ws rest with
      | EmptyString => Some v
      | _ => None
      end
  | None => None
  end.

(** The values [json.loads] can return and [json.dump] writes back as
    they are: the keys of every object are distinct, and every float is
    one of the three special values or prints as a number with a fraction
    or an exponent. *)
Definition float_ok (r : string) : bool :=
  String.eqb r "nan" || String.eqb r "inf" || String.eqb r "-inf"
  || (is_float_token r && forallb is_number_char (list_ascii_of_string r)).

Fixpoint distinct (keys : list string) : bool :=
  match keys with
  | [] => true
  | k :: rest =>
      negb (existsb (String.eqb k) rest) && distinct rest
  end.

Fixpoint well_formed (v : value) {struct v} : bool :=
  match v with
  | VFloat r => float_ok r
  | VList items =>
      (fix all (l : list value) : bool :=
         match l with
         | [] => true
         | x :: l' => well_formed x && all l'
         end) items
  | VDict members =>
      distinct (map fst members)
      && (fix all (l : list (string * value)) : bool :=
            match l with
            | [] => true
            | (_, x) :: l' => well_formed x && all l'
            end) members
  | _ => true
  end.

Definition all_items : list value -> bool :=
  fix all (l : list value) : bool :=
    match l with
    | [] => true
    | x :: l' => well_formed x && all l'
    end.

Definition all_members : list (string * value) -> bool :=
  fix all (l : list (string * value)) : bool :=
    match l with
    | [] => true
    | (_, x) :: l' => well_formed x && all l'
    end.

(** The number of values in a value, each item counted once more. *)
Fixpoint size (v : value) {struct v} : nat :=
  match v with
  | VList items =>
      S ((fix sum (l : list value) : nat :=
            match l with
            | [] => O
            | x :: l' => (S (size x) + sum l')%nat
            end) items)
  | VDict members =>
      S ((fix sum (l : list (string * value)) : nat :=
            match l with
            | [] => O
            | (_, x) :: l' => (S (size x) + sum l')%nat
            end) members)
  | _ => 1%nat
  end.

Definition items_size : list value -> nat :=
  fix sum (l : list value) : nat :=
    match l with
    | [] => O
    | x :: l' => (S (size x) + sum l')%nat
    end.

Definition members_size : list (string * value) -> nat :=
  fix sum (l : list (string * value)) : nat :=
    match l with
    | [] => O
    | (_, x) :: l' => (S (size x) + sum l')%nat
    end.

End Json.

(** ** Programs with files, requests and exit codes

    The exporters and [main] do more than print: they write files, send
    requests, prompt, and leave through [sys.exit].  Their runs are logs
    of events. *)

Inductive event : Type :=
| Printed (text : string)
| ScreenCleared
| Validated (candidate : string) (valid : bool)
| Requested (url : string)
| FileWritten (filename : string) (text : string)
| Prompted (text : string)
| BrowserOpened (url : string).

(** How a program stops before its end. *)
Inductive stop : Type :=
| Exit (code : Z)
| Uncaught (e : exn).

Inductive ending (A : Type) : Type :=
| Done (a : A)
| Stopped (s : stop).
Arguments Done {A} a.
Arguments Stopped {A} s.

Record prog (A : Type) : Type := Prog { trace : list event; final : ending A }.
Arguments Prog {A} trace final.
Arguments trace {A} p.
Arguments final {A} p.

Module P.

Definition ret {A} (a : A) : prog A := Prog [] (Done a).
Definition emit (e : event) : prog unit := Prog [e] (Done tt).
Definition say (text : string) : prog unit := emit (Printed text).
Definition exit {A} (code : Z) : prog A := Prog [] (Stopped (Exit code)).
Definition throw {A} (e : exn) : prog A := Prog [] (Stopped (Uncaught e)).

Definition of_res {A} (r : res A) : prog A :=
  match r with
  | Ret a => ret a
  | Raise e => throw e
  end.

(** A printing run as a program: each line becomes a [Printed] event. *)
Definition of_run {A} (r : run A) : prog A :=
  Prog (map Printed (printed r))
       (match outcome r with
        | Ret a => Done a
        | Raise e => Stopped (Uncaught e)
        end).

Definition bind {A B} (m : prog A) (k : A -> prog B) : prog B :=
  let rest :=
    match final m with
    | Done a => k a
    | Stopped s => Prog [] (Stopped s)
    end in
  Prog (trace m ++ trace rest) (final rest).

(** [try: body except Exception: handler]: an exit is not an
    [Exception] and passes through. *)
Definition try_except {A} (body : prog A) (handler : exn -> prog A) : prog A :=
  match final body with
  | Stopped (Uncaught e) =>
      let h := handler e in Prog (trace body ++ trace h) (final h)
  | _ => body
  end.

Definition when (b : bool) (body : prog unit) : prog unit :=
  if b then body else ret tt.

End P.

Declare Scope prog_scope.
Delimit Scope prog_scope with prog.
Notation "x <- m ;; k" := (P.bind m (fun x => k))
  (at level 61, m at next level, right associativity) : prog_scope.
Notation "m ;; k" := (P.bind m (fun _ => k))
  (at level 61, right associativity) : prog_scope.

(** ** The world around one run of the tool *)

Record World : Type := {
  (** The terminal and the clock. *)
  surroundings : Env;
  (** [https://api.ipify.org]: the decoded body, or [URLError]. *)
  public_ip_service : res string;
  (** [ip-api.com]: for a URL, the JSON object of the parsed body, or the
      exception. *)
  geolocation_service : string -> res dict;
  (** [restcountries.com]: for a URL, the parsed body or the exception. *)
  country_data_service : string -> res value;
  (** [open(filename, 'w')]. *)
  open_for_writing : string -> res unit;
  (** What [input] returns. *)
  typed_answer : res string;
  (** [os.path.abspath]. *)
  abspath : string -> string;
  (** [webbrowser.open]: what it returns, [True] when a browser showed
      the page and [False] when none could be started, or the exception
      it raises. *)
  open_browser : string -> res bool
}.

(** [with open(filename, 'w') as f: f.write(body)]. *)
Definition write_file (w : World) (filename : string) (text : string)
  : prog unit :=
  (P.of_res (open_for_writing w filename) ;;
   P.emit (FileWritten filename text))%prog.

(** ** The JSON exporter ([export_to_json]) *)

Section Exporters.

Variable rt : Runtime.
Variable c : Colors.
Variable w : World.

Definition exported_line (filename : string) : string :=
  GREEN c ++ "Data exported to " ++ filename ++ ENDC c.

(** Lines 332-339: the object handed to [json.dump]. *)
Definition json_data (ip_info : dict) (additional_info : option dict) : dict :=
  let data := ip_info in
  let data :=
    match additional_info with
    | Some info =>
        if has_info additional_info
        then Dict.set data "additional_info" (VDict info)
        else data
    | None => data
    end in
  Dict.set data "timestamp" (VStr (clock (surroundings w))).

Definition export_to_json (ip_info : dict) (additional_info : option dict)
           (filename : string) : prog unit :=
  (write_file w filename (Json.dumps (VDict (json_data ip_info additional_info))) ;;
   P.say (exported_line filename))%prog.

(** ** The CSV exporter ([export_to_csv]) *)

(** Line 355: one entry of a flattened mapping. *)
Definition flat_entry (entry : string * value) : string :=
  let (k, v) := entry in
  if is_str v then k ++ ": " ++ py_str rt v else k.

(** Lines 353-358: what is stored for one enrichment value. *)
Definition flat_value (v : value) : value :=
  match v with
  | VDict d => VStr (Str.join ", " (map flat_entry (Dict.items d)))
  | _ => v
  end.

(** Lines 352-358: the loop over the enrichment items. *)
Fixpoint flatten_into (flat_data : dict) (items : list (string * value)) : dict :=
  match items with
  | [] => flat_data
  | (key, v) :: rest =>
      flatten_into (Dict.set flat_data ("additional_" ++ key) (flat_value v)) rest
  end.

(** Lines 349-361. *)
Definition csv_flat_data (ip_info : dict) (additional_info : option dict) : dict :=
  let flat_data := ip_info in
  let flat_data :=
    match additional_info with
    | Some info =>
        if has_info additional_info
        then flatten_into flat_data (Dict.items info)
        else flat_data
    | None => flat_data
    end in
  Dict.set flat_data "timestamp" (VStr (clock (surroundings w))).

(** The [csv] writer prints [None] as an empty cell, a string as it is
    and anything else through [str]. *)
Definition csv_cell (v : value) : string :=
  match v with
  | VNone => ""
  | VStr s => s
  | _ => py_str rt v
  end.

(** The two rows [DictWriter] is asked to write: the field names, and
    the value of every field name. *)
Definition csv_header (flat_data : dict) : list string := Dict.keys flat_data.

Definition csv_row (flat_data : dict) : list string :=
  map (fun k => csv_cell (Dict.get_default flat_data k (VStr "")))
      (Dict.keys flat_data).

End Exporters.

Section CsvExport.

Variable rt : Runtime.
Variable c : Colors.
Variable w : World.

(** Lines 363-366: header, then the single row. *)
Definition csv_text (flat_data : dict) : string :=
  csv_line (csv_header flat_data) ++ csv_line (csv_row rt flat_data).

Definition export_to_csv (ip_info : dict) (additional_info : option dict)
           (filename : string) : prog unit :=
  (let flat_data := csv_flat_data rt w ip_info additional_info in
   write_file w filename (csv_text flat_data) ;;
   P.say (exported_line c filename))%prog.

End CsvExport.

(** ** The HTML exporter ([export_to_html]) *)

(** The double quote character of the page's attributes. *)
Definition dq : string := String (ascii_of_nat 34) EmptyString.

(** ["Yes" if v else "No"]. *)
Definition yes_no (v : value) : string := if truthy v then "Yes" else "No".

Section Html.

Variable rt : Runtime.
Variable c : Colors.
Variable w : World.

(** Lines 378-393: the map, when both coordinates are present. *)
Definition html_map (ip_info : dict) : string :=
  if Dict.contains ip_info "lat" && Dict.contains ip_info "lon" then
    ("
        <div class="
    ++ dq
    ++ "map-container"
    ++ dq
    ++ ">
            <h2>Location Map</h2>
            <div id="
    ++ dq
    ++ "map"
    ++ dq
    ++ "></div>
            <script>
                var map = L.map('map').setView(["
    ++ py_str rt (Dict.get ip_info "lat")
    ++ ", "
    ++ py_str rt (Dict.get ip_info "lon")
    ++ "], 10);
                L.tileLayer('https://{s}.tile.openstreetmap.org/{z}/{x}/{y}.png', {
                    attribution: '&copy; <a href="
    ++ dq
    ++ "https://www.openstreetmap.org/copyright"
    ++ dq
    ++ ">OpenStreetMap</a> contributors'
                }).addTo(map);
                L.marker(["
    ++ py_str rt (Dict.get ip_info "lat")
    ++ ", "
    ++ py_str rt (Dict.get ip_info "lon")
    ++ "]).addTo(map)
                    .bindPopup("
    ++ dq
    ++ py_str rt (Dict.get_default ip_info "city" (VStr EmptyString))
    ++ ", "
    ++ py_str rt (Dict.get_default ip_info "regionName" (VStr EmptyString))
    ++ ", "
    ++ py_str rt (Dict.get_default ip_info "country" (VStr EmptyString))
    ++ dq
    ++ ")
                    .openPopup();
            </script>
        </div>
        ")
  else EmptyString.

(** Lines 396-402: the flag image, when the enrichment has one. *)
Definition html_flag (additional_info : option dict) : string :=
  match additional_info with
  | Some info =>
      if info_has additional_info "flag" then
        ("
        <div class="
    ++ dq
    ++ "flag-container"
    ++ dq
    ++ ">
            <h2>Country Flag</h2>
            <img src="
    ++ dq
    ++ py_str rt (Dict.get info "flag")
    ++ dq
    ++ " alt="
    ++ dq
    ++ "Country flag"
    ++ dq
    ++ " class="
    ++ dq
    ++ "flag"
    ++ dq
    ++ ">
        </div>
        ")
      else EmptyString
  | None => EmptyString
  end.

(** Lines 408-414. *)
Definition html_population_row (info : dict) : res string :=
  if truthy (Dict.get info "population") then
    res_bind (format_grouped rt (Dict.get info "population")) (fun population =>
    Ret ("
            <tr>
                <td>Population</td>
                <td>"
    ++ population
    ++ "</td>
            </tr>
            "))
  else Ret EmptyString.

(** Lines 416-422. *)
Definition html_capital_row (info : dict) : string :=
  if truthy (Dict.get info "capital") then
    ("
            <tr>
                <td>Capital</td>
                <td>"
    ++ py_str rt (Dict.get info "capital")
    ++ "</td>
            </tr>
            ")
  else EmptyString.

(** Lines 424-437. *)
Definition html_currencies_row (info : dict) : res string :=
  if truthy (Dict.get info "currencies") then
    res_bind (dict_items (Dict.get info "currencies")) (fun items =>
    let currencies := map (currency_entry rt) items in
    Ret ("
            <tr>
                <td>Currencies</td>
                <td>"
    ++ Str.join ", " currencies
    ++ "</td>
            </tr>
            "))
  else Ret EmptyString.

(** Lines 439-449. *)
Definition html_languages_row (info : dict) : res string :=
  if truthy (Dict.get info "languages") then
    res_bind (dict_items (Dict.get info "languages")) (fun items =>
    let languages := map (language_entry rt) items in
    Ret ("
            <tr>
                <td>Languages</td>
                <td>"
    ++ Str.join ", " languages
    ++ "</td>
            </tr>
            "))
  else Ret EmptyString.

(** Lines 406-449: the rows of the demographic table, in order. *)
Definition html_additional_rows (info : dict) : res string :=
  res_bind (html_population_row info) (fun r1 =>
  let r2 := html_capital_row info in
  res_bind (html_currencies_row info) (fun r3 =>
  res_bind (html_languages_row info) (fun r4 =>
  Ret (r1 ++ r2 ++ r3 ++ r4)))).

(** Lines 405-459: the demographic table, when it has a row. *)
Definition html_additional (additional_info : option dict) : res string :=
  match additional_info with
  | Some info =>
      if has_info additional_info then
        res_bind (html_additional_rows info) (fun additional_rows =>
        if negb (String.eqb additional_rows EmptyString) then
          Ret ("
            <div class="
    ++ dq
    ++ "info-container"
    ++ dq
    ++ ">
                <h2>Additional Country Information</h2>
                <table class="
    ++ dq
    ++ "info-table"
    ++ dq
    ++ ">
                    "
    ++ additional_rows
    ++ "
                </table>
            </div>
            ")
        else Ret EmptyString)
      else Ret EmptyString
  | None => Ret EmptyString
  end.

(** Lines 462-561: the rows of the main table. *)
Definition html_info_rows (ip_info : dict) (location : string) : string :=
  ("
    <tr>
        <td>IP Address</td>
        <td>"
    ++ py_str rt (Dict.get_default ip_info "query" (VStr "N/A"))
    ++ "</td>
    </tr>
    <tr>
        <td>Location</td>
        <td>"
    ++ location
    ++ "</td>
    </tr>
    ")
  ++ (if truthy (Dict.get ip_info "continent") then
        ("
        <tr>
            <td>Continent</td>
            <td>"
    ++ py_str rt (Dict.get ip_info "continent")
    ++ " ("
    ++ py_str rt (Dict.get_default ip_info "continentCode" (VStr EmptyString))
    ++ ")</td>
        </tr>
        ")
      else EmptyString)
  ++ (if Dict.contains ip_info "lat" && Dict.contains ip_info "lon" then
        ("
        <tr>
            <td>Coordinates</td>
            <td>"
    ++ py_str rt (Dict.get ip_info "lat")
    ++ ", "
    ++ py_str rt (Dict.get ip_info "lon")
    ++ "</td>
        </tr>
        ")
      else EmptyString)
  ++ (if truthy (Dict.get ip_info "timezone") then
        ("
        <tr>
            <td>Timezone</td>
            <td>"
    ++ py_str rt (Dict.get ip_info "timezone")
    ++ "</td>
        </tr>
        ")
      else EmptyString)
  ++ (if is_not_none (Dict.get ip_info "proxy") then
        ("
        <tr>
            <td>Using Proxy</td>
            <td>"
    ++ yes_no (Dict.get ip_info "proxy")
    ++ "</td>
        </tr>
        ")
      else EmptyString)
  ++ (if is_not_none (Dict.get ip_info "hosting") then
        ("
        <tr>
            <td>Hosting/DC</td>
            <td>"
    ++ yes_no (Dict.get ip_info "hosting")
    ++ "</td>
        </tr>
        ")
      else EmptyString)
  ++ (if is_not_none (Dict.get ip_info "mobile") then
        ("
        <tr>
            <td>Mobile Network</td>
            <td>"
    ++ yes_no (Dict.get ip_info "mobile")
    ++ "</td>
        </tr>
        ")
      else EmptyString)
  ++ (if truthy (Dict.get ip_info "isp") then
        ("
        <tr>
            <td>ISP</td>
            <td>"
    ++ py_str rt (Dict.get ip_info "isp")
    ++ "</td>
        </tr>
        ")
      else EmptyString)
  ++ (if truthy (Dict.get ip_info "org") then
        ("
        <tr>
            <td>Organization</td>
            <td>"
    ++ py_str rt (Dict.get ip_info "org")
    ++ "</td>
        </tr>
        ")
      else EmptyString)
  ++ (if truthy (Dict.get ip_info "as") then
        ("
        <tr>
            <td>AS</td>
            <td>"
    ++ py_str rt (Dict.get ip_info "as")
    ++ "</td>
        </tr>
        ")
      else EmptyString).

(** Lines 564-681: the page around the pieces. *)
Definition html_page (ip_info : dict) (timestamp info_rows additional_html
                      flag_html map_html : string) : string :=
  ("<!DOCTYPE html>
<html lang="
    ++ dq
    ++ "en"
    ++ dq
    ++ ">
<head>
    <meta charset="
    ++ dq
    ++ "UTF-8"
    ++ dq
    ++ ">
    <meta name="
    ++ dq
    ++ "viewport"
    ++ dq
    ++ " content="
    ++ dq
    ++ "width=device-width, initial-scale=1.0"
    ++ dq
    ++ ">
    <title>IP Geolocation: "
    ++ py_str rt (Dict.get_default ip_info "query" (VStr "Unknown IP"))
    ++ "</title>
    <link rel="
    ++ dq
    ++ "stylesheet"
    ++ dq
    ++ " href="
    ++ dq
    ++ "https://unpkg.com/leaflet@1.7.1/dist/leaflet.css"
    ++ dq
    ++ "
          integrity="
    ++ dq
    ++ "sha512-xodZBNTC5n17Xt2atTPuE1HxjVMSvLVW9ocqUKLsCC5CXdbqCmblAshOMAS6/keqq/sMZMZ19scR4PsZChSR7A=="
    ++ dq
    ++ "
          crossorigin="
    ++ dq
    ++ dq
    ++ "/>
    <script src="
    ++ dq
    ++ "https://unpkg.com/leaflet@1.7.1/dist/leaflet.js"
    ++ dq
    ++ "
            integrity="
    ++ dq
    ++ "sha512-XQoYMqMTK8LvdxXYG3nZ448hOEQiglfqkJs1NOQV44cWnUrBc8PkAOcXy20w0vlaXaVUearIOBhiXZ5V3ynxwA=="
    ++ dq
    ++ "
            crossorigin="
    ++ dq
    ++ dq
    ++ "></script>
    <style>
        body {
            font-family: Arial, sans-serif;
            line-height: 1.6;
            margin: 0;
            padding: 20px;
            color: #333;
            background-color: #f5f5f5;
        }
        .container {
            max-width: 1200px;
            margin: 0 auto;
            background-color: white;
            padding: 20px;
            border-radius: 5px;
            box-shadow: 0 0 10px rgba(0,0,0,0.1);
        }
        header {
            background-color: #3498db;
            color: white;
            padding: 20px;
            text-align: center;
            border-radius: 5px 5px 0 0;
            margin-bottom: 20px;
        }
        h1, h2 {
            margin-top: 0;
        }
        .info-container {
            margin-bottom: 20px;
        }
        .info-table {
            width: 100%;
            border-collapse: collapse;
        }
        .info-table td, .info-table th {
            padding: 12px 15px;
            border: 1px solid #ddd;
        }
        .info-table tr:nth-child(even) {
            background-color: #f2f2f2;
        }
        .info-table tr:hover {
            background-color: #ddd;
        }
        .map-container {
            margin-top: 20px;
        }
        #map {
            height: 400px;
            border-radius: 5px;
            margin-bottom: 20px;
        }
        .flag {
            max-width: 200px;
            border: 1px solid #ddd;
        }
        footer {
            text-align: center;
            margin-top: 20px;
            padding: 10px;
            background-color: #f2f2f2;
            border-radius: 0 0 5px 5px;
        }
        .two-column {
            display: flex;
            flex-wrap: wrap;
            gap: 20px;
        }
        .column {
            flex: 1;
            min-width: 300px;
        }
    </style>
</head>
<body>
    <div class="
    ++ dq
    ++ "container"
    ++ dq
    ++ ">
        <header>
            <h1>IP Geolocation Report</h1>
            <p>Generated on "
    ++ timestamp
    ++ "</p>
        </header>
        
        <div class="
    ++ dq
    ++ "info-container"
    ++ dq
    ++ ">
            <h2>IP Information: "
    ++ py_str rt (Dict.get_default ip_info "query" (VStr "Unknown IP"))
    ++ "</h2>
            <table class="
    ++ dq
    ++ "info-table"
    ++ dq
    ++ ">
                "
    ++ info_rows
    ++ "
            </table>
        </div>
        
        <div class="
    ++ dq
    ++ "two-column"
    ++ dq
    ++ ">
            <div class="
    ++ dq
    ++ "column"
    ++ dq
    ++ ">
                "
    ++ additional_html
    ++ "
                "
    ++ flag_html
    ++ "
            </div>
            <div class="
    ++ dq
    ++ "column"
    ++ dq
    ++ ">
                "
    ++ map_html
    ++ "
            </div>
        </div>
        
        <footer>
            <p>Generated by IP Geolocation Tool v1.1</p>
        </footer>
    </div>
</body>
</html>
").

(** Lines 372-561: the whole document, or the exception met while
    building it. *)
Definition html_document (ip_info : dict) (additional_info : option dict)
  : res string :=
  let timestamp := clock (surroundings w) in
  let map_html := html_map ip_info in
  let flag_html := html_flag additional_info in
  res_bind (html_additional additional_info) (fun additional_html =>
  res_bind (location_parts rt ip_info) (fun parts =>
  res_bind (py_join ", " parts) (fun location =>
  let info_rows := html_info_rows ip_info location in
  Ret (html_page ip_info timestamp info_rows additional_html flag_html map_html)))).

End Html.

Section HtmlExport.

Variable rt : Runtime.
Variable c : Colors.
Variable w : World.

(** [s.lower() == 'y']. *)
Definition answered_yes (s : string) : bool :=
  String.eqb s "y" || String.eqb s "Y".

(** Lines 683-694: write the page, then offer to open it.  What
    [webbrowser.open] returns is not looked at: the advice to open the
    file by hand is printed only when the call raises.  The log has a
    [BrowserOpened] when the call returned [True]. *)
Definition export_to_html (ip_info : dict) (additional_info : option dict)
           (filename : string) : prog unit :=
  (html <- P.of_res (html_document rt w ip_info additional_info) ;;
   write_file w filename html ;;
   P.say (exported_line c filename) ;;
   P.emit (Prompted (YELLOW c
             ++ "Do you want to open the HTML report in your browser? (y/n): "
             ++ ENDC c)) ;;
   open_browser_answer <- P.of_res (typed_answer w) ;;
   P.when (answered_yes open_browser_answer)
     (P.try_except
        (let url := "file://" ++ abspath w filename in
         shown <- P.of_res (open_browser w url) ;;
         P.when shown (P.emit (BrowserOpened url)))
        (fun _ =>
           P.say (RED c ++ "Could not open browser automatically. Please open "
                    ++ filename ++ " manually." ++ ENDC c))))%prog.

End HtmlExport.

(** Lines 39-53: the text [print_banner] prints. *)
Definition banner (c : Colors) : string :=
  "
    "
    ++ CYAN c
    ++ BOLD c
    ++ "╔═════════════════════════════════════════════════╗
    ║                                                 ║
    ║  "
    ++ BLUE c
    ++ "██╗██████╗  ██████╗ ███████╗ ██████╗"
    ++ CYAN c
    ++ "         ║
    ║  "
    ++ BLUE c
    ++ "██║██╔══██╗██╔════╝ ██╔════╝██╔═══██╗"
    ++ CYAN c
    ++ "        ║
    ║  "
    ++ BLUE c
    ++ "██║██████╔╝██║  ███╗█████╗  ██║   ██║"
    ++ CYAN c
    ++ "        ║
    ║  "
    ++ BLUE c
    ++ "██║██╔═══╝ ██║   ██║██╔══╝  ██║   ██║"
    ++ CYAN c
    ++ "        ║
    ║  "
    ++ BLUE c
    ++ "██║██║     ╚██████╔╝███████╗╚██████╔╝"
    ++ CYAN c
    ++ "        ║
    ║  "
    ++ BLUE c
    ++ "╚═╝╚═╝      ╚═════╝ ╚══════╝ ╚═════╝"
    ++ CYAN c
    ++ "         ║
    ║                                                 ║
    ║       "
    ++ GREEN c
    ++ "IP Geolocation Tool v1.1"
    ++ CYAN c
    ++ "                ║
    ║       "
    ++ YELLOW c
    ++ "Find location details for any IP"
    ++ CYAN c
    ++ "         ║
    ║                                                 ║
    ╚═════════════════════════════════════════════════╝"
    ++ ENDC c
    ++ "
    ".

(** ** The command line and [main] *)

Inductive Format : Type := terminal | json | csv | html.

Definition format_name (f : Format) : string :=
  match f with
  | terminal => "terminal"
  | json => "json"
  | csv => "csv"
  | html => "html"
  end.

(** What [argparse] returns.  A positional argument or an option that was
    not given is [None]. *)
Record Args : Type := {
  ip : option string;
  simple : bool;
  detailed : bool;
  format : Format;
  output : option string
}.

(** [not s] for an optional string: true for [None] and for the empty
    string. *)
Definition missing (s : option string) : bool :=
  match s with
  | None => true
  | Some t => String.eqb t EmptyString
  end.

Definition text_of (s : option string) : string :=
  match s with
  | Some t => t
  | None => "None"
  end.

Section Main.

Variable rt : Runtime.
Variable w : World.

(** Lines 64-71. *)
Definition get_public_ip (c : Colors) : prog string :=
  (P.emit (Requested "https://api.ipify.org") ;;
   match public_ip_service w with
   | Ret body => P.ret body
   | Raise URLError =>
       P.say (RED c ++ "Unable to determine your public IP address. Check your internet connection." ++ ENDC c) ;;
       P.exit 1
   | Raise e => P.throw e
   end)%prog.

(** Lines 77-81: the field list of the request. *)
Definition geolocation_fields (detailed : bool) : string :=
  "status,message,country,countryCode,region,regionName,city,zip,lat,lon,timezone,isp,org,as,query"
  ++ (if detailed
      then ",currency,proxy,hosting,mobile,continent,continentCode,district,asname,reverse,offset,languages"
      else EmptyString).

Definition geolocation_url (ip : string) (detailed : bool) : string :=
  "http://ip-api.com/json/" ++ ip ++ "?fields=" ++ geolocation_fields detailed.

(** Lines 73-88. *)
Definition get_ip_info (c : Colors) (ip : string) (detailed : bool) : prog dict :=
  (let url := geolocation_url ip detailed in
   P.emit (Requested url) ;;
   match geolocation_service w url with
   | Ret ip_info => P.ret ip_info
   | Raise URLError =>
       P.say (RED c ++ "Error connecting to the geolocation API. Check your internet connection." ++ ENDC c) ;;
       P.exit 1
   | Raise e => P.throw e
   end)%prog.

(** Lines 720-729: the address to look up.  Only an address given on the
    command line goes through [validate_ip]. *)
Definition resolve_ip (c : Colors) (args : Args) : prog string :=
  (if missing (ip args) then
     P.say (YELLOW c ++ "No IP provided. Looking up your public IP..." ++ ENDC c) ;;
     address <- get_public_ip c ;;
     P.say (GREEN c ++ "Your public IP: " ++ address ++ ENDC c) ;;
     P.ret address
   else
     let address := text_of (ip args) in
     valid <- P.of_res (validate_ip address) ;;
     P.emit (Validated address valid) ;;
     if negb valid then
       P.say (RED c ++ "Error: '" ++ address ++ "' is not a valid IP address." ++ ENDC c) ;;
       P.exit 1
     else P.ret address)%prog.

(** Lines 734-737. *)
Definition enrich (c : Colors) (args : Args) (ip_info : dict)
  : prog (option dict) :=
  (if detailed args then
     P.say (YELLOW c ++ "Fetching additional demographic information..." ++ ENDC c) ;;
     let (requests, result) :=
       get_additional_info rt (country_data_service w) ip_info in
     Prog (map Requested requests) (Done tt) ;;
     additional_info <- P.of_res result ;;
     P.ret (Some additional_info)
   else P.ret None)%prog.

(** Lines 696-747. *)
Definition main (args : Args) : prog unit :=
  (let c := if simple args then colors_simple else colors_ansi in
   if negb (match format args with terminal => true | _ => false end)
      && missing (output args)
   then
     P.say (RED c ++ "Error: Output file must be specified with --output when using --format="
              ++ format_name (format args) ++ ENDC c) ;;
     P.exit 1
   else
     P.emit ScreenCleared ;;
     P.say (banner c) ;;
     address <- resolve_ip c args ;;
     P.say (YELLOW c ++ "Fetching geolocation data..." ++ ENDC c) ;;
     ip_info <- get_ip_info c address (detailed args) ;;
     additional_info <- enrich c args ip_info ;;
     match format args with
     | terminal =>
         P.of_run (display_ip_info rt c (surroundings w) ip_info additional_info)
     | json => export_to_json c w ip_info additional_info (text_of (output args))
     | csv => export_to_csv rt c w ip_info additional_info (text_of (output args))
     | html => export_to_html rt c w ip_info additional_info (text_of (output args))
     end)%prog.

End Main.

(** * Sample inputs and auxiliary notions *)

(** The answer of the geolocation service for [8.8.8.8] with the basic
    field list. *)
Definition geo_google : dict :=
  [ ("status", VStr "success");
    ("country", VStr "United States");
    ("countryCode", VStr "US");
    ("region", VStr "VA");
    ("regionName", VStr "Virginia");
    ("city", VStr "Ashburn");
    ("zip", VStr "20149");
    ("lat", VFloat "39.03");
    ("lon", VFloat "-77.5");
    ("timezone", VStr "America/New_York");
    ("isp", VStr "Google LLC");
    ("org", VStr "Google Public DNS");
    ("as", VStr "AS15169 Google LLC");
    ("query", VStr "8.8.8.8") ].

(** A successful answer that carries nothing but the address. *)
Definition geo_bare : dict :=
  [ ("status", VStr "success"); ("query", VStr "8.8.8.8") ].

(** The answer of the service for a query it refuses. *)
Definition geo_failed : dict :=
  [ ("status", VStr "fail"); ("message", VStr "invalid query");
    ("query", VStr "300.1.1.1") ].

(** A terminal of 120 columns: the box is 80 wide. *)
Definition env_wide : Env :=
  {| terminal_columns := Some 120; clock := "2024-01-01 12:00:00" |}.

(** The fields of the network section. *)
Definition network_keys : list string :=
  ["reverse"; "isp"; "org"; "as"; "asname"].

(** The condition of line 210: a connection flag is present, or the
    enrichment is a non-empty dict. *)
Definition additional_guard (ip_info : dict) (additional_info : option dict)
  : bool :=
  is_not_none (Dict.get ip_info "proxy")
  || is_not_none (Dict.get ip_info "hosting")
  || is_not_none (Dict.get ip_info "mobile")
  || has_info additional_info.

(** The provider's answer for a territory without capital and without
    flag images. *)
Definition country_without_capital : value :=
  VList [VDict [("population", VInt 1000); ("region", VStr "Antarctic")]].

(** An answer whose list of capitals is empty. *)
Definition country_empty_capital : value :=
  VList [VDict [("population", VInt 67000000); ("capital", VList [])]].

Definition seven_keys : list string :=
  ["population"; "capital"; "currencies"; "languages"; "flag"; "region";
   "subregion"].

Definition currencies_sample : value :=
  VDict [ ("USD", VDict [("name", VStr "US Dollar")]);
          ("EUR", VDict [("name", VStr "Euro")]) ].

Definition sample_world : World := {|
  surroundings := env_wide;
  public_ip_service := Ret "8.8.8.8";
  geolocation_service := fun _ => Ret geo_google;
  country_data_service := fun _ => Ret country_without_capital;
  open_for_writing := fun _ => Ret tt;
  typed_answer := Ret "n";
  abspath := fun filename => "/home/user/" ++ filename;
  open_browser := fun _ => Ret true
|}.

(** What the CSV exporter flattens an enrichment record with the sample
    currencies to. *)
Definition flat_currencies : dict :=
  csv_flat_data sample_runtime sample_world []
    (Some [("currencies", currencies_sample)]).

(** A mapping whose values are not strings. *)
Definition currencies_yen : value :=
  VDict [("JPY", VDict [("name", VStr "Japanese yen"); ("symbol", VStr "Y")])].

(** What the CSV exporter flattens a record with this mapping to. *)
Definition flat_yen : dict :=
  csv_flat_data sample_runtime sample_world [("query", VStr "1.1.1.1")]
    (Some [("currencies", currencies_yen)]).

(** Which lists of numbers make an address for [inet_aton]: one to four
    numbers, every number before the last at most 255, and the last at
    most 255, 65535, 16777215 or 4294967295 when it is the fourth, the
    third, the second or the only one. *)
Definition accepts_numbers (numbers : list Z) : bool :=
  match numbers with
  | [a] => a <=? 4294967295
  | [a; b] => (a <=? 255) && (b <=? 16777215)
  | [a; b; c] => (a <=? 255) && (b <=? 255) && (c <=? 65535)
  | [a; b; c; d] => (a <=? 255) && (b <=? 255) && (c <=? 255) && (d <=? 255)
  | _ => false
  end.

(** The decimal numbers printed without sign and without leading zeros,
    and separated by dots. *)
Definition dotted_decimal (numbers : list Z) : string :=
  Str.join "." (map Str.of_Z numbers).

(** What ends a decimal number: the end of the text, or a character
    that is not a decimal digit. *)
Definition ends_decimal (rest : string) : Prop :=
  match rest with
  | EmptyString => True
  | String a _ => Inet.digit_value 10 a = None
  end.

(** What may follow an octet: the end of the string or a dot. *)
Definition octet_follower (rest : string) : Prop :=
  rest = "" \/ exists r, rest = String "." r.

(** How the printed form of an octet is read back. *)
Definition octet_reads_back (o : string) (v : Z) : Prop :=
  (exists ch o', o = String ch o' /\ Inet.is_digit ch = true)
  /\ Inet.has_nul o = false
  /\ forall rest, octet_follower rest -> Inet.strtoul (o ++ rest) = (v, rest).

(** A trace in which no address was validated. *)
Definition validation_free (t : list event) : Prop :=
  forall s b, ~ In (Validated s b) t.

(** Whether the arguments pass the check of line 713. *)
Definition output_given (args : Args) : bool :=
  negb (negb (match format args with terminal => true | _ => false end)
        && missing (output args)).

(** A run without the [ip] argument in which the public-IP service
    answers with a text that is not an address. *)
Definition world_odd_public_ip : World := {|
  surroundings := env_wide;
  public_ip_service := Ret "not an address";
  geolocation_service := fun _ => Ret geo_failed;
  country_data_service := fun _ => Raise URLError;
  open_for_writing := fun _ => Ret tt;
  typed_answer := Ret "n";
  abspath := fun filename => filename;
  open_browser := fun _ => Ret true
|}.

Definition args_no_ip : Args := {|
  ip := None; simple := true; detailed := false; format := terminal;
  output := None
|}.

(** What may follow a value in a text: nothing, or a character that no
    number contains. *)
Definition ends_number (rest : string) : Prop :=
  match rest with
  | EmptyString => True
  | String a _ => Json.is_number_char a = false
  end.

(** A string made of decimal digits. *)
Definition digit_string (s : string) : bool :=
  forallb Inet.is_digit (list_ascii_of_string s).

(** A text that starts with a visible character other than a closing
    bracket. *)
Definition starts_value (s : string) : Prop :=
  exists a s', s = String a s' /\ Json.is_ws a = false
               /\ Ascii.eqb a "]" = false /\ Ascii.eqb a "}" = false.

(** ** Events, requests and typed records *)

(** What a run started with the given arguments may do, event by event. *)
Definition permitted (rt : Runtime) (args : Args) (e : event) : Prop :=
  match e with
  | Printed _ | ScreenCleared => True
  | Validated candidate _ => ip args = Some candidate
  | Requested url =>
      (missing (ip args) = true /\ url = "https://api.ipify.org")
      \/ (exists address, url = geolocation_url address (detailed args))
      \/ (detailed args = true /\ exists code, url = country_url rt code)
  | FileWritten filename _ =>
      format args <> terminal /\ output args = Some filename
  | Prompted _ | BrowserOpened _ => format args = html
  end.

(** The URLs a trace requested, in order. *)
Definition requests_of (t : list event) : list string :=
  flat_map (fun e => match e with Requested url => [url] | _ => [] end) t.

(** Octets printed one after the other, each followed by a dot. *)
Fixpoint dotted (octets : list Z) : string :=
  match octets with
  | [] => ""
  | o :: rest => Str.of_Z o ++ "." ++ dotted rest
  end.

(** A text that does not start with a decimal digit. *)
Definition no_leading_digit (s : string) : bool :=
  match s with
  | EmptyString => true
  | String a _ => negb (Inet.is_digit a)
  end.

(** The range of an octet. *)
Definition is_octet_value (o : Z) : Prop := 0 <= o <= 255.

(** The entries the CSV exporter stores for an enrichment record. *)
Definition flat_items (rt : Runtime) (info : dict) : dict :=
  map (fun entry => ("additional_" ++ fst entry, flat_value rt (snd entry))) info.

(** The fields of the record the HTML report reads. *)
Definition html_fields : list string :=
  ["query"; "city"; "regionName"; "country"; "countryCode"; "continent";
   "continentCode"; "lat"; "lon"; "timezone"; "proxy"; "hosting"; "mobile";
   "isp"; "org"; "as"].

(** A value that is a text, or [None]. *)
Definition text_or_absent (v : value) : bool :=
  match v with VNone | VStr _ => true | _ => false end.

(** A value that is a number, or [None]. *)
Definition number_or_absent (v : value) : bool :=
  match v with VNone | VBool _ | VInt _ | VFloat _ => true | _ => false end.

(** A value that is a mapping, or [None]. *)
Definition mapping_or_absent (v : value) : bool :=
  match v with VNone | VDict _ => true | _ => false end.

(** The fields of the record the renderer treats as texts. *)
Definition text_fields : list string :=
  ["city"; "regionName"; "country"; "district"; "zip"; "timezone"; "reverse";
   "isp"; "org"; "as"; "asname"].

(** A record whose text fields, where present, hold texts and whose
    offset, where present, is a number. *)
Definition record_typed (ip_info : dict) : bool :=
  forallb (fun k => text_or_absent (Dict.get ip_info k)) text_fields
  && number_or_absent (Dict.get ip_info "offset").

(** An enrichment record whose population is a number, whose capital is
    a text and whose currencies and languages are mappings, where
    present. *)
Definition enrichment_typed (additional_info : option dict) : bool :=
  match additional_info with
  | None => true
  | Some info =>
      number_or_absent (Dict.get info "population")
      && text_or_absent (Dict.get info "capital")
      && mapping_or_absent (Dict.get info "currencies")
      && mapping_or_absent (Dict.get info "languages")
  end.

(** A record whose city, region name and country, where present, hold
    texts: what the location line is joined from. *)
Definition location_typed (ip_info : dict) : bool :=
  text_or_absent (Dict.get ip_info "city")
  && text_or_absent (Dict.get ip_info "regionName")
  && text_or_absent (Dict.get ip_info "country").

(** An enrichment record whose population is a number and whose
    currencies and languages are mappings, where present. *)
Definition tables_typed (additional_info : option dict) : bool :=
  match additional_info with
  | None => true
  | Some info =>
      number_or_absent (Dict.get info "population")
      && mapping_or_absent (Dict.get info "currencies")
      && mapping_or_absent (Dict.get info "languages")
  end.

(** A country object of the provider whose population is a number,
    whose first capital is a text and whose currencies and languages are
    mappings, where present. *)
Definition country_typed (country : value) : bool :=
  match country with
  | VDict fields =>
      number_or_absent (Dict.get fields "population")
      && match Dict.lookup fields "capital" with
         | Some (VList (first :: _)) => text_or_absent first
         | _ => true
         end
      && mapping_or_absent (Dict.get fields "currencies")
      && mapping_or_absent (Dict.get fields "languages")
  | _ => true
  end.

(** An answer of the provider whose first element, if it has one, is
    such a country object. *)
Definition answer_typed (country_data : value) : bool :=
  match index0 country_data with
  | Ret country => country_typed country
  | Raise _ => true
  end.

(** ** More sample inputs *)

(** A machine without network access, on which no file can be created
    and no browser started: [webbrowser.open] returns [False]. *)
Definition world_offline : World := {|
  surroundings := env_wide;
  public_ip_service := Raise URLError;
  geolocation_service := fun _ => Raise URLError;
  country_data_service := fun _ => Raise URLError;
  open_for_writing := fun _ => Raise OSError;
  typed_answer := Ret "n";
  abspath := fun filename => "/home/user/" ++ filename;
  open_browser := fun _ => Ret false
|}.

(** The sample machine when the country-data service cannot be reached. *)
Definition world_no_country : World := {|
  surroundings := env_wide;
  public_ip_service := Ret "8.8.8.8";
  geolocation_service := fun _ => Ret geo_google;
  country_data_service := fun _ => Raise URLError;
  open_for_writing := fun _ => Ret tt;
  typed_answer := Ret "n";
  abspath := fun filename => "/home/user/" ++ filename;
  open_browser := fun _ => Ret true
|}.

(** The sample machine when the user answers [Y] and no browser can be
    started: [webbrowser.open] returns [False]. *)
Definition world_no_browser : World := {|
  surroundings := env_wide;
  public_ip_service := Ret "8.8.8.8";
  geolocation_service := fun _ => Ret geo_google;
  country_data_service := fun _ => Ret country_without_capital;
  open_for_writing := fun _ => Ret tt;
  typed_answer := Ret "Y";
  abspath := fun filename => "/home/user/" ++ filename;
  open_browser := fun _ => Ret false
|}.

(** A terminal of 8 columns. *)
Definition env_narrow : Env :=
  {| terminal_columns := Some 8; clock := "2024-01-01 12:00:00" |}.

(** Output that does not go to a terminal. *)
Definition env_piped : Env :=
  {| terminal_columns := None; clock := "2024-01-01 12:00:00" |}.

Definition args_json_no_output : Args := {|
  ip := Some "8.8.8.8"; simple := true; detailed := false; format := json;
  output := None
|}.

Definition args_bad_address : Args := {|
  ip := Some "256.1.1.1"; simple := true; detailed := true; format := terminal;
  output := None
|}.

Definition args_google : Args := {|
  ip := Some "8.8.8.8"; simple := true; detailed := false; format := terminal;
  output := None
|}.

Definition args_detailed : Args := {|
  ip := Some "8.8.8.8"; simple := true; detailed := true; format := terminal;
  output := None
|}.

Definition args_detailed_no_ip : Args := {|
  ip := None; simple := true; detailed := true; format := terminal;
  output := None
|}.

Definition args_json : Args := {|
  ip := Some "8.8.8.8"; simple := true; detailed := false; format := json;
  output := Some "out.json"
|}.

(** The page of the HTML report of the sample record. *)
Definition sample_page : string :=
  match html_document sample_runtime sample_world geo_google None with
  | Ret page => page
  | Raise _ => ""
  end.

(** An enrichment record whose currencies are not a mapping. *)
Definition enrichment_odd_currencies : dict := [("currencies", VStr "USD")].

(** The provider's answer for a country with every field. *)
Definition country_france : value :=
  VList [VDict [ ("population", VInt 67391582);
                 ("capital", VList [VStr "Paris"]);
                 ("currencies", VDict [("EUR", VDict [("name", VStr "Euro")])]);
                 ("languages", VDict [("fra", VStr "French")]);
                 ("flags", VDict [("png", VStr "https://flagcdn.com/w320/fr.png")]);
                 ("region", VStr "Europe");
                 ("subregion", VStr "Western Europe") ]].

(** What the client returns for that answer. *)
Definition enrichment_france : dict :=
  match snd (get_additional_info sample_runtime (fun _ => Ret country_france)
               geo_google) with
  | Ret d => d
  | Raise _ => []
  end.

(** A record whose postal code and provider are numbers, not texts. *)
Definition geo_numeric_zip : dict :=
  Dict.set (Dict.set geo_google "zip" (VInt 20149)) "isp" (VInt 15169).

(** * Properties *)

(** ** Sequencing lemmas *)

Lemma printed_bind {A B} (m : run A) (k : A -> run B) :
  printed (bind m k)
  = (printed m ++ match outcome m with
                  | Ret a => printed (k a)
                  | Raise _ => []
                  end)%list.
Proof.
  unfold bind; simpl. destruct (outcome m); simpl; reflexivity.
Qed.

Lemma outcome_bind_ret {A B} (m : run A) (k : A -> run B) (b : B) :
  outcome (bind m k) = Ret b ->
  exists a, outcome m = Ret a /\ outcome (k a) = Ret b.
Proof.
  unfold bind; simpl. destruct (outcome m) as [a|e]; intros H.
  - exists a; split; [reflexivity | exact H].
  - discriminate H.
Qed.

Lemma bind_ret_split {A B} (m : run A) (k : A -> run B) (b : B) :
  outcome (bind m k) = Ret b ->
  exists a, outcome m = Ret a /\ outcome (k a) = Ret b
            /\ printed (bind m k) = (printed m ++ printed (k a))%list.
Proof.
  intros H. destruct (outcome_bind_ret m k b H) as [a [Hm Hk]].
  exists a. repeat split; try assumption.
  rewrite printed_bind, Hm. reflexivity.
Qed.

Lemma lift_ret {A} (r : res A) (a : A) :
  outcome (lift r) = Ret a -> r = Ret a.
Proof. simpl. auto. Qed.

Lemma bind_lift_ret {A B} (a : A) (k : A -> run B) :
  bind (lift (Ret a)) k = k a.
Proof. unfold bind; simpl. destruct (k a); reflexivity. Qed.

(** ** The renderer on a failed lookup *)

(** C6.  For a record whose status is not [success], the renderer prints
    one line and nothing else: the error line with the record's message,
    or with [Unknown error] when the record has no message.  No banner,
    no box line and no trailer is printed, and the run ends normally. *)
Theorem display_failed_lookup :
  forall (rt : Runtime) (c : Colors) (env : Env) (ip_info : dict)
         (additional_info : option dict),
    eq_str (Dict.get ip_info "status") "success" = false ->
    display_ip_info rt c env ip_info additional_info
    = Run [RED c ++ "Error: "
             ++ py_str rt (Dict.get_default ip_info "message" (VStr "Unknown error"))
             ++ ENDC c]
          (Ret tt)
    /\ (forall m, Dict.lookup ip_info "message" = Some (VStr m) ->
                  printed (display_ip_info rt c env ip_info additional_info)
                  = [RED c ++ "Error: " ++ m ++ ENDC c])
    /\ (Dict.lookup ip_info "message" = None ->
        printed (display_ip_info rt c env ip_info additional_info)
        = [RED c ++ "Error: Unknown error" ++ ENDC c]).
Proof.
  intros rt c env ip_info additional_info Hstatus.
  unfold display_ip_info. rewrite Hstatus. simpl.
  unfold error_line, Dict.get_default.
  split; [reflexivity|].
  split.
  - intros m Hm. rewrite Hm. reflexivity.
  - intros Hm. rewrite Hm. reflexivity.
Qed.

Lemma display_failed_lookup_witness :
  display_ip_info sample_runtime colors_simple env_wide geo_failed None
  = Run ["Error: invalid query"] (Ret tt).
Proof.
  destruct (display_failed_lookup sample_runtime colors_simple env_wide
              geo_failed None eq_refl) as [H _].
  exact H.
Defined.

(** ** The right border of the box *)

(** C1.  The claim fails on the code.  On the sample answer for
    [8.8.8.8] and a terminal of 120 columns the width is 80, and after
    the three banner lines the renderer prints a top border of 80 visible
    columns followed by location lines of 83 visible columns, whatever
    the wrapping function is.  With the sample runtime the lines of the
    box, from the top border to the bottom border, measure 80, 82, 83 and
    84 columns, with colours and without: the right border is not
    aligned. *)
Theorem box_right_border_ragged :
  forall rt : Runtime,
    box_width env_wide = Ret 80
    /\ firstn 5 (skipn 3 (map visible_len
         (printed (display_ip_info rt colors_ansi env_wide geo_google None))))
       = [80; 83; 83; 83; 83]
    /\ map visible_len
         (printed (box sample_runtime colors_ansi env_wide geo_google None
                     "Ashburn, Virginia, United States (US)" 80))
       = [80; 83; 83; 83; 83; 84; 80; 82; 80; 83; 83; 83; 80]
    /\ map visible_len
         (printed (box sample_runtime colors_simple env_wide geo_google None
                     "Ashburn, Virginia, United States (US)" 80))
       = [80; 83; 83; 83; 83; 84; 80; 82; 80; 83; 83; 83; 80].
Proof.
  intros rt. split; [reflexivity|].
  split; [|split]; vm_compute; reflexivity.
Qed.

(** ** Which sections the renderer prints *)

(** C5, as stated, fails: the bare record has none of the network fields,
    and the renderer still prints the title of the network section. *)
Lemma network_title_without_fields :
  forallb (fun k => negb (truthy (Dict.get geo_bare k))) network_keys = true
  /\ In (title colors_simple "Network Information" (80 - 21))
        (printed (display_ip_info sample_runtime colors_simple env_wide
                    geo_bare None)).
Proof.
  split; [reflexivity|].
  vm_compute. do 6 right. left. reflexivity.
Qed.

Lemma printed_print_bind {B} (s : string) (k : unit -> run B) :
  printed (bind (print s) k) = s :: printed (k tt).
Proof. reflexivity. Qed.

(** The output of a run of the renderer that reaches its end on a
    successful record: the banner, the location block, the additional
    block, the network block, the bottom border and the trailer, in this
    order, with the opening lines of each block. *)
Lemma sections_of_complete_run :
  forall (rt : Runtime) (c : Colors) (env : Env) (ip_info : dict)
         (additional_info : option dict) (width : Z),
    eq_str (Dict.get ip_info "status") "success" = true ->
    box_width env = Ret width ->
    outcome (display_ip_info rt c env ip_info additional_info) = Ret tt ->
    exists location : string,
      res_bind (location_parts rt ip_info) (py_join ", ") = Ret location
      /\ printed (display_ip_info rt c env ip_info additional_info)
         = (printed (header_banner rt c ip_info width)
            ++ printed (location_block rt c env ip_info location width)
            ++ printed (additional_block rt c ip_info additional_info width)
            ++ printed (network_block rt c ip_info width)
            ++ [rule c "└" "┘" width]
            ++ printed (trailer rt c ip_info additional_info))%list
      /\ List.length (printed (header_banner rt c ip_info width)) = 3%nat
      /\ (exists rest,
             printed (location_block rt c env ip_info location width)
             = rule c "┌" "┐" width
               :: row c "Location:" " " location (width - 11 - Str.len location)
               :: rest)
      /\ (exists rest,
             printed (network_block rt c ip_info width)
             = rule c "├" "┤" width
               :: title c "Network Information" (width - 21)
               :: rule c "├" "┤" width
               :: rest)
      /\ (additional_guard ip_info additional_info = false ->
          printed (additional_block rt c ip_info additional_info width) = [])
      /\ (additional_guard ip_info additional_info = true ->
          exists rest,
            printed (additional_block rt c ip_info additional_info width)
            = rule c "├" "┤" width
              :: title c "Additional Information" (width - 23)
              :: rule c "├" "┤" width
              :: rest).
Proof.
  intros rt c env ip_info additional_info width Hstatus Hwidth Hend.
  unfold display_ip_info in *. rewrite Hstatus in *. simpl negb in *. cbv iota in *.
  rewrite Hwidth in *.
  destruct (bind_ret_split _ _ _ Hend) as [w0 [Hw [Hend1 Hp1]]].
  simpl in Hw. injection Hw as <-.
  destruct (bind_ret_split _ _ _ Hend1) as [[] [Hhead [Hend2 Hp2]]].
  destruct (bind_ret_split _ _ _ Hend2) as [parts [Hparts [Hend3 Hp3]]].
  destruct (bind_ret_split _ _ _ Hend3) as [location [Hloc [Hend4 Hp4]]].
  destruct (bind_ret_split _ _ _ Hend4) as [[] [Hbox [Hend5 Hp5]]].
  apply lift_ret in Hparts. apply lift_ret in Hloc.
  unfold box in Hbox.
  destruct (bind_ret_split _ _ _ Hbox) as [[] [Hb1 [Hbox1 Hq1]]].
  destruct (bind_ret_split _ _ _ Hbox1) as [[] [Hb2 [Hbox2 Hq2]]].
  destruct (bind_ret_split _ _ _ Hbox2) as [[] [Hb3 [Hbox3 Hq3]]].
  exists location.
  split; [rewrite Hparts; simpl; exact Hloc|].
  split.
  { rewrite Hp1, Hp2, Hp3, Hp4, Hp5. unfold box. rewrite Hq1, Hq2, Hq3.
    cbn [printed lift print app]. rewrite <- !app_assoc. reflexivity. }
  split.
  { unfold header_banner in *.
    destruct (bind_ret_split _ _ _ Hhead) as [[] [_ [Hh1 Hr1]]].
    destruct (bind_ret_split _ _ _ Hh1) as [q [Hquery [_ Hr2]]].
    rewrite Hr1, Hr2. reflexivity. }
  split.
  { unfold location_block. rewrite !printed_print_bind. eexists. reflexivity. }
  split.
  { unfold network_block. rewrite !printed_print_bind. eexists. reflexivity. }
  unfold additional_block, additional_guard.
  split.
  - intros Hg. rewrite Hg. reflexivity.
  - intros Hg. rewrite Hg. unfold when. rewrite !printed_print_bind.
    eexists. reflexivity.
Qed.

(** ** The enrichment client *)

(** C4, as stated, fails: the answer has neither [capital] nor [flags],
    and the record holds both keys with the empty string. *)
Lemma absent_capital_is_empty_string :
  get_additional_info sample_runtime (fun _ => Ret country_without_capital)
    [("countryCode", VStr "AQ")]
  = (["https://restcountries.com/v3.1/alpha/AQ"],
     Ret [ ("population", VInt 1000);
           ("capital", VStr "");
           ("currencies", VDict []);
           ("languages", VDict []);
           ("flag", VStr "");
           ("region", VStr "Antarctic");
           ("subregion", VNone) ]).
Proof. vm_compute. reflexivity. Qed.

(** C4, amended.  When the lookup succeeds the record always has the
    seven keys, in the order of the assignments.  A sub-field absent from
    the answer is stored as a placeholder: the empty string for the
    capital and the flag, an empty mapping for currencies and languages,
    [None] for population, region and subregion. *)
Theorem enrichment_has_seven_keys :
  forall (rt : Runtime) (service : string -> res value) (ip_info : dict)
         (code : value) (country : dict) (others : list value)
         (capital flag : value),
    Dict.lookup ip_info "countryCode" = Some code ->
    service (country_url rt code) = Ret (VList (VDict country :: others)) ->
    index0 (Dict.get_default country "capital" (VList [VStr ""])) = Ret capital ->
    value_get (Dict.get_default country "flags" (VDict [])) "png" (VStr "")
    = Ret flag ->
    get_additional_info rt service ip_info
    = ([country_url rt code],
       Ret [ ("population", Dict.get country "population");
             ("capital", capital);
             ("currencies", Dict.get_default country "currencies" (VDict []));
             ("languages", Dict.get_default country "languages" (VDict []));
             ("flag", flag);
             ("region", Dict.get country "region");
             ("subregion", Dict.get country "subregion") ])
    /\ (Dict.lookup country "capital" = None -> capital = VStr "")
    /\ (Dict.lookup country "flags" = None -> flag = VStr "")
    /\ (Dict.lookup country "currencies" = None ->
        Dict.get_default country "currencies" (VDict []) = VDict [])
    /\ (Dict.lookup country "languages" = None ->
        Dict.get_default country "languages" (VDict []) = VDict [])
    /\ (Dict.lookup country "population" = None ->
        Dict.get country "population" = VNone).
Proof.
  intros rt service ip_info code country others capital flag
         Hcode Hservice Hcapital Hflag.
  split.
  - unfold get_additional_info, Dict.contains, lookup_country, subscript.
    rewrite Hcode, Hservice.
    unfold extract_country, country_fields. simpl.
    unfold Dict.get_default in *. unfold Dict.get.
    rewrite Hcapital. simpl.
    destruct (Dict.lookup country "flags") as [flags|]; simpl in *.
    + rewrite Hflag. simpl. reflexivity.
    + injection Hflag as <-. reflexivity.
  - unfold Dict.get_default, Dict.get in *.
    repeat split; intros Habsent; rewrite Habsent in *; simpl in *;
      try reflexivity.
    + injection Hcapital as <-. reflexivity.
    + injection Hflag as <-. reflexivity.
Qed.

Lemma enrichment_has_seven_keys_witness :
  snd (get_additional_info sample_runtime (fun _ => Ret country_without_capital)
         [("countryCode", VStr "AQ")])
  = Ret [ ("population", VInt 1000);
          ("capital", VStr "");
          ("currencies", VDict []);
          ("languages", VDict []);
          ("flag", VStr "");
          ("region", VStr "Antarctic");
          ("subregion", VNone) ].
Proof.
  destruct (enrichment_has_seven_keys sample_runtime
              (fun _ => Ret country_without_capital)
              [("countryCode", VStr "AQ")] (VStr "AQ")
              [("population", VInt 1000); ("region", VStr "Antarctic")] []
              (VStr "") (VStr "") eq_refl eq_refl eq_refl eq_refl) as [H _].
  rewrite H. reflexivity.
Defined.

(** C7, as stated, fails: the lookup meets an empty list of capitals and
    raises [IndexError] inside the block, and the function returns the
    population it had already stored, a non-empty record. *)
Lemma failed_lookup_keeps_population :
  snd (lookup_country sample_runtime (fun _ => Ret country_empty_capital)
         [("countryCode", VStr "FR")] [])
  = Raise IndexError
  /\ get_additional_info sample_runtime (fun _ => Ret country_empty_capital)
       [("countryCode", VStr "FR")]
     = (["https://restcountries.com/v3.1/alpha/FR"],
        Ret [("population", VInt 67000000)])
  /\ has_info (Some [("population", VInt 67000000)]) = true.
Proof. vm_compute. repeat split; reflexivity. Qed.

Lemma assign_all_keys_prefix (fields : list (string * res value)) :
  forall d : dict,
    NoDup (Dict.keys d ++ map fst fields) ->
    exists n,
      Dict.keys (fst (assign_all d fields))
      = (Dict.keys d ++ firstn n (map fst fields))%list.
Proof.
  induction fields as [|[k [v|e]] rest IH]; intros d Hnd.
  - exists 0%nat. simpl. rewrite app_nil_r. reflexivity.
  - simpl.
    assert (Hfresh : Dict.keys (Dict.set d k v) = (Dict.keys d ++ [k])%list).
    { simpl in Hnd. apply NoDup_remove_2 in Hnd.
      assert (Hk : ~ In k (Dict.keys d)) by (intro; apply Hnd; apply in_or_app; auto).
      clear -Hk. induction d as [|[k' v'] d IHd]; simpl in *.
      - reflexivity.
      - destruct (String.eqb_spec k' k) as [->|Hne].
        + exfalso; apply Hk; left; reflexivity.
        + simpl. f_equal. apply IHd. intro; apply Hk; right; assumption. }
    destruct (IH (Dict.set d k v)) as [n Hn].
    { rewrite Hfresh, <- app_assoc. exact Hnd. }
    exists (S n). rewrite Hn, Hfresh, <- app_assoc. reflexivity.
  - exists 0%nat. simpl. rewrite app_nil_r. reflexivity.
Qed.

(** C7, amended.  The function never raises: it always returns a record.
    Without a [countryCode] it returns the empty record and sends no
    request.  When the request or the parsing fails it returns the empty
    record.  In every case the keys of the record are the first few of
    the seven keys: a failure in the middle of the extraction leaves the
    fields stored before it. *)
Theorem enrichment_never_raises :
  forall (rt : Runtime) (service : string -> res value) (ip_info : dict),
    (exists d, snd (get_additional_info rt service ip_info) = Ret d
               /\ exists n, Dict.keys d = firstn n seven_keys)
    /\ (Dict.contains ip_info "countryCode" = false ->
        get_additional_info rt service ip_info = ([], Ret []))
    /\ (forall code e,
           Dict.lookup ip_info "countryCode" = Some code ->
           service (country_url rt code) = Raise e ->
           get_additional_info rt service ip_info
           = ([country_url rt code], Ret [])).
Proof.
  intros rt service ip_info.
  split; [|split].
  - unfold get_additional_info, Dict.contains, lookup_country, subscript.
    destruct (Dict.lookup ip_info "countryCode") as [code|].
    2:{ exists []. split; [reflexivity|]. exists 0%nat. reflexivity. }
    destruct (service (country_url rt code)) as [data|e].
    2:{ exists []. split; [reflexivity|]. exists 0%nat. reflexivity. }
    unfold extract_country.
    destruct (truthy data).
    2:{ exists []. split; [reflexivity|]. exists 0%nat. reflexivity. }
    destruct (len_positive data) as [[|]|e].
    2,3: exists []; (split; [reflexivity|]); exists 0%nat; reflexivity.
    destruct (index0 data) as [country|e].
    2:{ exists []. split; [reflexivity|]. exists 0%nat. reflexivity. }
    destruct (assign_all [] (country_fields country)) as [d r] eqn:Hassign.
    exists d. split.
    + destruct r as [[]|e]; reflexivity.
    + destruct (assign_all_keys_prefix (country_fields country) []) as [n Hn].
      { simpl. repeat constructor; simpl; intuition discriminate. }
      rewrite Hassign in Hn. simpl in Hn. exists n. exact Hn.
  - intros Hno. unfold get_additional_info. rewrite Hno. reflexivity.
  - intros code e Hcode Hfail.
    unfold get_additional_info, Dict.contains, lookup_country, subscript.
    rewrite Hcode, Hfail. reflexivity.
Qed.

Lemma enrichment_never_raises_witness :
  get_additional_info sample_runtime (fun _ => Raise URLError)
    [("status", VStr "fail")]
  = ([], Ret [])
  /\ get_additional_info sample_runtime (fun _ => Raise URLError)
       [("countryCode", VStr "FR")]
     = (["https://restcountries.com/v3.1/alpha/FR"], Ret []).
Proof.
  destruct (enrichment_never_raises sample_runtime (fun _ => Raise URLError)
              [("status", VStr "fail")]) as [_ [Hnone _]].
  destruct (enrichment_never_raises sample_runtime (fun _ => Raise URLError)
              [("countryCode", VStr "FR")]) as [_ [_ Hfail]].
  split.
  - apply Hnone. reflexivity.
  - apply (Hfail (VStr "FR") URLError); reflexivity.
Defined.

(** ** String lemmas *)

Lemma append_assoc (a b c : string) : (a ++ b) ++ c = a ++ (b ++ c).
Proof. induction a as [|x a IH]; simpl; [reflexivity | rewrite IH; reflexivity]. Qed.

Lemma append_empty (s : string) : s ++ "" = s.
Proof. induction s as [|a s IH]; simpl; [reflexivity | rewrite IH; reflexivity]. Qed.

Lemma length_append (s t : string) :
  String.length (s ++ t) = (String.length s + String.length t)%nat.
Proof. induction s as [|a s IH]; simpl; [reflexivity | rewrite IH; reflexivity]. Qed.

(** ** Dictionary lemmas *)

Lemma lookup_set_same (d : dict) (k : string) (v : value) :
  Dict.lookup (Dict.set d k v) k = Some v.
Proof.
  induction d as [|[k' v'] d IH]; simpl.
  - rewrite String.eqb_refl. reflexivity.
  - destruct (String.eqb k' k) eqn:E; simpl; rewrite E; auto.
Qed.

Lemma lookup_set_other (d : dict) (k k' : string) (v : value) :
  k <> k' -> Dict.lookup (Dict.set d k v) k' = Dict.lookup d k'.
Proof.
  intros Hne. induction d as [|[k0 v0] d IH]; simpl.
  - destruct (String.eqb_spec k k'); [contradiction | reflexivity].
  - destruct (String.eqb_spec k0 k) as [->|Hk0]; simpl.
    + destruct (String.eqb_spec k k'); [contradiction | reflexivity].
    + rewrite IH. reflexivity.
Qed.

Lemma keys_set_fresh (d : dict) (k : string) (v : value) :
  ~ In k (Dict.keys d) -> Dict.keys (Dict.set d k v) = (Dict.keys d ++ [k])%list.
Proof.
  induction d as [|[k' v'] d IH]; simpl; intros Hk.
  - reflexivity.
  - destruct (String.eqb_spec k' k) as [->|Hne].
    + exfalso; apply Hk; left; reflexivity.
    + simpl. f_equal. apply IH. intro; apply Hk; right; assumption.
Qed.

Lemma keys_set_present (d : dict) (k : string) (v : value) :
  In k (Dict.keys d) -> Dict.keys (Dict.set d k v) = Dict.keys d.
Proof.
  induction d as [|[k' v'] d IH]; simpl; intros Hk.
  - contradiction.
  - destruct (String.eqb_spec k' k) as [->|Hne]; simpl.
    + reflexivity.
    + f_equal. apply IH. destruct Hk; [contradiction | assumption].
Qed.

Lemma keys_set_incl (d : dict) (k k' : string) (v : value) :
  In k' (Dict.keys (Dict.set d k v)) -> In k' (Dict.keys d) \/ k' = k.
Proof.
  induction d as [|[k0 v0] d IH]; simpl.
  - intros [->|[]]. right; reflexivity.
  - destruct (String.eqb_spec k0 k) as [->|Hne]; simpl.
    + intros [->|H]; auto.
    + intros [->|H]; auto. destruct (IH H); auto.
Qed.

Lemma lookup_none_not_in (d : dict) (k : string) :
  Dict.lookup d k = None -> ~ In k (Dict.keys d).
Proof.
  induction d as [|[k' v'] d IH]; simpl; intros H.
  - auto.
  - destruct (String.eqb_spec k' k) as [->|Hne]; [discriminate|].
    intros [E|Hin]; [contradiction | exact (IH H Hin)].
Qed.

Lemma append_inj_prefix (p a b : string) : p ++ a = p ++ b -> a = b.
Proof.
  induction p as [|ch p IH]; simpl; intros H.
  - exact H.
  - injection H as H. auto.
Qed.

(** ** The currencies of the enrichment record in the three outputs *)

(** C3, as stated, fails for the CSV exporter: its cell for the sample
    currencies holds the two codes and no name. *)
Lemma csv_currencies_lose_names :
  csv_header flat_currencies = ["additional_currencies"; "timestamp"]
  /\ csv_row sample_runtime flat_currencies
     = ["USD, EUR"; "2024-01-01 12:00:00"]
  /\ "USD, EUR" <> "USD (US Dollar), EUR (Euro)".
Proof. vm_compute. repeat split; try reflexivity. discriminate. Qed.

(** C3, amended.  For an enrichment record whose currencies are the
    sample mapping, the terminal renderer prints the line
    [Currencies: USD (US Dollar), EUR (Euro)] when the wrapping function
    leaves this text on one line, and the HTML exporter writes the same
    text in the cell of its Currencies row; both keep the order of the
    mapping, as they do for every mapping of named currencies.  The CSV
    exporter stores [USD, EUR]: the codes in the same order, without the
    names. *)
Theorem currencies_rendering :
  forall (rt : Runtime) (c : Colors) (info : dict) (width : Z),
    Dict.lookup info "currencies" = Some currencies_sample ->
    13 < width ->
    textwrap_wrap rt "USD (US Dollar), EUR (Euro)" (width - 13)
    = ["USD (US Dollar), EUR (Euro)"] ->
    mapping_field rt c (Some info) "currencies" (currency_entry rt)
      "Currencies:" (width - 13) (width - 13) "            " (width - 12)
    = Run [row c "Currencies:" " " "USD (US Dollar), EUR (Euro)"
             (width - 13 - 27)]
          (Ret tt)
    /\ html_currencies_row rt info
       = Ret ("
            <tr>
                <td>Currencies</td>
                <td>" ++ "USD (US Dollar), EUR (Euro)" ++ "</td>
            </tr>
            ")
    /\ flat_value rt currencies_sample = VStr "USD, EUR"
    /\ (forall named : list (string * string),
           map (currency_entry rt)
               (map (fun p => (fst p, VDict [("name", VStr (snd p))])) named)
           = map (fun p => fst p ++ " (" ++ snd p ++ ")") named).
Proof.
  intros rt c info width Hcur Hwidth Hwrap.
  assert (Hinfo : has_info (Some info) = true).
  { destruct info; [discriminate | reflexivity]. }
  split; [|split; [|split]].
  - unfold mapping_field, info_has, info_subscript, subscript, Dict.get.
    rewrite Hinfo, Hcur. simpl truthy. simpl andb. unfold when.
    rewrite bind_lift_ret.
    change (dict_items currencies_sample)
      with (Ret [ ("USD", VDict [("name", VStr "US Dollar")]);
                  ("EUR", VDict [("name", VStr "Euro")]) ]).
    rewrite bind_lift_ret.
    change (Str.join ", " (map (currency_entry rt) _))
      with "USD (US Dollar), EUR (Euro)".
    unfold fill_lines.
    assert (Hpos : (width - 13 <=? 0) = false) by (apply Z.leb_gt; lia).
    rewrite Hpos, Hwrap, bind_lift_ret. reflexivity.
  - unfold html_currencies_row, Dict.get. rewrite Hcur. reflexivity.
  - reflexivity.
  - intros named. induction named as [|[code name] named IH]; simpl.
    + reflexivity.
    + rewrite IH. reflexivity.
Qed.

Lemma currencies_rendering_witness :
  mapping_field sample_runtime colors_simple
    (Some [("currencies", currencies_sample)]) "currencies"
    (currency_entry sample_runtime)
    "Currencies:" (80 - 13) (80 - 13) "            " (80 - 12)
  = Run [row colors_simple "Currencies:" " " "USD (US Dollar), EUR (Euro)"
           (80 - 13 - 27)]
        (Ret tt).
Proof.
  destruct (currencies_rendering sample_runtime colors_simple
              [("currencies", currencies_sample)] 80 eq_refl eq_refl eq_refl)
    as [H _].
  exact H.
Defined.

(** ** The CSV exporter *)

(** C8, as stated, fails: the mapping of currencies is flattened to its
    keys alone; no [key: value] pair is written. *)
Lemma csv_mapping_keeps_only_keys :
  csv_header flat_yen = ["query"; "additional_currencies"; "timestamp"]
  /\ csv_row sample_runtime flat_yen
     = ["1.1.1.1"; "JPY"; "2024-01-01 12:00:00"].
Proof. vm_compute. split; reflexivity. Qed.

Lemma flatten_into_lookup_other (rt : Runtime) (items : list (string * value)) :
  forall (d : dict) (k : string),
    (forall key, In key (map fst items) -> k <> "additional_" ++ key) ->
    Dict.lookup (flatten_into rt d items) k = Dict.lookup d k.
Proof.
  induction items as [|[key v] items IH]; intros d k Hk; simpl.
  - reflexivity.
  - rewrite IH.
    + apply lookup_set_other. intro E. apply (Hk key); [left; reflexivity | auto].
    + intros key' Hin. apply Hk. right. exact Hin.
Qed.

Lemma flatten_into_lookup (rt : Runtime) (items : list (string * value)) :
  forall (d : dict) (key : string) (v : value),
    NoDup (map fst items) ->
    In (key, v) items ->
    Dict.lookup (flatten_into rt d items) ("additional_" ++ key)
    = Some (flat_value rt v).
Proof.
  induction items as [|[key0 v0] items IH]; intros d key v Hnd Hin; simpl.
  - contradiction.
  - inversion Hnd as [|? ? Hfresh Hnd']; subst.
    destruct Hin as [E|Hin].
    + injection E as -> ->.
      rewrite flatten_into_lookup_other.
      * apply lookup_set_same.
      * intros key' Hin' E.
        apply (append_inj_prefix "additional_" key key') in E. subst key'.
        contradiction.
    + apply IH; assumption.
Qed.

Lemma flatten_into_keys (rt : Runtime) (items : list (string * value)) :
  forall (d : dict) (k : string),
    In k (Dict.keys (flatten_into rt d items)) ->
    In k (Dict.keys d) \/ exists key, k = "additional_" ++ key.
Proof.
  induction items as [|[key v] items IH]; intros d k Hin; simpl in Hin.
  - left. exact Hin.
  - destruct (IH _ _ Hin) as [H|H]; [|right; exact H].
    destruct (keys_set_incl _ _ _ _ H) as [H'| ->].
    + left. exact H'.
    + right. exists key. reflexivity.
Qed.

Lemma has_break_append (s t : string) :
  has_break (s ++ t) = has_break s || has_break t.
Proof.
  induction s as [|a s IH]; simpl; [reflexivity|].
  rewrite IH. rewrite !orb_assoc. reflexivity.
Qed.

Lemma has_break_double_quotes (s : string) :
  has_break (double_quotes s) = has_break s.
Proof.
  induction s as [|a s IH]; simpl; [reflexivity|].
  destruct (Ascii.eqb_spec a quote_char) as [->|_]; simpl; rewrite IH; reflexivity.
Qed.

Lemma has_break_csv_field (s : string) :
  has_break s = false -> has_break (csv_field s) = false.
Proof.
  intros Hs. unfold csv_field. destruct (needs_quotes s); [|exact Hs].
  simpl. rewrite has_break_append, has_break_double_quotes, Hs. reflexivity.
Qed.

Lemma has_break_join (fields : list string) :
  forallb (fun f => negb (has_break f)) fields = true ->
  has_break (Str.join "," fields) = false.
Proof.
  induction fields as [|f [|g fields] IH]; intros H.
  - reflexivity.
  - simpl in *. rewrite andb_true_r in H. apply negb_true_iff. exact H.
  - change (Str.join "," (f :: g :: fields))
      with (f ++ "," ++ Str.join "," (g :: fields)).
    change (forallb (fun f => negb (has_break f)) (f :: g :: fields))
      with (negb (has_break f)
            && forallb (fun f => negb (has_break f)) (g :: fields)) in H.
    apply andb_true_iff in H. destruct H as [Hf Hrest].
    apply negb_true_iff in Hf.
    rewrite !has_break_append, Hf, (IH Hrest). reflexivity.
Qed.

(** A record whose fields hold no line break is written on one line. *)
Lemma has_break_csv_record (fields : list string) :
  forallb (fun f => negb (has_break f)) fields = true ->
  has_break (csv_record fields) = false.
Proof.
  intros H.
  assert (Hjoin : has_break (Str.join "," (map csv_field fields)) = false).
  { apply has_break_join. rewrite forallb_forall in *. intros f Hin.
    apply in_map_iff in Hin. destruct Hin as [g [<- Hg]].
    apply negb_true_iff, has_break_csv_field, negb_true_iff, H, Hg. }
  unfold csv_record. destruct fields as [|[|a f] [|g fields]]; exact Hjoin.
Qed.

Lemma csv_row_length (rt : Runtime) (flat_data : dict) :
  List.length (csv_header flat_data) = List.length (csv_row rt flat_data).
Proof. unfold csv_header, csv_row. rewrite length_map. reflexivity. Qed.

(** C8, amended.  The exporter writes one file made of two records, the
    header and one row, each followed by a line terminator, and the row
    has as many cells as the header; when no column name and no cell
    holds a line break, the file has exactly two lines.  Every key of a non-empty enrichment record is a column named
    [additional_] and the key, holding the flattened value.  A mapping is
    flattened to one string of entries joined by [, ]: an entry is
    [key: value] when the value is a string and the key alone otherwise.
    When the record has no [timestamp] field of its own, the timestamp is
    the last column. *)
Theorem csv_export_shape :
  forall (rt : Runtime) (c : Colors) (w : World) (ip_info : dict)
         (additional_info : option dict) (filename : string),
    let flat_data := csv_flat_data rt w ip_info additional_info in
    (open_for_writing w filename = Ret tt ->
     export_to_csv rt c w ip_info additional_info filename
     = Prog [ FileWritten filename
                (csv_line (csv_header flat_data)
                   ++ csv_line (csv_row rt flat_data));
              Printed (GREEN c ++ "Data exported to " ++ filename ++ ENDC c) ]
            (Done tt))
    /\ List.length (csv_header flat_data) = List.length (csv_row rt flat_data)
    /\ (forallb (fun f => negb (has_break f))
               (csv_header flat_data ++ csv_row rt flat_data) = true ->
        csv_text rt flat_data
        = csv_record (csv_header flat_data) ++ crlf
            ++ csv_record (csv_row rt flat_data) ++ crlf
        /\ has_break (csv_record (csv_header flat_data)) = false
        /\ has_break (csv_record (csv_row rt flat_data)) = false)
    /\ (forall info key v,
           additional_info = Some info ->
           NoDup (Dict.keys info) ->
           In (key, v) info ->
           Dict.lookup flat_data ("additional_" ++ key) = Some (flat_value rt v))
    /\ (forall d, flat_value rt (VDict d)
                  = VStr (Str.join ", " (map (flat_entry rt) d)))
    /\ (forall k s, flat_entry rt (k, VStr s) = k ++ ": " ++ s)
    /\ (forall k v, is_str v = false -> flat_entry rt (k, v) = k)
    /\ (Dict.contains ip_info "timestamp" = false ->
        exists columns,
          csv_header flat_data = (columns ++ ["timestamp"])%list
          /\ csv_row rt flat_data
             = (map (fun k => csv_cell rt (Dict.get_default flat_data k (VStr "")))
                    columns
                ++ [clock (surroundings w)])%list).
Proof.
  intros rt c w ip_info additional_info filename flat_data.
  split; [|split; [|split; [|split; [|split; [|split; [|split]]]]]].
  - intros Hopen. unfold export_to_csv, write_file.
    fold flat_data. unfold P.bind, P.of_res. rewrite Hopen. reflexivity.
  - apply csv_row_length.
  - intros Hcells. rewrite forallb_app in Hcells.
    apply andb_true_iff in Hcells. destruct Hcells as [Hheader Hrow].
    split; [|split].
    + unfold csv_text, csv_line. rewrite append_assoc. reflexivity.
    + apply has_break_csv_record. exact Hheader.
    + apply has_break_csv_record. exact Hrow.
  - intros info key v -> Hnd Hin.
    unfold flat_data, csv_flat_data.
    assert (Hinfo : has_info (Some info) = true).
    { destruct info; [contradiction | reflexivity]. }
    rewrite Hinfo.
    rewrite lookup_set_other by discriminate.
    apply flatten_into_lookup; assumption.
  - reflexivity.
  - reflexivity.
  - intros k v Hv. unfold flat_entry. rewrite Hv. reflexivity.
  - intros Hno.
    set (before :=
           match additional_info with
           | Some info =>
               if has_info additional_info
               then flatten_into rt ip_info (Dict.items info)
               else ip_info
           | None => ip_info
           end).
    assert (Hfresh : ~ In "timestamp" (Dict.keys before)).
    { assert (Hip : ~ In "timestamp" (Dict.keys ip_info)).
      { apply lookup_none_not_in. unfold Dict.contains in Hno.
        destruct (Dict.lookup ip_info "timestamp"); [discriminate | reflexivity]. }
      unfold before. destruct additional_info as [info|]; [|exact Hip].
      destruct (has_info (Some info)); [|exact Hip].
      intros Hin. destruct (flatten_into_keys _ _ _ _ Hin) as [H|[key H]].
      - exact (Hip H).
      - discriminate H. }
    exists (Dict.keys before).
    assert (Hkeys : csv_header flat_data = (Dict.keys before ++ ["timestamp"])%list).
    { unfold csv_header, flat_data, csv_flat_data. fold before.
      apply keys_set_fresh. exact Hfresh. }
    split; [exact Hkeys|].
    unfold csv_row. unfold csv_header in Hkeys. rewrite Hkeys, map_app. simpl.
    f_equal. unfold Dict.get_default, flat_data, csv_flat_data. fold before.
    rewrite lookup_set_same. reflexivity.
Qed.

Lemma csv_export_shape_witness :
  export_to_csv sample_runtime colors_simple sample_world
    [("query", VStr "1.1.1.1")] (Some [("languages", VDict [("eng", VStr "English")])])
    "out.csv"
  = Prog [ FileWritten "out.csv"
             ("query,additional_languages,timestamp" ++ crlf
                ++ "1.1.1.1,eng: English,2024-01-01 12:00:00" ++ crlf);
           Printed "Data exported to out.csv" ]
         (Done tt).
Proof.
  destruct (csv_export_shape sample_runtime colors_simple sample_world
              [("query", VStr "1.1.1.1")]
              (Some [("languages", VDict [("eng", VStr "English")])])
              "out.csv") as [H _].
  rewrite (H eq_refl). reflexivity.
Defined.

(** ** JSON text: reading back what was written *)

Lemma string_body_escape_char (a : ascii) (tail : string) :
  Json.string_body (Json.escape_char a ++ tail)
  = Json.prepend (String a "") (Json.string_body tail).
Proof.
  destruct a as [[] [] [] [] [] [] [] []]; reflexivity.
Qed.

Lemma string_body_escape (s rest : string) :
  Json.string_body (Json.escape s ++ String quote_char rest) = Some (s, rest).
Proof.
  induction s as [|a s IH]; simpl.
  - reflexivity.
  - rewrite append_assoc, string_body_escape_char, IH. reflexivity.
Qed.

Lemma parse_dump_string (fuel : nat) (s rest : string) :
  Json.parse_value (S fuel) (Json.dump_string s ++ rest) = Some (VStr s, rest).
Proof.
  unfold Json.dump_string. simpl.
  rewrite append_assoc. simpl. rewrite string_body_escape. reflexivity.
Qed.

Lemma take_number_app (t rest : string) :
  forallb Json.is_number_char (list_ascii_of_string t) = true ->
  ends_number rest ->
  Json.take_number (t ++ rest) = (t, rest).
Proof.
  intros Ht Hrest. induction t as [|a t IH]; simpl in *.
  - destruct rest as [|b rest]; [reflexivity|].
    simpl in *. rewrite Hrest. reflexivity.
  - apply andb_true_iff in Ht. destruct Ht as [Ha Ht].
    rewrite Ha, (IH Ht). reflexivity.
Qed.

Lemma digit_not (a c : ascii) :
  Inet.is_digit a = true -> Inet.is_digit c = false -> Ascii.eqb a c = false.
Proof.
  intros Ha Hc. destruct (Ascii.eqb_spec a c) as [->|]; [congruence | reflexivity].
Qed.

Lemma digit_is_number_char (a : ascii) :
  Inet.is_digit a = true -> Json.is_number_char a = true.
Proof. intros Ha. unfold Json.is_number_char. rewrite Ha. reflexivity. Qed.

Lemma uint_digit_string (d : Decimal.uint) :
  digit_string (NilEmpty.string_of_uint d) = true.
Proof.
  unfold digit_string.
  induction d; simpl; try reflexivity; exact IHd.
Qed.

Lemma skip_digits_all (s : string) :
  digit_string s = true -> Json.skip_digits s = "".
Proof.
  unfold digit_string. induction s as [|a s IH]; simpl; intros H.
  - reflexivity.
  - apply andb_true_iff in H. destruct H as [Ha Hs].
    rewrite Ha. exact (IH Hs).
Qed.

Lemma digit_string_not_float (s : string) :
  digit_string s = true -> Json.is_float_token s = false.
Proof.
  unfold digit_string. destruct s as [|a s]; [reflexivity|].
  simpl. intros H. apply andb_true_iff in H. destruct H as [Ha Hs].
  unfold Json.is_float_token, Json.skip_sign.
  rewrite (digit_not a "-" Ha eq_refl).
  unfold Json.int_part.
  destruct (Ascii.eqb a "0").
  - destruct s as [|b s]; [reflexivity|].
    simpl in Hs. apply andb_true_iff in Hs. destruct Hs as [Hb Hs].
    rewrite (digit_not b "." Hb eq_refl).
    unfold Json.exp_part.
    rewrite (digit_not b "e" Hb eq_refl), (digit_not b "E" Hb eq_refl).
    reflexivity.
  - unfold Json.digits1. rewrite Ha.
    rewrite (skip_digits_all s Hs). reflexivity.
Qed.

Lemma minus_digit_string_not_float (s : string) :
  digit_string s = true -> Json.is_float_token (String "-" s) = false.
Proof.
  unfold digit_string. intros H.
  unfold Json.is_float_token. simpl Json.skip_sign.
  destruct s as [|a s]; [reflexivity|].
  simpl in H. apply andb_true_iff in H. destruct H as [Ha Hs].
  unfold Json.int_part.
  destruct (Ascii.eqb a "0").
  - destruct s as [|b s]; [reflexivity|].
    simpl in Hs. apply andb_true_iff in Hs. destruct Hs as [Hb Hs].
    rewrite (digit_not b "." Hb eq_refl).
    unfold Json.exp_part.
    rewrite (digit_not b "e" Hb eq_refl), (digit_not b "E" Hb eq_refl).
    reflexivity.
  - unfold Json.digits1. rewrite Ha.
    rewrite (skip_digits_all s Hs). reflexivity.
Qed.

Lemma to_uint_canonical (p : positive) :
  Json.canonical (Pos.to_uint p) = true.
Proof.
  assert (Hnorm : Decimal.unorm (Pos.to_uint p) = Pos.to_uint p).
  { rewrite <- (DecimalPos.Unsigned.to_of (Pos.to_uint p)).
    rewrite DecimalPos.Unsigned.of_to. reflexivity. }
  pose proof (DecimalPos.Unsigned.to_uint_nonzero p) as Hnz.
  pose proof (DecimalPos.Unsigned.to_uint_nonnil p) as Hnn.
  destruct (Pos.to_uint p) as [|u|u|u|u|u|u|u|u|u|u] eqn:E; try reflexivity.
  - contradiction.
  - destruct u as [|u'|u'|u'|u'|u'|u'|u'|u'|u'|u'] eqn:Eu; [reflexivity| | | | | | | | | |];
      exfalso; rewrite DecimalFacts.unorm_D0 in Hnorm;
      match type of Hnorm with
      | Decimal.unorm ?x = _ =>
          assert (Hlen : (Decimal.nb_digits (Decimal.unorm x) <= Decimal.nb_digits x)%nat)
            by (apply DecimalFacts.nb_digits_unorm; discriminate);
          rewrite Hnorm in Hlen; simpl in Hlen; lia
      end.
Qed.

Lemma string_of_uint_nonnil (d : Decimal.uint) :
  d <> Decimal.Nil -> NilZero.string_of_uint d = NilEmpty.string_of_uint d.
Proof. destruct d; [contradiction | ..]; reflexivity. Qed.

(** The printed form of an integer: digits, after a minus sign when the
    integer is negative. *)
Lemma of_Z_shape (n : Z) :
  exists ds, digit_string ds = true /\ ds <> ""
             /\ Str.of_Z n = (if n <? 0 then String "-" ds else ds).
Proof.
  unfold Str.of_Z. destruct n as [|p|p]; simpl.
  - exists "0". repeat split; discriminate.
  - exists (NilEmpty.string_of_uint (Pos.to_uint p)).
    pose proof (DecimalPos.Unsigned.to_uint_nonnil p) as Hnn.
    split; [apply uint_digit_string|]. split.
    + destruct (Pos.to_uint p); [contradiction | ..]; discriminate.
    + apply string_of_uint_nonnil. exact Hnn.
  - exists (NilEmpty.string_of_uint (Pos.to_uint p)).
    pose proof (DecimalPos.Unsigned.to_uint_nonnil p) as Hnn.
    split; [apply uint_digit_string|]. split.
    + destruct (Pos.to_uint p); [contradiction | ..]; discriminate.
    + f_equal. apply string_of_uint_nonnil. exact Hnn.
Qed.

Lemma of_Z_number_chars (n : Z) :
  forallb Json.is_number_char (list_ascii_of_string (Str.of_Z n)) = true.
Proof.
  destruct (of_Z_shape n) as [ds [Hds [_ ->]]].
  assert (H : forallb Json.is_number_char (list_ascii_of_string ds) = true).
  { unfold digit_string in Hds. clear -Hds.
    induction ds as [|a ds IH]; simpl in *; [reflexivity|].
    apply andb_true_iff in Hds. destruct Hds as [Ha Hs].
    rewrite (digit_is_number_char a Ha), (IH Hs). reflexivity. }
  destruct (n <? 0); simpl; exact H.
Qed.

Lemma int_of_token_of_Z (n : Z) : Json.int_of_token (Str.of_Z n) = Some n.
Proof.
  unfold Json.int_of_token, Str.of_Z.
  rewrite NilZero.isi.
  - assert (Hc : Json.canonical (Decimal.abs (Z.to_int n)) = true).
    { destruct n as [|p|p]; simpl; [reflexivity | apply to_uint_canonical ..]. }
    rewrite Hc, DecimalZ.of_to. reflexivity.
  - destruct n as [|p|p]; simpl; try discriminate.
    intros E. injection E as E. exact (DecimalPos.Unsigned.to_uint_nonnil p E).
  - destruct n as [|p|p]; simpl; try discriminate.
    intros E. injection E as E. exact (DecimalPos.Unsigned.to_uint_nonnil p E).
Qed.

Lemma number_of_token_of_Z (n : Z) :
  Json.number_of_token (Str.of_Z n) = Some (VInt n).
Proof.
  unfold Json.number_of_token.
  assert (Hf : Json.is_float_token (Str.of_Z n) = false).
  { destruct (of_Z_shape n) as [ds [Hds [_ ->]]].
    destruct (n <? 0).
    - apply minus_digit_string_not_float. exact Hds.
    - apply digit_string_not_float. exact Hds. }
  rewrite Hf, int_of_token_of_Z. reflexivity.
Qed.

Lemma number_char_not (a c : ascii) :
  Json.is_number_char a = true -> Json.is_number_char c = false ->
  Ascii.eqb a c = false.
Proof.
  intros Ha Hc. destruct (Ascii.eqb_spec a c) as [->|]; [congruence | reflexivity].
Qed.

Lemma number_char_not_ws (a : ascii) :
  Json.is_number_char a = true -> Json.is_ws a = false.
Proof.
  destruct a as [[] [] [] [] [] [] [] []]; intros H; try reflexivity; discriminate H.
Qed.

Lemma skip_ws_spaces (level : nat) (s : string) :
  Json.skip_ws (Str.repeat_nat "  " level ++ s) = Json.skip_ws s.
Proof. induction level as [|n IH]; simpl; [reflexivity | exact IH]. Qed.

Lemma skip_ws_break (level : nat) (s : string) :
  Json.skip_ws (Json.break level ++ s) = Json.skip_ws s.
Proof. unfold Json.break. simpl. apply skip_ws_spaces. Qed.

Lemma starts_value_app (s rest : string) :
  starts_value s -> starts_value (s ++ rest).
Proof.
  intros [a [s' [-> H]]]. exists a, (s' ++ rest). split; [reflexivity | exact H].
Qed.

Lemma skip_ws_value (s : string) : starts_value s -> Json.skip_ws s = s.
Proof. intros [a [s' [-> [H _]]]]. simpl. rewrite H. reflexivity. Qed.

Lemma starts_value_number (t : string) :
  t <> "" ->
  forallb Json.is_number_char (list_ascii_of_string t) = true ->
  starts_value t.
Proof.
  destruct t as [|a t]; [contradiction|]. intros _ H. simpl in H.
  apply andb_true_iff in H. destruct H as [Ha _].
  exists a, t. split; [reflexivity|].
  split; [apply number_char_not_ws; exact Ha|].
  split; apply number_char_not; auto.
Qed.

Lemma float_token_nonempty (r : string) :
  Json.is_float_token r = true -> r <> "".
Proof. intros H ->. discriminate H. Qed.

Lemma starts_value_dump (level : nat) (v : value) :
  Json.well_formed v = true -> starts_value (Json.dump level v).
Proof.
  intros Hwf.
  assert (Hlit : forall a s', Json.is_ws a = false -> Ascii.eqb a "]" = false ->
                              Ascii.eqb a "}" = false -> starts_value (String a s')).
  { intros a s' H1 H2 H3. exists a, s'. auto. }
  destruct v as [|[]|n|r|s|[|x xs]|[|[k x] ms]]; simpl; try (apply Hlit; reflexivity).
  - apply starts_value_number.
    + destruct (of_Z_shape n) as [ds [_ [Hne ->]]]. destruct (n <? 0); [discriminate | exact Hne].
    + apply of_Z_number_chars.
  - simpl in Hwf. unfold Json.float_ok in Hwf. unfold Json.dump_float.
    destruct (String.eqb r "nan"); [apply Hlit; reflexivity|].
    destruct (String.eqb r "inf"); [apply Hlit; reflexivity|].
    destruct (String.eqb r "-inf"); [apply Hlit; reflexivity|].
    simpl in Hwf. apply andb_true_iff in Hwf. destruct Hwf as [Hf Hc].
    apply starts_value_number; [apply float_token_nonempty; exact Hf | exact Hc].
Qed.

Lemma startswith_cons (a p0 : ascii) (s p : string) :
  Str.startswith (String a s) (String p0 p)
  = Ascii.eqb p0 a && Str.startswith s p.
Proof.
  unfold Str.startswith. cbn [Str.drop_prefix].
  destruct (Ascii.eqb p0 a); reflexivity.
Qed.

Lemma not_minus_infinity (t rest : string) :
  forallb Json.is_number_char (list_ascii_of_string t) = true ->
  t <> "" -> t <> "-" ->
  Str.startswith (t ++ rest) "-Infinity" = false.
Proof.
  intros Ht Hne Hminus.
  destruct t as [|a [|b t]]; [contradiction| |].
  - change (String a "" ++ rest) with (String a rest).
    rewrite startswith_cons.
    destruct (Ascii.eqb_spec "-"%char a) as [<-|]; [contradiction | reflexivity].
  - cbn [list_ascii_of_string forallb] in Ht.
    apply andb_true_iff in Ht. destruct Ht as [_ Ht].
    apply andb_true_iff in Ht. destruct Ht as [Hb _].
    change (String a (String b t) ++ rest) with (String a (String b (t ++ rest))).
    rewrite !startswith_cons.
    rewrite (Ascii.eqb_sym "I" b), (number_char_not b "I" Hb eq_refl).
    rewrite andb_false_r. reflexivity.
Qed.

Lemma parse_number (fuel : nat) (t rest : string) (v : value) :
  forallb Json.is_number_char (list_ascii_of_string t) = true ->
  t <> "" -> t <> "-" ->
  Json.number_of_token t = Some v ->
  ends_number rest ->
  Json.parse_value (S fuel) (t ++ rest) = Some (v, rest).
Proof.
  intros Ht Hne Hminus Hv Hrest.
  pose proof (not_minus_infinity t rest Ht Hne Hminus) as Hinf.
  pose proof (take_number_app t rest Ht Hrest) as Htake.
  destruct t as [|a t]; [contradiction|].
  assert (Ha : Json.is_number_char a = true).
  { simpl in Ht. apply andb_true_iff in Ht. apply Ht. }
  change (String a t ++ rest) with (String a (t ++ rest)) in *.
  cbn [Json.parse_value].
  rewrite (number_char_not a quote_char Ha eq_refl).
  rewrite (number_char_not a "[" Ha eq_refl), (number_char_not a "{" Ha eq_refl).
  rewrite (number_char_not a "n" Ha eq_refl), (number_char_not a "t" Ha eq_refl).
  rewrite (number_char_not a "f" Ha eq_refl), (number_char_not a "N" Ha eq_refl).
  rewrite (number_char_not a "I" Ha eq_refl).
  rewrite Hinf, Htake, Hv. reflexivity.
Qed.

Lemma parse_dump_float (fuel : nat) (r rest : string) :
  Json.float_ok r = true -> ends_number rest ->
  Json.parse_value (S fuel) (Json.dump_float r ++ rest) = Some (VFloat r, rest).
Proof.
  intros Hok Hrest. unfold Json.float_ok in Hok. unfold Json.dump_float.
  destruct (String.eqb_spec r "nan") as [->|_]; [reflexivity|].
  destruct (String.eqb_spec r "inf") as [->|_]; [reflexivity|].
  destruct (String.eqb_spec r "-inf") as [->|_]; [reflexivity|].
  simpl in Hok. apply andb_true_iff in Hok. destruct Hok as [Hf Hc].
  apply parse_number; auto.
  - apply float_token_nonempty. exact Hf.
  - intros ->. discriminate Hf.
  - unfold Json.number_of_token. rewrite Hf. reflexivity.
Qed.

Lemma parse_dump_int (fuel : nat) (n : Z) (rest : string) :
  ends_number rest ->
  Json.parse_value (S fuel) (Str.of_Z n ++ rest) = Some (VInt n, rest).
Proof.
  intros Hrest.
  destruct (of_Z_shape n) as [ds [Hds [Hne Hshape]]].
  apply parse_number.
  - apply of_Z_number_chars.
  - rewrite Hshape. destruct (n <? 0); [discriminate | exact Hne].
  - rewrite Hshape. destruct (n <? 0).
    + intros E. apply Hne. congruence.
    + intros ->. discriminate Hds.
  - apply number_of_token_of_Z.
  - exact Hrest.
Qed.

Lemma set_fresh (d : dict) (k : string) (v : value) :
  ~ In k (Dict.keys d) -> Dict.set d k v = (d ++ [(k, v)])%list.
Proof.
  induction d as [|[k' v'] d IH]; simpl; intros Hk.
  - reflexivity.
  - destruct (String.eqb_spec k' k) as [->|Hne].
    + exfalso; apply Hk; left; reflexivity.
    + f_equal. apply IH. intro; apply Hk; right; assumption.
Qed.

Lemma ends_number_more_items (level : nat) (xs : list value) (rest : string) :
  ends_number (Json.more_items level xs ++ rest).
Proof. destruct xs; simpl; reflexivity. Qed.

Lemma ends_number_more_members (level : nat) (ms : list (string * value))
      (rest : string) :
  ends_number (Json.more_members level ms ++ rest).
Proof. destruct ms as [|[k y] ms]; simpl; reflexivity. Qed.

Lemma starts_value_string (k rest : string) :
  starts_value (Json.dump_string k ++ rest).
Proof.
  unfold Json.dump_string. simpl. eexists _, _. split; [reflexivity|].
  repeat split; reflexivity.
Qed.

Lemma parse_list_nonempty (fuel : nat) (rest : string) (a : ascii) (s' : string) :
  Json.skip_ws rest = String a s' -> Ascii.eqb a "]" = false ->
  Json.parse_value (S fuel) (String "[" rest)
  = match Json.parse_items fuel (String a s') with
    | Some (items, rest'') => Some (VList items, rest'')
    | None => None
    end.
Proof.
  intros H1 H2.
  change (Json.parse_value (S fuel) (String "[" rest))
    with (match Json.skip_ws rest with
          | EmptyString => None
          | String b rest' =>
              if Ascii.eqb b "]" then Some (VList [], rest')
              else
                match Json.parse_items fuel (String b rest') with
                | Some (items, rest'') => Some (VList items, rest'')
                | None => None
                end
          end).
  rewrite H1, H2. reflexivity.
Qed.

Lemma parse_dict_nonempty (fuel : nat) (rest : string) (a : ascii) (s' : string) :
  Json.skip_ws rest = String a s' -> Ascii.eqb a "}" = false ->
  Json.parse_value (S fuel) (String "{" rest)
  = match Json.parse_members fuel [] (String a s') with
    | Some (members, rest'') => Some (VDict members, rest'')
    | None => None
    end.
Proof.
  intros H1 H2.
  change (Json.parse_value (S fuel) (String "{" rest))
    with (match Json.skip_ws rest with
          | EmptyString => None
          | String b rest' =>
              if Ascii.eqb b "}" then Some (VDict [], rest')
              else
                match Json.parse_members fuel [] (String b rest') with
                | Some (members, rest'') => Some (VDict members, rest'')
                | None => None
                end
          end).
  rewrite H1, H2. reflexivity.
Qed.

Lemma parse_items_step (fuel : nat) (s rest rest' : string) (v : value) (b : ascii) :
  Json.parse_value fuel s = Some (v, rest) ->
  Json.skip_ws rest = String b rest' ->
  Json.parse_items (S fuel) s
  = if Ascii.eqb b "]" then Some ([v], rest')
    else if Ascii.eqb b "," then
      match Json.parse_items fuel (Json.skip_ws rest') with
      | Some (vs, rest'') => Some (v :: vs, rest'')
      | None => None
      end
    else None.
Proof.
  intros H1 H2. cbn [Json.parse_items]. rewrite H1, H2. reflexivity.
Qed.

Lemma parse_members_step (fuel : nat) (acc : dict) (rest rest1 rest2 rest3 rest4 k : string)
      (v : value) (d : ascii) :
  Json.string_body rest = Some (k, rest1) ->
  Json.skip_ws rest1 = String ":" rest2 ->
  Json.parse_value fuel (Json.skip_ws rest2) = Some (v, rest3) ->
  Json.skip_ws rest3 = String d rest4 ->
  Json.parse_members (S fuel) acc (String quote_char rest)
  = if Ascii.eqb d "}" then Some (Dict.set acc k v, rest4)
    else if Ascii.eqb d "," then
      Json.parse_members fuel (Dict.set acc k v) (Json.skip_ws rest4)
    else None.
Proof.
  intros H1 H2 H3 H4.
  change (Json.parse_members (S fuel) acc (String quote_char rest))
    with (match Json.string_body rest with
          | Some (k, rest1) =>
              match Json.skip_ws rest1 with
              | EmptyString => None
              | String b rest2 =>
                  if Ascii.eqb b ":" then
                    match Json.parse_value fuel (Json.skip_ws rest2) with
                    | Some (v, rest3) =>
                        let acc' := Dict.set acc k v in
                        match Json.skip_ws rest3 with
                        | EmptyString => None
                        | String d rest4 =>
                            if Ascii.eqb d "}" then Some (acc', rest4)
                            else if Ascii.eqb d "," then
                              Json.parse_members fuel acc' (Json.skip_ws rest4)
                            else None
                        end
                    | None => None
                    end
                  else None
              end
          | None => None
          end).
  rewrite H1, H2. change (Ascii.eqb ":" ":") with true. cbv iota.
  rewrite H3. cbv zeta. rewrite H4. reflexivity.
Qed.

Lemma distinct_NoDup (l : list string) : Json.distinct l = true -> NoDup l.
Proof.
  induction l as [|y l IH]; simpl; intros H; constructor.
  - apply andb_true_iff in H. destruct H as [H _].
    intros Hin. apply negb_true_iff in H.
    assert (existsb (String.eqb y) l = true).
    { apply existsb_exists. exists y. split; [exact Hin | apply String.eqb_refl]. }
    congruence.
  - apply andb_true_iff in H. apply IH, H.
Qed.

Lemma size_positive (v : value) : (1 <= Json.size v)%nat.
Proof. destruct v; simpl; lia. Qed.

(** Reading back, by induction on the fuel: a value, the items of a list
    after the opening bracket, and the members of an object. *)
Lemma parse_dump_fuel (fuel : nat) :
  (forall v level rest,
      (Json.size v <= fuel)%nat -> Json.well_formed v = true ->
      ends_number rest ->
      Json.parse_value fuel (Json.dump level v ++ rest) = Some (v, rest))
  /\ (forall x xs level rest,
         (Json.items_size (x :: xs) <= fuel)%nat ->
         Json.all_items (x :: xs) = true ->
         Json.parse_items fuel
           (Json.dump (S level) x ++ Json.more_items level xs ++ rest)
         = Some (x :: xs, rest))
  /\ (forall k x ms level rest acc,
         (Json.members_size ((k, x) :: ms) <= fuel)%nat ->
         Json.all_members ((k, x) :: ms) = true ->
         NoDup (Dict.keys acc ++ k :: map fst ms) ->
         Json.parse_members fuel acc
           (Json.dump_string k ++ ": " ++ Json.dump (S level) x
              ++ Json.more_members level ms ++ rest)
         = Some ((acc ++ (k, x) :: ms)%list, rest)).
Proof.
  induction fuel as [|fuel [IHv [IHi IHm]]].
  { split; [|split].
    - intros v level rest Hsize. pose proof (size_positive v). lia.
    - intros x xs level rest Hsize. simpl in Hsize. lia.
    - intros k x ms level rest acc Hsize. simpl in Hsize. lia. }
  split; [|split].
  - intros v level rest Hsize Hwf Hrest.
    destruct v as [|[]|n|r|s|[|x xs]|[|[k x] ms]]; try reflexivity.
    + apply parse_dump_int. exact Hrest.
    + apply parse_dump_float; assumption.
    + apply parse_dump_string.
    + change (Json.dump level (VList (x :: xs)))
        with ("[" ++ Json.break (S level) ++ Json.dump (S level) x
                ++ Json.more_items level xs).
      change (Json.well_formed (VList (x :: xs)))
        with (Json.all_items (x :: xs)) in Hwf.
      change (Json.size (VList (x :: xs)))
        with (S (Json.items_size (x :: xs))) in Hsize.
      assert (Hx : Json.well_formed x = true).
      { simpl in Hwf. apply andb_true_iff in Hwf. apply Hwf. }
      destruct (starts_value_dump (S level) x Hx) as [a [s' [Hd [Hws [Hb1 Hb2]]]]].
      rewrite !append_assoc.
      change ("[" ++ ?t) with (String "[" t).
      rewrite (parse_list_nonempty fuel _ a
                 (s' ++ Json.more_items level xs ++ rest)).
      * change (String a (s' ++ ?t)) with (String a s' ++ t). rewrite <- Hd.
        rewrite IHi by (assumption || lia). reflexivity.
      * rewrite skip_ws_break. rewrite Hd. simpl. rewrite Hws. reflexivity.
      * exact Hb1.
    + change (Json.dump level (VDict ((k, x) :: ms)))
        with ("{" ++ Json.break (S level) ++ Json.dump_string k ++ ": "
                ++ Json.dump (S level) x ++ Json.more_members level ms).
      change (Json.well_formed (VDict ((k, x) :: ms)))
        with (Json.distinct (map fst ((k, x) :: ms))
              && Json.all_members ((k, x) :: ms)) in Hwf.
      change (Json.size (VDict ((k, x) :: ms)))
        with (S (Json.members_size ((k, x) :: ms))) in Hsize.
      apply andb_true_iff in Hwf. destruct Hwf as [Hdist Hall].
      rewrite !append_assoc.
      change ("{" ++ ?t) with (String "{" t).
      rewrite (parse_dict_nonempty fuel _ quote_char
                 ((Json.escape k ++ String quote_char "") ++ ": "
                    ++ Json.dump (S level) x ++ Json.more_members level ms ++ rest)).
      * change (String quote_char ((Json.escape k ++ String quote_char "") ++ ?t))
          with (Json.dump_string k ++ t).
        rewrite (IHm k x ms level rest []); try assumption; try lia.
        -- reflexivity.
        -- simpl. apply distinct_NoDup. exact Hdist.
      * rewrite skip_ws_break. reflexivity.
      * reflexivity.
  - intros x xs level rest Hsize Hall.
    assert (Hx : Json.well_formed x = true).
    { simpl in Hall. apply andb_true_iff in Hall. apply Hall. }
    assert (Hxs : Json.all_items xs = true).
    { simpl in Hall. apply andb_true_iff in Hall. apply Hall. }
    change (Json.items_size (x :: xs))
      with (S (Json.size x) + Json.items_size xs)%nat in Hsize.
    assert (Hv : Json.parse_value fuel
                   (Json.dump (S level) x ++ Json.more_items level xs ++ rest)
                 = Some (x, Json.more_items level xs ++ rest)).
    { apply IHv; [lia | exact Hx | apply ends_number_more_items]. }
    destruct xs as [|y ys].
    + rewrite (parse_items_step fuel _ _ rest x "]" Hv).
      * reflexivity.
      * change (Json.more_items level []) with (Json.break level ++ "]").
        rewrite append_assoc, skip_ws_break. reflexivity.
    + assert (Hy : Json.well_formed y = true).
      { simpl in Hxs. apply andb_true_iff in Hxs. apply Hxs. }
      rewrite (parse_items_step fuel _ _
                 (Json.break (S level) ++ Json.dump (S level) y
                    ++ Json.more_items level ys ++ rest) x "," Hv).
      * change (Ascii.eqb "," "]") with false. change (Ascii.eqb "," ",") with true.
        cbv iota.
        rewrite skip_ws_break.
        rewrite (skip_ws_value (Json.dump (S level) y ++ _))
          by (apply starts_value_app, starts_value_dump; exact Hy).
        assert (Hsize' : (Json.items_size (y :: ys) <= fuel)%nat).
        { pose proof (size_positive x). lia. }
        rewrite (IHi y ys level rest Hsize' Hxs). reflexivity.
      * change (Json.more_items level (y :: ys))
          with ("," ++ Json.break (S level) ++ Json.dump (S level) y
                  ++ Json.more_items level ys).
        rewrite !append_assoc. reflexivity.
  - intros k x ms level rest acc Hsize Hall Hnd.
    assert (Hx : Json.well_formed x = true).
    { simpl in Hall. apply andb_true_iff in Hall. apply Hall. }
    assert (Hms : Json.all_members ms = true).
    { simpl in Hall. apply andb_true_iff in Hall. apply Hall. }
    change (Json.members_size ((k, x) :: ms))
      with (S (Json.size x) + Json.members_size ms)%nat in Hsize.
    assert (Hfresh : ~ In k (Dict.keys acc)).
    { apply NoDup_remove_2 in Hnd. intros Hin. apply Hnd, in_or_app. left. exact Hin. }
    set (tail := Json.more_members level ms ++ rest).
    assert (Hkey : Json.string_body
                     ((Json.escape k ++ String quote_char "")
                        ++ ": " ++ Json.dump (S level) x ++ tail)
                   = Some (k, String ":" (String " " (Json.dump (S level) x ++ tail)))).
    { rewrite append_assoc.
      change (String quote_char "" ++ ?t) with (String quote_char t).
      rewrite string_body_escape. reflexivity. }
    assert (Hv : Json.parse_value fuel
                   (Json.skip_ws (String " " (Json.dump (S level) x ++ tail)))
                 = Some (x, tail)).
    { change (Json.skip_ws (String " " ?t)) with (Json.skip_ws t).
      rewrite skip_ws_value
        by (apply starts_value_app, starts_value_dump; exact Hx).
      apply IHv; [lia | exact Hx | apply ends_number_more_members]. }
    change (Json.dump_string k ++ ?t)
      with (String quote_char ((Json.escape k ++ String quote_char "") ++ t)).
    destruct ms as [|[k' y] ms'].
    + rewrite (parse_members_step fuel acc _ _ _ _ rest k x "}" Hkey eq_refl Hv).
      * change (Ascii.eqb "}" "}") with true. cbv iota.
        rewrite (set_fresh acc k x Hfresh). reflexivity.
      * unfold tail.
        change (Json.more_members level []) with (Json.break level ++ "}").
        rewrite append_assoc, skip_ws_break. reflexivity.
    + rewrite (parse_members_step fuel acc _ _ _ _
                 (Json.break (S level) ++ Json.dump_string k' ++ ": "
                    ++ Json.dump (S level) y ++ Json.more_members level ms' ++ rest)
                 k x "," Hkey eq_refl Hv).
      * change (Ascii.eqb "," "}") with false. change (Ascii.eqb "," ",") with true.
        cbv iota.
        rewrite skip_ws_break.
        rewrite (skip_ws_value (Json.dump_string k' ++ _)) by apply starts_value_string.
        assert (Hsize' : (Json.members_size ((k', y) :: ms') <= fuel)%nat).
        { pose proof (size_positive x). lia. }
        rewrite (set_fresh acc k x Hfresh).
        rewrite (IHm k' y ms' level rest (acc ++ [(k, x)])%list Hsize' Hms).
        -- rewrite <- app_assoc. reflexivity.
        -- unfold Dict.keys. rewrite map_app. simpl. rewrite <- app_assoc. exact Hnd.
      * unfold tail.
        change (Json.more_members level ((k', y) :: ms'))
          with ("," ++ Json.break (S level) ++ Json.dump_string k' ++ ": "
                  ++ Json.dump (S level) y ++ Json.more_members level ms').
        rewrite !append_assoc. reflexivity.
Qed.

Lemma length_break (level : nat) : (1 <= String.length (Json.break level))%nat.
Proof. unfold Json.break. simpl. lia. Qed.

(** The text of a value is at least as long as the value is large: the
    length of a text is fuel enough to read it. *)
Lemma size_le_length (n : nat) :
  (forall v level,
      (Json.size v <= n)%nat -> Json.well_formed v = true ->
      (Json.size v <= String.length (Json.dump level v))%nat)
  /\ (forall xs level,
         (Json.items_size xs <= n)%nat -> Json.all_items xs = true ->
         (Json.items_size xs <= String.length (Json.more_items level xs))%nat)
  /\ (forall ms level,
         (Json.members_size ms <= n)%nat -> Json.all_members ms = true ->
         (Json.members_size ms <= String.length (Json.more_members level ms))%nat).
Proof.
  induction n as [|n [IHv [IHi IHm]]].
  { split; [|split].
    - intros v level Hsize. pose proof (size_positive v). lia.
    - intros xs level Hsize _. lia.
    - intros ms level Hsize _. lia. }
  split; [|split].
  - intros v level Hsize Hwf.
    destruct v as [|[]|z|r|s|[|x xs]|[|[k x] ms]]; try (simpl; lia).
    + destruct (starts_value_dump level (VInt z) eq_refl) as [a [s' [-> _]]].
      simpl. lia.
    + destruct (starts_value_dump level (VFloat r) Hwf) as [a [s' [-> _]]].
      simpl. lia.
    + change (Json.dump level (VList (x :: xs)))
        with ("[" ++ Json.break (S level) ++ Json.dump (S level) x
                ++ Json.more_items level xs).
      change (Json.well_formed (VList (x :: xs)))
        with (Json.well_formed x && Json.all_items xs) in Hwf.
      change (Json.size (VList (x :: xs)))
        with (S (S (Json.size x) + Json.items_size xs)) in *.
      apply andb_true_iff in Hwf. destruct Hwf as [Hx Hxs].
      rewrite !length_append.
      pose proof (length_break (S level)).
      pose proof (IHv x (S level) ltac:(lia) Hx).
      pose proof (IHi xs level ltac:(lia) Hxs).
      simpl String.length at 1. lia.
    + change (Json.dump level (VDict ((k, x) :: ms)))
        with ("{" ++ Json.break (S level) ++ Json.dump_string k ++ ": "
                ++ Json.dump (S level) x ++ Json.more_members level ms).
      change (Json.well_formed (VDict ((k, x) :: ms)))
        with (Json.distinct (map fst ((k, x) :: ms))
              && (Json.well_formed x && Json.all_members ms)) in Hwf.
      change (Json.size (VDict ((k, x) :: ms)))
        with (S (S (Json.size x) + Json.members_size ms)) in *.
      apply andb_true_iff in Hwf. destruct Hwf as [_ Hwf].
      apply andb_true_iff in Hwf. destruct Hwf as [Hx Hms].
      rewrite !length_append.
      pose proof (length_break (S level)).
      pose proof (IHv x (S level) ltac:(lia) Hx).
      pose proof (IHm ms level ltac:(lia) Hms).
      simpl String.length at 1. lia.
  - intros xs level Hsize Hall. destruct xs as [|y ys]; [simpl; lia|].
    change (Json.more_items level (y :: ys))
      with ("," ++ Json.break (S level) ++ Json.dump (S level) y
              ++ Json.more_items level ys).
    change (Json.all_items (y :: ys))
      with (Json.well_formed y && Json.all_items ys) in Hall.
    change (Json.items_size (y :: ys))
      with (S (Json.size y) + Json.items_size ys)%nat in *.
    apply andb_true_iff in Hall. destruct Hall as [Hy Hys].
    rewrite !length_append.
    pose proof (IHv y (S level) ltac:(lia) Hy).
    pose proof (IHi ys level ltac:(lia) Hys).
    simpl String.length at 1. lia.
  - intros ms level Hsize Hall. destruct ms as [|[k y] ms']; [simpl; lia|].
    change (Json.more_members level ((k, y) :: ms'))
      with ("," ++ Json.break (S level) ++ Json.dump_string k ++ ": "
              ++ Json.dump (S level) y ++ Json.more_members level ms').
    change (Json.all_members ((k, y) :: ms'))
      with (Json.well_formed y && Json.all_members ms') in Hall.
    change (Json.members_size ((k, y) :: ms'))
      with (S (Json.size y) + Json.members_size ms')%nat in *.
    apply andb_true_iff in Hall. destruct Hall as [Hy Hms].
    rewrite !length_append.
    pose proof (IHv y (S level) ltac:(lia) Hy).
    pose proof (IHm ms' level ltac:(lia) Hms).
    simpl String.length at 1. lia.
Qed.

(** Reading the text of a well-formed value gives the value back. *)
Lemma loads_dumps (v : value) :
  Json.well_formed v = true -> Json.loads (Json.dumps v) = Some v.
Proof.
  intros Hwf. unfold Json.loads, Json.dumps.
  rewrite (skip_ws_value (Json.dump 0 v)) by (apply starts_value_dump; exact Hwf).
  destruct (parse_dump_fuel (S (String.length (Json.dump 0 v)))) as [Hv _].
  specialize (Hv v 0%nat "").
  rewrite append_empty in Hv. rewrite Hv.
  - reflexivity.
  - destruct (size_le_length (Json.size v)) as [Hlen _].
    specialize (Hlen v 0%nat (Nat.le_refl _) Hwf). lia.
  - exact Hwf.
  - exact I.
Qed.

Lemma distinct_app_fresh (l : list string) (k : string) :
  Json.distinct l = true -> ~ In k l -> Json.distinct (l ++ [k]) = true.
Proof.
  induction l as [|y l IH]; simpl; intros Hd Hk.
  - reflexivity.
  - apply andb_true_iff in Hd. destruct Hd as [Hy Hl].
    apply andb_true_iff. split.
    + apply negb_true_iff. apply negb_true_iff in Hy.
      rewrite existsb_app, Hy. simpl.
      destruct (String.eqb_spec y k) as [->|]; [|reflexivity].
      exfalso. apply Hk. left. reflexivity.
    + apply IH; [exact Hl|]. intro H. apply Hk. right. exact H.
Qed.

Lemma all_members_set (d : dict) (k : string) (v : value) :
  Json.all_members d = true -> Json.well_formed v = true ->
  Json.all_members (Dict.set d k v) = true.
Proof.
  intros Hd Hv. induction d as [|[k' v'] d IH]; simpl in *.
  - rewrite Hv. reflexivity.
  - apply andb_true_iff in Hd. destruct Hd as [Hv' Hd].
    destruct (String.eqb k' k); simpl.
    + rewrite Hv, Hd. reflexivity.
    + rewrite Hv', (IH Hd). reflexivity.
Qed.

Lemma in_keys_dec (d : dict) (k : string) :
  In k (Dict.keys d) \/ ~ In k (Dict.keys d).
Proof.
  destruct (in_dec string_dec k (Dict.keys d)); [left | right]; assumption.
Qed.

(** Storing a well-formed value keeps an object well formed. *)
Lemma well_formed_set (d : dict) (k : string) (v : value) :
  Json.well_formed (VDict d) = true -> Json.well_formed v = true ->
  Json.well_formed (VDict (Dict.set d k v)) = true.
Proof.
  intros Hd Hv.
  change (Json.well_formed (VDict d))
    with (Json.distinct (map fst d) && Json.all_members d) in Hd.
  change (Json.well_formed (VDict (Dict.set d k v)))
    with (Json.distinct (map fst (Dict.set d k v))
          && Json.all_members (Dict.set d k v)).
  apply andb_true_iff in Hd. destruct Hd as [Hdist Hall].
  apply andb_true_iff. split; [|apply all_members_set; assumption].
  destruct (in_keys_dec d k) as [Hin|Hout].
  - change (map fst (Dict.set d k v)) with (Dict.keys (Dict.set d k v)).
    rewrite keys_set_present by exact Hin. exact Hdist.
  - change (map fst (Dict.set d k v)) with (Dict.keys (Dict.set d k v)).
    rewrite keys_set_fresh by exact Hout.
    apply distinct_app_fresh; assumption.
Qed.

(** ** The JSON exporter *)

(** C9.  The exporter writes one file and prints one line.  When the
    record and the enrichment are values [json.loads] can return, parsing
    the text of the file yields one JSON object: it has every field of
    the record with its value, the timestamp under [timestamp], and the
    enrichment record under [additional_info] exactly when it is a
    non-empty record; it has no other key.  The fields of the record are
    those whose name is not one of the two added keys. *)
Theorem json_export_round_trip :
  forall (c : Colors) (w : World) (ip_info : dict)
         (additional_info : option dict) (filename : string),
    let data := json_data w ip_info additional_info in
    Json.well_formed (VDict ip_info) = true ->
    (forall info, additional_info = Some info ->
                  Json.well_formed (VDict info) = true) ->
    open_for_writing w filename = Ret tt ->
    (exists text,
        export_to_json c w ip_info additional_info filename
        = Prog [ FileWritten filename text;
                 Printed (GREEN c ++ "Data exported to " ++ filename ++ ENDC c) ]
               (Done tt)
        /\ Json.loads text = Some (VDict data))
    /\ (forall k v,
           Dict.lookup ip_info k = Some v ->
           k <> "timestamp" -> k <> "additional_info" ->
           Dict.lookup data k = Some v)
    /\ Dict.lookup data "timestamp" = Some (VStr (clock (surroundings w)))
    /\ (forall info,
           additional_info = Some info -> info <> [] ->
           Dict.lookup data "additional_info" = Some (VDict info))
    /\ (has_info additional_info = false ->
        Dict.lookup data "additional_info"
        = Dict.lookup ip_info "additional_info")
    /\ (forall k,
           In k (Dict.keys data) ->
           In k (Dict.keys ip_info) \/ k = "timestamp"
           \/ (k = "additional_info" /\ has_info additional_info = true)).
Proof.
  intros c w ip_info additional_info filename data Hrecord Henrich Hopen.
  split; [|split; [|split; [|split; [|split]]]].
  - exists (Json.dumps (VDict data)). split.
    + unfold export_to_json, write_file.
      fold data. unfold P.bind, P.of_res. rewrite Hopen. reflexivity.
    + apply loads_dumps. unfold data, json_data.
      apply well_formed_set; [|reflexivity].
      destruct additional_info as [info|]; [|exact Hrecord].
      destruct (has_info (Some info)); [|exact Hrecord].
      apply well_formed_set; [exact Hrecord|].
      apply Henrich. reflexivity.
  - intros k v Hk Hts Hadd. unfold data, json_data.
    rewrite lookup_set_other by congruence.
    destruct additional_info as [info|]; [|exact Hk].
    destruct (has_info (Some info)); [|exact Hk].
    rewrite lookup_set_other by congruence. exact Hk.
  - unfold data, json_data. apply lookup_set_same.
  - intros info -> Hne. unfold data, json_data.
    assert (Hinfo : has_info (Some info) = true).
    { destruct info; [contradiction | reflexivity]. }
    rewrite Hinfo. rewrite lookup_set_other by discriminate.
    apply lookup_set_same.
  - intros Hno. unfold data, json_data.
    rewrite lookup_set_other by discriminate.
    destruct additional_info as [info|]; [|reflexivity].
    rewrite Hno. reflexivity.
  - intros k Hin. unfold data, json_data in Hin.
    destruct (keys_set_incl _ _ _ _ Hin) as [H| ->]; [|auto].
    destruct additional_info as [info|]; [|auto].
    destruct (has_info (Some info)) eqn:Hinfo; [|auto].
    destruct (keys_set_incl _ _ _ _ H) as [H'| ->]; auto.
Qed.

Lemma json_export_round_trip_witness :
  exists text,
    export_to_json colors_simple sample_world geo_google
      (Some [("capital", VStr "Paris")]) "out.json"
    = Prog [FileWritten "out.json" text; Printed "Data exported to out.json"]
           (Done tt)
    /\ Json.loads text
       = Some (VDict (geo_google
                        ++ [ ("additional_info", VDict [("capital", VStr "Paris")]);
                             ("timestamp", VStr "2024-01-01 12:00:00") ])).
Proof.
  destruct (json_export_round_trip colors_simple sample_world geo_google
              (Some [("capital", VStr "Paris")]) "out.json") as [[text H] _].
  - reflexivity.
  - intros info E. injection E as <-. reflexivity.
  - reflexivity.
  - exists text. exact H.
Defined.

(** ** The address validator *)

(** C2, as stated, fails: the short form [127.1] has two numbers and one
    dot, it is not a dotted quad, and the validator accepts it. *)
Lemma shorthand_address_accepted :
  validate_ip "127.1" = Ret true /\ is_dotted_quad "127.1" = false.
Proof. split; reflexivity. Qed.

Lemma has_nul_append (s t : string) :
  Inet.has_nul (s ++ t) = Inet.has_nul s || Inet.has_nul t.
Proof.
  induction s as [|a s IH]; simpl; [reflexivity|].
  rewrite IH. apply orb_assoc.
Qed.

Ltac octet_case :=
  split; [do 2 eexists; split; reflexivity|];
  split; [reflexivity|];
  let rest := fresh "rest" in
  let r := fresh "r" in
  intros rest [->|[r ->]]; [reflexivity | destruct r; reflexivity].

Lemma octet_parses_nat (n : nat) :
  (n < 256)%nat -> octet_reads_back (Str.of_Z (Z.of_nat n)) (Z.of_nat n).
Proof.
  intros Hn.
  do 256 (destruct n as [|n]; [octet_case|]).
  exfalso. lia.
Qed.

Lemma octet_parses (a : Z) :
  0 <= a <= 255 -> octet_reads_back (Str.of_Z a) a.
Proof.
  intros Ha. rewrite <- (Z2Nat.id a) by lia.
  apply octet_parses_nat. lia.
Qed.

Lemma aton_dot (fuel parts : nat) (a : Z) (rest : string) :
  0 <= a <= 255 -> (parts <= 2)%nat ->
  Inet.aton (S fuel) parts (Str.of_Z a ++ String "." rest)
  = Inet.aton fuel (S parts) rest.
Proof.
  intros Ha Hp.
  destruct (octet_parses a Ha) as [[ch [o' [Ho Hd]]] [_ Hs]].
  specialize (Hs (String "." rest) (or_intror (ex_intro _ rest eq_refl))).
  rewrite Ho in *. simpl append in *.
  cbn [Inet.aton]. rewrite Hd, Hs. cbn [negb].
  replace (4294967295 <? a) with false by (symmetry; apply Z.ltb_ge; lia).
  replace (255 <? a) with false by (symmetry; apply Z.ltb_ge; lia).
  replace (2 <? parts)%nat with false by (symmetry; apply Nat.ltb_ge; lia).
  reflexivity.
Qed.

Lemma aton_last (fuel : nat) (a : Z) :
  0 <= a <= 255 -> Inet.aton (S fuel) 3 (Str.of_Z a) = true.
Proof.
  intros Ha.
  destruct (octet_parses a Ha) as [[ch [o' [Ho Hd]]] [_ Hs]].
  specialize (Hs "" (or_introl eq_refl)). rewrite append_empty in Hs.
  rewrite Ho in *.
  cbn [Inet.aton]. rewrite Hd, Hs. cbn [negb].
  replace (4294967295 <? a) with false by (symmetry; apply Z.ltb_ge; lia).
  simpl. apply Z.leb_le. lia.
Qed.

Lemma digits_uint_acc (d : Decimal.uint) :
  forall (acc : positive) (rest : string),
    ends_decimal rest ->
    Inet.digits 10 (Zpos acc) (NilEmpty.string_of_uint d ++ rest)
    = (Zpos (Pos.of_uint_acc d acc), rest).
Proof.
  induction d; intros acc rest Hrest;
    try (cbn [NilEmpty.string_of_uint append Inet.digits Pos.of_uint_acc];
         match goal with
         | |- context [Inet.digit_value 10 ?ch] =>
             let v := eval vm_compute in (Inet.digit_value 10 ch) in
             change (Inet.digit_value 10 ch) with v
         end;
         cbv iota beta;
         match goal with
         | |- Inet.digits 10 ?a _ = (Zpos (Pos.of_uint_acc _ ?b), _) =>
             replace a with (Zpos b) by lia
         end;
         apply IHd; exact Hrest).
  cbn [NilEmpty.string_of_uint append Pos.of_uint_acc].
  destruct rest as [|a rest]; cbn [Inet.digits]; [reflexivity|].
  cbn [ends_decimal] in Hrest. rewrite Hrest. reflexivity.
Qed.

Lemma digits_uint (d : Decimal.uint) (rest : string) :
  ends_decimal rest ->
  Inet.digits 10 0 (NilEmpty.string_of_uint d ++ rest)
  = (Z.of_N (Pos.of_uint d), rest).
Proof.
  intros Hrest.
  induction d;
    try (cbn [NilEmpty.string_of_uint append Inet.digits Pos.of_uint];
         match goal with
         | |- context [Inet.digit_value 10 ?ch] =>
             let v := eval vm_compute in (Inet.digit_value 10 ch) in
             change (Inet.digit_value 10 ch) with v
         end;
         cbv iota beta;
         first [ exact IHd
               | match goal with
                 | |- Inet.digits 10 ?a _ = (Z.of_N (Npos (Pos.of_uint_acc _ ?b)), _) =>
                     change a with (Zpos b)
                 end;
                 apply digits_uint_acc; exact Hrest ]).
  cbn [NilEmpty.string_of_uint append Pos.of_uint].
  destruct rest as [|a rest]; cbn [Inet.digits]; [reflexivity|].
  cbn [ends_decimal] in Hrest. rewrite Hrest. reflexivity.
Qed.

Lemma of_Z_positive (p : positive) :
  Str.of_Z (Zpos p) = NilEmpty.string_of_uint (Pos.to_uint p).
Proof.
  unfold Str.of_Z. cbn [Z.to_int NilZero.string_of_int].
  apply string_of_uint_nonnil. apply DecimalPos.Unsigned.to_uint_nonnil.
Qed.

(** A positive number is read in base ten, whatever follows it. *)
Lemma strtoul_positive (p : positive) (rest : string) :
  Inet.strtoul (Str.of_Z (Zpos p) ++ rest)
  = Inet.digits 10 0 (Str.of_Z (Zpos p) ++ rest).
Proof.
  rewrite of_Z_positive.
  pose proof (to_uint_canonical p) as Hcanon.
  pose proof (DecimalPos.Unsigned.to_uint_nonzero p) as Hnz.
  destruct (Pos.to_uint p) as [|u|u|u|u|u|u|u|u|u|u];
    [discriminate Hcanon | | reflexivity ..].
  destruct u; try discriminate Hcanon.
  exfalso. apply Hnz. reflexivity.
Qed.

Lemma strtoul_decimal (n : Z) (rest : string) :
  0 <= n -> octet_follower rest ->
  Inet.strtoul (Str.of_Z n ++ rest) = (n, rest).
Proof.
  intros Hn Hrest.
  destruct n as [|p|p]; [| |lia].
  - destruct (octet_parses 0) as [_ [_ H]]; [lia|]. apply H. exact Hrest.
  - rewrite strtoul_positive, of_Z_positive, digits_uint.
    + rewrite DecimalPos.Unsigned.of_to. reflexivity.
    + destruct Hrest as [->|[r ->]]; [exact I | reflexivity].
Qed.

Lemma of_Z_starts_with_digit (n : Z) :
  0 <= n ->
  exists ch o, Str.of_Z n = String ch o /\ Inet.is_digit ch = true.
Proof.
  intros Hn. destruct (of_Z_shape n) as [ds [Hds [Hne E]]].
  replace (n <? 0) with false in E by (symmetry; apply Z.ltb_ge; exact Hn).
  rewrite E. destruct ds as [|ch o]; [contradiction|].
  exists ch, o. split; [reflexivity|].
  unfold digit_string in Hds. cbn in Hds.
  apply andb_prop in Hds. exact (proj1 Hds).
Qed.

Lemma digit_string_no_nul (s : string) :
  digit_string s = true -> Inet.has_nul s = false.
Proof.
  unfold digit_string. induction s as [|a s IH]; intros H; [reflexivity|].
  cbn in H. apply andb_prop in H. destruct H as [Ha Hs].
  cbn [Inet.has_nul]. rewrite (IH Hs), orb_false_r.
  unfold Inet.is_digit in Ha. apply andb_prop in Ha. destruct Ha as [Ha _].
  apply Z.leb_le in Ha. apply Z.eqb_neq. lia.
Qed.

Lemma of_Z_no_nul (n : Z) : 0 <= n -> Inet.has_nul (Str.of_Z n) = false.
Proof.
  intros Hn. destruct (of_Z_shape n) as [ds [Hds [_ E]]].
  replace (n <? 0) with false in E by (symmetry; apply Z.ltb_ge; exact Hn).
  rewrite E. apply digit_string_no_nul. exact Hds.
Qed.

(** One turn of the loop on a decimal number followed by a dot. *)
Lemma aton_number_dot (fuel parts : nat) (n : Z) (rest : string) :
  0 <= n ->
  Inet.aton (S fuel) parts (Str.of_Z n ++ String "." rest)
  = (n <=? 255) && (parts <=? 2)%nat && Inet.aton fuel (S parts) rest.
Proof.
  intros Hn.
  pose proof (strtoul_decimal n (String "." rest) Hn
                (or_intror (ex_intro _ rest eq_refl))) as Hs.
  destruct (of_Z_starts_with_digit n Hn) as [ch [o [Ho Hd]]].
  rewrite Ho in *. cbn [append] in *.
  cbn [Inet.aton]. rewrite Hd, Hs. cbn [negb].
  destruct (Z.leb_spec n 255) as [Hle|Hgt].
  - replace (4294967295 <? n) with false by (symmetry; apply Z.ltb_ge; lia).
    replace (255 <? n) with false by (symmetry; apply Z.ltb_ge; lia).
    rewrite orb_false_r. cbn [andb].
    destruct (Nat.leb_spec parts 2) as [Hp|Hp].
    + replace (2 <? parts)%nat with false by (symmetry; apply Nat.ltb_ge; lia).
      reflexivity.
    + replace (2 <? parts)%nat with true by (symmetry; apply Nat.ltb_lt; lia).
      reflexivity.
  - cbn [andb].
    replace (255 <? n) with true by (symmetry; apply Z.ltb_lt; lia).
    rewrite orb_true_r. destruct (4294967295 <? n); reflexivity.
Qed.

(** The last turn of the loop on a decimal number at the end of the
    text. *)
Lemma aton_number_last (fuel parts : nat) (n : Z) :
  0 <= n ->
  Inet.aton (S fuel) parts (Str.of_Z n) = (n <=? Inet.last_max parts).
Proof.
  intros Hn.
  pose proof (strtoul_decimal n "" Hn (or_introl eq_refl)) as Hs.
  rewrite append_empty in Hs.
  destruct (of_Z_starts_with_digit n Hn) as [ch [o [Ho Hd]]].
  rewrite Ho in *.
  cbn [Inet.aton]. rewrite Hd, Hs. cbn [negb Inet.trailing_ok andb].
  destruct (Z.ltb_spec 4294967295 n) as [Hbig|Hok]; [|reflexivity].
  symmetry. apply Z.leb_gt.
  destruct parts as [|[|[|parts]]]; cbn [Inet.last_max]; lia.
Qed.

Lemma of_Z_length (n : Z) : (1 <= String.length (Str.of_Z n))%nat.
Proof.
  destruct (of_Z_shape n) as [ds [_ [Hne ->]]].
  destruct (n <? 0); [cbn; lia|].
  destruct ds; [contradiction | cbn; lia].
Qed.

Lemma aton_dotted_decimal (numbers : list Z) :
  Forall (fun n => 0 <= n) numbers ->
  forall fuel, (List.length numbers <= fuel)%nat ->
    Inet.aton fuel 0 (dotted_decimal numbers) = accepts_numbers numbers.
Proof.
  intros Hpos fuel Hfuel. unfold dotted_decimal.
  destruct numbers as [|a [|b [|c [|d [|e rest]]]]];
    cbn [List.length] in Hfuel;
    repeat match goal with
           | H : Forall _ (_ :: _) |- _ =>
               let Hh := fresh "Hn" in
               let Ht := fresh "Hrest" in
               inversion H as [|? ? Hh Ht]; subst; clear H
           end;
    cbn [accepts_numbers];
    [cbn [map Str.join] .. |].
  - destruct fuel; reflexivity.
  - destruct fuel as [|fuel]; [lia|].
    rewrite aton_number_last by assumption. reflexivity.
  - destruct fuel as [|[|fuel]]; try lia.
    change (Str.of_Z a ++ "." ++ Str.of_Z b)
      with (Str.of_Z a ++ String "." (Str.of_Z b)).
    rewrite aton_number_dot, aton_number_last by assumption.
    cbn [Nat.leb andb Inet.last_max]. rewrite !andb_true_r. reflexivity.
  - destruct fuel as [|[|[|fuel]]]; try lia.
    change (Str.of_Z a ++ "." ++ Str.of_Z b ++ "." ++ Str.of_Z c)
      with (Str.of_Z a ++ String "." (Str.of_Z b ++ String "." (Str.of_Z c))).
    rewrite !aton_number_dot, aton_number_last by assumption.
    cbn [Nat.leb andb Inet.last_max]. rewrite !andb_true_r, andb_assoc. reflexivity.
  - destruct fuel as [|[|[|[|fuel]]]]; try lia.
    change (Str.of_Z a ++ "." ++ Str.of_Z b ++ "." ++ Str.of_Z c ++ "."
              ++ Str.of_Z d)
      with (Str.of_Z a ++ String "." (Str.of_Z b ++ String "."
              (Str.of_Z c ++ String "." (Str.of_Z d)))).
    rewrite !aton_number_dot, aton_number_last by assumption.
    cbn [Nat.leb andb Inet.last_max]. rewrite !andb_true_r, !andb_assoc.
    reflexivity.
  - destruct fuel as [|[|[|[|fuel]]]]; try lia.
    change (Str.join "." (map Str.of_Z (a :: b :: c :: d :: e :: rest)))
      with (Str.of_Z a ++ String "." (Str.of_Z b ++ String "."
              (Str.of_Z c ++ String "." (Str.of_Z d ++ String "."
                 (Str.join "." (map Str.of_Z (e :: rest))))))).
    rewrite !aton_number_dot by assumption.
    cbn [Nat.leb andb]. rewrite !andb_false_r. reflexivity.
Qed.

Lemma dotted_decimal_no_nul (numbers : list Z) :
  Forall (fun n => 0 <= n) numbers ->
  Inet.has_nul (dotted_decimal numbers) = false.
Proof.
  unfold dotted_decimal. intros Hpos.
  induction Hpos as [|n ns Hn Hns IH]; [reflexivity|].
  cbn [map]. destruct ns as [|m ns].
  - cbn [map Str.join]. apply of_Z_no_nul. exact Hn.
  - change (Str.join "." (Str.of_Z n :: map Str.of_Z (m :: ns)))
      with (Str.of_Z n ++ "." ++ Str.join "." (map Str.of_Z (m :: ns))).
    rewrite !has_nul_append, (of_Z_no_nul n Hn), IH. reflexivity.
Qed.

Lemma dotted_decimal_length (numbers : list Z) :
  (List.length numbers <= String.length (dotted_decimal numbers))%nat.
Proof.
  unfold dotted_decimal.
  induction numbers as [|n ns IH]; [cbn; lia|].
  cbn [map]. destruct ns as [|m ns].
  - cbn [map Str.join List.length]. apply of_Z_length.
  - change (Str.join "." (Str.of_Z n :: map Str.of_Z (m :: ns)))
      with (Str.of_Z n ++ "." ++ Str.join "." (map Str.of_Z (m :: ns))).
    rewrite !length_append. pose proof (of_Z_length n).
    cbn [List.length] in *. cbn [String.length]. lia.
Qed.

(** C2, amended.  The validator accepts every address of four decimal
    octets in 0-255 printed without leading zeros and separated by three
    dots, [8.8.8.8] among them.  More generally, on a text made of
    decimal numbers without sign and without leading zeros, separated by
    dots, it answers true exactly when there are one to four numbers,
    every number before the last is at most 255 and the last is at most
    255, 65535, 16777215 or 4294967295 when it is the fourth, the third,
    the second or the only one: so it rejects [8.8.8.8.8] and
    [999.1.1.1], and it accepts the short forms [127.1] and [1].  It
    rejects the empty string and [abc].  Numbers may also be written as
    the C library reads them: for instance [0x7f.0.0.1] and [010.0.0.1]
    are accepted and [08.8.8.8] is rejected. *)
Theorem validate_ip_accepts :
  (forall a b c d : Z,
      0 <= a <= 255 -> 0 <= b <= 255 -> 0 <= c <= 255 -> 0 <= d <= 255 ->
      validate_ip (Str.of_Z a ++ "." ++ Str.of_Z b ++ "." ++ Str.of_Z c
                     ++ "." ++ Str.of_Z d)
      = Ret true)
  /\ (forall numbers : list Z,
         Forall (fun n => 0 <= n) numbers ->
         validate_ip (dotted_decimal numbers) = Ret (accepts_numbers numbers))
  /\ validate_ip "8.8.8.8" = Ret true
  /\ validate_ip "" = Ret false
  /\ validate_ip "8.8.8.8.8" = Ret false
  /\ validate_ip "999.1.1.1" = Ret false
  /\ validate_ip "abc" = Ret false
  /\ validate_ip "127.1" = Ret true
  /\ validate_ip "1" = Ret true
  /\ validate_ip "0x7f.0.0.1" = Ret true
  /\ validate_ip "010.0.0.1" = Ret true
  /\ validate_ip "08.8.8.8" = Ret false.
Proof.
  split; [|split; [|repeat split; reflexivity]].
  2:{ intros numbers Hpos. unfold validate_ip.
      rewrite (dotted_decimal_no_nul numbers Hpos). f_equal.
      unfold Inet.inet_aton. apply aton_dotted_decimal; [exact Hpos|].
      pose proof (dotted_decimal_length numbers). lia. }
  intros a b c d Ha Hb Hc Hd.
  unfold validate_ip.
  destruct (octet_parses a Ha) as [[cha [oa [Hoa _]]] [Hna _]].
  destruct (octet_parses b Hb) as [[chb [ob [Hob _]]] [Hnb _]].
  destruct (octet_parses c Hc) as [[chc [oc [Hoc _]]] [Hnc _]].
  destruct (octet_parses d Hd) as [_ [Hnd _]].
  rewrite !has_nul_append, Hna, Hnb, Hnc, Hnd. simpl.
  f_equal. unfold Inet.inet_aton.
  set (s := Str.of_Z a ++ "." ++ Str.of_Z b ++ "." ++ Str.of_Z c ++ "." ++ Str.of_Z d).
  assert (Hlen : (3 <= String.length s)%nat).
  { unfold s. rewrite !length_append. simpl. lia. }
  assert (Hrun : forall n, (3 <= n)%nat -> Inet.aton (S n) 0 s = true).
  { intros n Hn. destruct n as [|[|[|fuel]]]; try lia.
    unfold s. cbn [append].
    rewrite !aton_dot by (auto; lia).
    apply aton_last. exact Hd. }
  apply Hrun. exact Hlen.
Qed.

Lemma validate_ip_accepts_witness :
  validate_ip (Str.of_Z 192 ++ "." ++ Str.of_Z 168 ++ "." ++ Str.of_Z 0
                 ++ "." ++ Str.of_Z 1)
  = Ret true
  /\ validate_ip (dotted_decimal [10; 16777215]) = Ret true
  /\ validate_ip (dotted_decimal [10; 16777216]) = Ret false.
Proof.
  destruct validate_ip_accepts as [Hquad [Hdecimal _]].
  split; [apply Hquad; lia|].
  split.
  - apply (Hdecimal [10; 16777215]). repeat constructor; lia.
  - apply (Hdecimal [10; 16777216]). repeat constructor; lia.
Defined.

(** ** Which address [main] validates *)

Lemma validation_free_nil : validation_free [].
Proof. intros s b []. Qed.

Lemma validation_free_app (t u : list event) :
  validation_free t -> validation_free u -> validation_free (t ++ u).
Proof.
  intros Ht Hu s b Hin. apply in_app_or in Hin.
  destruct Hin as [H|H]; [exact (Ht s b H) | exact (Hu s b H)].
Qed.

Lemma validation_free_map_printed (l : list string) :
  validation_free (map Printed l).
Proof.
  intros s b Hin. apply in_map_iff in Hin.
  destruct Hin as [x [E _]]. discriminate E.
Qed.

Lemma validation_free_map_requested (l : list string) :
  validation_free (map Requested l).
Proof.
  intros s b Hin. apply in_map_iff in Hin.
  destruct Hin as [x [E _]]. discriminate E.
Qed.

Lemma validation_free_bind {A B} (m : prog A) (k : A -> prog B) :
  validation_free (trace m) ->
  (forall a, validation_free (trace (k a))) ->
  validation_free (trace (P.bind m k)).
Proof.
  intros Hm Hk. unfold P.bind. simpl.
  apply validation_free_app; [exact Hm|].
  destruct (final m); [apply Hk | apply validation_free_nil].
Qed.

Lemma validation_free_try {A} (body : prog A) (handler : exn -> prog A) :
  validation_free (trace body) ->
  (forall e, validation_free (trace (handler e))) ->
  validation_free (trace (P.try_except body handler)).
Proof.
  intros Hb Hh. unfold P.try_except.
  destruct (final body) as [a|[code|e]]; try exact Hb.
  simpl. apply validation_free_app; [exact Hb | apply Hh].
Qed.

Lemma validation_free_emit (e : event) :
  (forall s b, e <> Validated s b) -> validation_free (trace (P.emit e)).
Proof.
  intros He s b [E|[]]. exact (He s b E).
Qed.

Lemma validation_free_of_res {A} (r : res A) :
  validation_free (trace (P.of_res r)).
Proof. destruct r; apply validation_free_nil. Qed.

Ltac free_step :=
  first
    [ apply validation_free_nil
    | apply validation_free_of_res
    | apply validation_free_map_printed
    | apply validation_free_map_requested
    | apply validation_free_emit; intros; discriminate
    | apply validation_free_try; [|intros]
    | apply validation_free_bind; [|intros] ].

Lemma get_public_ip_free (w : World) (c : Colors) :
  validation_free (trace (get_public_ip w c)).
Proof.
  unfold get_public_ip. free_step; [free_step|].
  destruct (public_ip_service w) as [body|[]];
    unfold P.say, P.ret, P.exit, P.throw; repeat free_step.
Qed.

Lemma get_ip_info_free (w : World) (c : Colors) (address : string) (d : bool) :
  validation_free (trace (get_ip_info w c address d)).
Proof.
  unfold get_ip_info. free_step; [free_step|].
  destruct (geolocation_service w _) as [ip_info|[]];
    unfold P.say, P.ret, P.exit, P.throw; repeat free_step.
Qed.

Lemma enrich_free (rt : Runtime) (w : World) (c : Colors) (args : Args)
      (ip_info : dict) :
  validation_free (trace (enrich rt w c args ip_info)).
Proof.
  unfold enrich. destruct (detailed args); [|apply validation_free_nil].
  destruct (get_additional_info rt (country_data_service w) ip_info)
    as [requests result].
  unfold P.say, P.ret. repeat free_step.
Qed.

Lemma exporters_free (rt : Runtime) (w : World) (c : Colors) (args : Args)
      (ip_info : dict) (additional_info : option dict) :
  validation_free
    (trace
       match format args with
       | terminal =>
           P.of_run (display_ip_info rt c (surroundings w) ip_info additional_info)
       | json => export_to_json c w ip_info additional_info (text_of (output args))
       | csv => export_to_csv rt c w ip_info additional_info (text_of (output args))
       | html => export_to_html rt c w ip_info additional_info (text_of (output args))
       end).
Proof.
  destruct (format args).
  - simpl. apply validation_free_map_printed.
  - unfold export_to_json, P.say. repeat free_step.
  - unfold export_to_csv, P.say. repeat free_step.
  - unfold export_to_html, P.say, P.when. repeat free_step.
    destruct (answered_yes _); repeat free_step.
    match goal with
    | |- context [if ?shown then _ else _] => destruct shown
    end; repeat free_step.
Qed.

Ltac free_main :=
  repeat first
    [ apply get_public_ip_free
    | apply get_ip_info_free
    | apply enrich_free
    | apply exporters_free
    | free_step ].

Lemma in_trace_bind {A B} (m : prog A) (k : A -> prog B) (e : event) :
  In e (trace (P.bind m k)) ->
  In e (trace m) \/ exists a, final m = Done a /\ In e (trace (k a)).
Proof.
  unfold P.bind. simpl. intros Hin. apply in_app_or in Hin.
  destruct Hin as [H|H]; [left; exact H|].
  destruct (final m) as [a|s]; [|contradiction].
  right. exists a. split; [reflexivity | exact H].
Qed.

(** C10.  Only an address given on the command line is validated: every
    validation in a run of [main] is that of the [ip] argument.  When the
    argument is omitted, the text returned by the public-IP service goes
    into the URL of the geolocation request as it is, and no validation
    takes place, whatever that text is. *)
Theorem public_ip_not_validated :
  forall (rt : Runtime) (w : World) (args : Args),
    (forall s b,
        In (Validated s b) (trace (main rt w args)) ->
        ip args = Some s /\ s <> "" /\ validate_ip s = Ret b)
    /\ (forall body,
           missing (ip args) = true ->
           output_given args = true ->
           public_ip_service w = Ret body ->
           let c := if simple args then colors_simple else colors_ansi in
           validation_free (trace (main rt w args))
           /\ exists rest,
               trace (main rt w args)
               = ScreenCleared
                 :: Printed (banner c)
                 :: Printed (YELLOW c ++ "No IP provided. Looking up your public IP..."
                               ++ ENDC c)
                 :: Requested "https://api.ipify.org"
                 :: Printed (GREEN c ++ "Your public IP: " ++ body ++ ENDC c)
                 :: Printed (YELLOW c ++ "Fetching geolocation data..." ++ ENDC c)
                 :: Requested (geolocation_url body (detailed args))
                 :: rest).
Proof.
  intros rt w args.
  assert (Hrest : forall c address,
             validation_free
               (trace
                  (P.bind (P.say (YELLOW c ++ "Fetching geolocation data..." ++ ENDC c))
                     (fun _ =>
                      P.bind (get_ip_info w c address (detailed args))
                        (fun ip_info =>
                         P.bind (enrich rt w c args ip_info)
                           (fun additional_info =>
                            match format args with
                            | terminal =>
                                P.of_run (display_ip_info rt c (surroundings w)
                                            ip_info additional_info)
                            | json => export_to_json c w ip_info additional_info
                                        (text_of (output args))
                            | csv => export_to_csv rt c w ip_info additional_info
                                       (text_of (output args))
                            | html => export_to_html rt c w ip_info additional_info
                                        (text_of (output args))
                            end)))))).
  { intros c address. unfold P.say. free_main. }
  split.
  - intros s b Hin. unfold main in Hin.
    set (c := if simple args then colors_simple else colors_ansi) in *.
    destruct (negb _ && missing (output args)).
    { simpl in Hin. destruct Hin as [E|[]]; discriminate E. }
    apply in_trace_bind in Hin. destruct Hin as [Hin|[[] [_ Hin]]];
      [destruct Hin as [E|[]]; discriminate E|].
    apply in_trace_bind in Hin. destruct Hin as [Hin|[[] [_ Hin]]];
      [destruct Hin as [E|[]]; discriminate E|].
    apply in_trace_bind in Hin. destruct Hin as [Hin|[address [_ Hin]]].
    2:{ exfalso. exact (Hrest c address s b Hin). }
    unfold resolve_ip in Hin.
    destruct (missing (ip args)) eqn:Hmiss.
    { exfalso. revert Hin. unfold P.say, P.ret.
      assert (Hfree : validation_free
                (trace
                   (P.bind (P.emit (Printed (YELLOW c ++ "No IP provided. Looking up your public IP..." ++ ENDC c)))
                      (fun _ => P.bind (get_public_ip w c)
                         (fun address =>
                            P.bind (P.emit (Printed (GREEN c ++ "Your public IP: " ++ address ++ ENDC c)))
                              (fun _ => Prog [] (Done address))))))).
      { free_main. }
      apply Hfree. }
    destruct (ip args) as [given|] eqn:Hip; [|discriminate Hmiss].
    simpl in Hmiss. simpl text_of in Hin.
    destruct (validate_ip given) as [valid|e] eqn:Hvalid.
    2:{ simpl in Hin. contradiction. }
    apply in_trace_bind in Hin. destruct Hin as [[]|[v [Hv Hin]]].
    simpl in Hv. injection Hv as <-.
    apply in_trace_bind in Hin. destruct Hin as [Hin|[[] [_ Hin]]].
    + destruct Hin as [E|[]]. injection E as <- <-. repeat split.
      * intros ->. discriminate Hmiss.
      * exact Hvalid.
    + destruct valid; simpl in Hin.
      * contradiction.
      * destruct Hin as [E|[]]. discriminate E.
  - intros body Hmiss Hout Hservice c.
    split.
    + unfold main. fold c.
      unfold output_given in Hout. apply negb_true_iff in Hout. rewrite Hout.
      unfold P.say.
      apply validation_free_bind; [free_main | intros _].
      apply validation_free_bind; [free_main | intros _].
      apply validation_free_bind; [|intros address; apply (Hrest c)].
      unfold resolve_ip. rewrite Hmiss. unfold P.say, P.ret. free_main.
    + unfold main. fold c.
      unfold output_given in Hout. apply negb_true_iff in Hout. rewrite Hout.
      unfold resolve_ip. rewrite Hmiss.
      unfold get_public_ip. rewrite Hservice.
      unfold get_ip_info.
      eexists. unfold P.bind, P.say, P.emit, P.ret. cbn [trace final app].
      reflexivity.
Qed.

Lemma public_ip_not_validated_witness :
  validate_ip "not an address" = Ret false
  /\ validation_free (trace (main sample_runtime world_odd_public_ip args_no_ip))
  /\ In (Requested (geolocation_url "not an address" false))
        (trace (main sample_runtime world_odd_public_ip args_no_ip)).
Proof.
  destruct (public_ip_not_validated sample_runtime world_odd_public_ip args_no_ip)
    as [_ H].
  destruct (H "not an address" eq_refl eq_refl eq_refl) as [Hfree [rest Htrace]].
  split; [reflexivity|]. split; [exact Hfree|].
  rewrite Htrace. do 6 right. left. reflexivity.
Defined.

(** ** Runs of [main]: what is done, and in which order *)

Lemma Forall_trace_bind {A B} (Q : event -> Prop) (m : prog A) (k : A -> prog B) :
  Forall Q (trace m) ->
  (forall a, final m = Done a -> Forall Q (trace (k a))) ->
  Forall Q (trace (P.bind m k)).
Proof.
  intros Hm Hk. unfold P.bind. cbn [trace]. apply Forall_app. split; [exact Hm|].
  destruct (final m) as [a|s]; [apply Hk; reflexivity | constructor].
Qed.

Lemma Forall_trace_try {A} (Q : event -> Prop) (body : prog A) (handler : exn -> prog A) :
  Forall Q (trace body) ->
  (forall e, Forall Q (trace (handler e))) ->
  Forall Q (trace (P.try_except body handler)).
Proof.
  intros Hb Hh. unfold P.try_except.
  destruct (final body) as [a|[code|e]]; try exact Hb.
  cbn [trace]. apply Forall_app. split; [exact Hb | apply Hh].
Qed.

Lemma Forall_trace_of_res {A} (Q : event -> Prop) (r : res A) :
  Forall Q (trace (P.of_res r)).
Proof. destruct r; constructor. Qed.

Lemma Forall_trace_of_run {A} (Q : event -> Prop) (r : run A) :
  (forall text, Q (Printed text)) -> Forall Q (trace (P.of_run r)).
Proof.
  intros HQ. unfold P.of_run. cbn [trace].
  induction (printed r) as [|l ls IH]; constructor; [apply HQ | exact IH].
Qed.

Lemma Forall_trace_emit (Q : event -> Prop) (e : event) :
  Q e -> Forall Q (trace (P.emit e)).
Proof. intros H. constructor; [exact H | constructor]. Qed.

Lemma Forall_trace_write_file (Q : event -> Prop) (w : World) filename text :
  Q (FileWritten filename text) -> Forall Q (trace (write_file w filename text)).
Proof.
  intros H. unfold write_file. apply Forall_trace_bind.
  - apply Forall_trace_of_res.
  - intros _ _. apply Forall_trace_emit. exact H.
Qed.

Lemma missing_false (o : option string) :
  missing o = false -> o = Some (text_of o).
Proof. destruct o; [reflexivity | discriminate]. Qed.

Lemma enrichment_requests_shape (rt : Runtime) (service : string -> res value) ip_info :
  fst (get_additional_info rt service ip_info)
  = if Dict.contains ip_info "countryCode"
    then [country_url rt (Dict.get ip_info "countryCode")]
    else [].
Proof.
  unfold get_additional_info, lookup_country, subscript, Dict.contains, Dict.get.
  destruct (Dict.lookup ip_info "countryCode") as [code|]; [|reflexivity].
  cbv beta iota.
  destruct (service (country_url rt code)) as [data|e]; [|reflexivity].
  destruct (extract_country data []). reflexivity.
Qed.

Lemma enrichment_returns (rt : Runtime) (service : string -> res value) ip_info :
  exists d, snd (get_additional_info rt service ip_info) = Ret d.
Proof.
  unfold get_additional_info.
  destruct (Dict.contains ip_info "countryCode"); [|eexists; reflexivity].
  destruct (lookup_country rt service ip_info []) as [[d requests] r].
  exists d. destruct r as [[]|e]; reflexivity.
Qed.

(** X5.  What a run never does, whatever the services answer.  It
    validates nothing but the [ip] argument.  It requests the public-IP
    URL only when that argument is missing, geolocation URLs built with
    the [detailed] flag of the arguments, and country URLs only in
    detailed mode.  It writes no file with the terminal format, and with
    another format only the file named by [--output].  It prompts and
    opens a browser only with the HTML format. *)
Theorem main_does_only_permitted (rt : Runtime) (w : World) (args : Args) :
  Forall (permitted rt args) (trace (main rt w args)).
Proof.
  unfold main.
  set (c := if simple args then colors_simple else colors_ansi).
  destruct (negb match format args with terminal => true | _ => false end
            && missing (output args)) eqn:Hout.
  { repeat constructor. }
  assert (Hfile : forall text, format args <> terminal ->
                    permitted rt args (FileWritten (text_of (output args)) text)).
  { intros text Hf. split; [exact Hf|]. apply missing_false.
    destruct (format args); [contradiction| | |]; exact Hout. }
  apply Forall_trace_bind; [repeat constructor | intros _ _].
  apply Forall_trace_bind; [repeat constructor | intros _ _].
  apply Forall_trace_bind.
  { unfold resolve_ip. destruct (missing (ip args)) eqn:Hip.
    - apply Forall_trace_bind; [repeat constructor | intros _ _].
      apply Forall_trace_bind.
      + unfold get_public_ip. apply Forall_trace_bind.
        * apply Forall_trace_emit. left. split; [exact Hip | reflexivity].
        * intros _ _. destruct (public_ip_service w) as [body|[]]; repeat constructor.
      + intros address _. repeat constructor.
    - apply Forall_trace_bind; [apply Forall_trace_of_res | intros valid _].
      apply Forall_trace_bind.
      + apply Forall_trace_emit. apply missing_false. exact Hip.
      + intros _ _. destruct valid; repeat constructor. }
  intros address _.
  apply Forall_trace_bind; [repeat constructor | intros _ _].
  apply Forall_trace_bind.
  { unfold get_ip_info. apply Forall_trace_bind.
    - apply Forall_trace_emit. right. left. exists address. reflexivity.
    - intros _ _.
      destruct (geolocation_service w _) as [ip_info|[]]; repeat constructor. }
  intros ip_info _.
  apply Forall_trace_bind.
  { unfold enrich. destruct (detailed args) eqn:Hd; [|constructor].
    apply Forall_trace_bind; [repeat constructor | intros _ _].
    pose proof (enrichment_requests_shape rt (country_data_service w) ip_info) as Hreq.
    destruct (get_additional_info rt (country_data_service w) ip_info)
      as [requests result].
    cbn [fst] in Hreq. subst requests.
    apply Forall_trace_bind.
    - cbn [trace].
      destruct (Dict.contains ip_info "countryCode"); [|constructor].
      constructor; [|constructor].
      right. right. split; [exact Hd|]. eexists. reflexivity.
    - intros _ _. apply Forall_trace_bind; [apply Forall_trace_of_res|].
      intros d _. constructor. }
  intros additional_info _.
  destruct (format args) eqn:Hformat.
  - apply Forall_trace_of_run. intros text. exact I.
  - unfold export_to_json. apply Forall_trace_bind.
    + apply Forall_trace_write_file. apply Hfile. discriminate.
    + intros _ _. repeat constructor.
  - unfold export_to_csv. apply Forall_trace_bind.
    + apply Forall_trace_write_file. apply Hfile. discriminate.
    + intros _ _. repeat constructor.
  - unfold export_to_html.
    apply Forall_trace_bind; [apply Forall_trace_of_res | intros page _].
    apply Forall_trace_bind.
    { apply Forall_trace_write_file. apply Hfile. discriminate. }
    intros _ _.
    apply Forall_trace_bind; [repeat constructor | intros _ _].
    apply Forall_trace_bind; [apply Forall_trace_emit; exact Hformat | intros _ _].
    apply Forall_trace_bind; [apply Forall_trace_of_res | intros answer _].
    unfold P.when. destruct (answered_yes answer); [|constructor].
    apply Forall_trace_try.
    + apply Forall_trace_bind; [apply Forall_trace_of_res | intros shown _].
      destruct shown; [|constructor].
      apply Forall_trace_emit. exact Hformat.
    + intros e. repeat constructor.
Qed.

Lemma output_given_false (args : Args) :
  format args <> terminal -> missing (output args) = true ->
  negb (match format args with terminal => true | _ => false end)
  && missing (output args) = true.
Proof.
  intros Hf Hm. rewrite Hm. destruct (format args); [contradiction| | |]; reflexivity.
Qed.

Lemma output_given_true (args : Args) :
  output_given args = true ->
  negb (match format args with terminal => true | _ => false end)
  && missing (output args) = false.
Proof. unfold output_given. intros H. apply negb_true_iff in H. exact H. Qed.

Lemma given_not_missing (args : Args) (address : string) :
  ip args = Some address -> address <> "" ->
  missing (ip args) = false /\ text_of (ip args) = address.
Proof.
  intros -> Hne. split; [|reflexivity]. cbn [missing]. apply String.eqb_neq. exact Hne.
Qed.

(** X1.  With a format other than [terminal] and no output file, [main]
    prints the error about [--output] and exits with status 1.  It does
    so before anything else: the screen is not cleared, no banner is
    printed, no address is validated and no request is sent. *)
Theorem main_requires_output (rt : Runtime) (w : World) (args : Args) :
  format args <> terminal ->
  missing (output args) = true ->
  main rt w args
  = let c := if simple args then colors_simple else colors_ansi in
    Prog [Printed (RED c ++ "Error: Output file must be specified with --output when using --format="
                     ++ format_name (format args) ++ ENDC c)]
         (Stopped (Exit 1)).
Proof.
  intros Hf Hm. unfold main. rewrite (output_given_false args Hf Hm). reflexivity.
Qed.

Lemma main_requires_output_witness :
  main sample_runtime sample_world args_json_no_output
  = Prog [Printed "Error: Output file must be specified with --output when using --format=json"]
         (Stopped (Exit 1)).
Proof.
  apply (main_requires_output sample_runtime sample_world args_json_no_output);
    [discriminate | reflexivity].
Defined.

(** X2.  When the address given on the command line is not accepted
    by [validate_ip], [main] clears the screen, prints the banner and the
    error naming the address, and exits with status 1.  No request is
    sent and nothing is written. *)
Theorem main_rejects_invalid_address (rt : Runtime) (w : World) (args : Args)
        (address : string) :
  output_given args = true ->
  ip args = Some address ->
  address <> "" ->
  validate_ip address = Ret false ->
  main rt w args
  = let c := if simple args then colors_simple else colors_ansi in
    Prog [ScreenCleared; Printed (banner c); Validated address false;
          Printed (RED c ++ "Error: '" ++ address ++ "' is not a valid IP address."
                     ++ ENDC c)]
         (Stopped (Exit 1)).
Proof.
  intros Hout Hip Hne Hv. unfold main, resolve_ip.
  rewrite (output_given_true args Hout).
  destruct (given_not_missing args address Hip Hne) as [-> ->].
  rewrite Hv. reflexivity.
Qed.

Lemma main_rejects_invalid_address_witness :
  main sample_runtime sample_world args_bad_address
  = Prog [ScreenCleared; Printed (banner colors_simple);
          Validated "256.1.1.1" false;
          Printed "Error: '256.1.1.1' is not a valid IP address."]
         (Stopped (Exit 1)).
Proof.
  apply (main_rejects_invalid_address sample_runtime sample_world
           args_bad_address "256.1.1.1");
    [reflexivity | reflexivity | discriminate | reflexivity].
Defined.

(** X3.  Without the [ip] argument, a failure of the public-IP request
    ends the run before any geolocation request.  A [URLError] is
    reported on one line and the run exits with status 1; any other
    exception is not caught and ends the run as it is. *)
Theorem main_public_ip_failure (rt : Runtime) (w : World) (args : Args) (e : exn) :
  output_given args = true ->
  missing (ip args) = true ->
  public_ip_service w = Raise e ->
  main rt w args
  = let c := if simple args then colors_simple else colors_ansi in
    Prog ([ScreenCleared; Printed (banner c);
           Printed (YELLOW c ++ "No IP provided. Looking up your public IP..." ++ ENDC c);
           Requested "https://api.ipify.org"]
          ++ match e with
             | URLError =>
                 [Printed (RED c ++ "Unable to determine your public IP address. Check your internet connection."
                             ++ ENDC c)]
             | _ => []
             end)
         (Stopped match e with URLError => Exit 1 | _ => Uncaught e end).
Proof.
  intros Hout Hip He. unfold main, resolve_ip, get_public_ip.
  rewrite (output_given_true args Hout), Hip, He.
  destruct e; reflexivity.
Qed.

Lemma main_public_ip_failure_witness :
  main sample_runtime world_offline args_no_ip
  = Prog [ScreenCleared; Printed (banner colors_simple);
          Printed "No IP provided. Looking up your public IP...";
          Requested "https://api.ipify.org";
          Printed "Unable to determine your public IP address. Check your internet connection."]
         (Stopped (Exit 1)).
Proof.
  apply (main_public_ip_failure sample_runtime world_offline args_no_ip URLError);
    reflexivity.
Defined.

(** X4.  When the geolocation request fails, nothing is rendered,
    written or looked up afterwards.  A [URLError] is reported on one
    line and the run exits with status 1; any other exception is not
    caught. *)
Theorem main_geolocation_failure (rt : Runtime) (w : World) (args : Args)
        (address : string) (e : exn) :
  output_given args = true ->
  ip args = Some address ->
  address <> "" ->
  validate_ip address = Ret true ->
  geolocation_service w (geolocation_url address (detailed args)) = Raise e ->
  main rt w args
  = let c := if simple args then colors_simple else colors_ansi in
    Prog ([ScreenCleared; Printed (banner c); Validated address true;
           Printed (YELLOW c ++ "Fetching geolocation data..." ++ ENDC c);
           Requested (geolocation_url address (detailed args))]
          ++ match e with
             | URLError =>
                 [Printed (RED c ++ "Error connecting to the geolocation API. Check your internet connection."
                             ++ ENDC c)]
             | _ => []
             end)
         (Stopped match e with URLError => Exit 1 | _ => Uncaught e end).
Proof.
  intros Hout Hip Hne Hv He. unfold main, resolve_ip, get_ip_info.
  rewrite (output_given_true args Hout).
  destruct (given_not_missing args address Hip Hne) as [-> ->].
  rewrite Hv.
  cbv beta iota zeta delta [P.bind P.of_res P.ret P.emit P.say trace final app negb].
  rewrite He.
  destruct e; reflexivity.
Qed.

Lemma main_geolocation_failure_witness :
  main sample_runtime world_offline args_google
  = Prog [ScreenCleared; Printed (banner colors_simple);
          Validated "8.8.8.8" true;
          Printed "Fetching geolocation data...";
          Requested (geolocation_url "8.8.8.8" false);
          Printed "Error connecting to the geolocation API. Check your internet connection."]
         (Stopped (Exit 1)).
Proof.
  apply (main_geolocation_failure sample_runtime world_offline args_google
           "8.8.8.8" URLError);
    [reflexivity | reflexivity | discriminate | reflexivity | reflexivity].
Defined.

Lemma requests_of_app (t1 t2 : list event) :
  requests_of (t1 ++ t2) = (requests_of t1 ++ requests_of t2)%list.
Proof. unfold requests_of. apply flat_map_app. Qed.

Lemma requests_of_printed (ls : list string) : requests_of (map Printed ls) = [].
Proof. induction ls as [|l ls IH]; [reflexivity | exact IH]. Qed.

Lemma requests_of_requested (urls : list string) :
  requests_of (map Requested urls) = urls.
Proof.
  induction urls as [|u us IH]; [reflexivity|].
  cbn [map requests_of flat_map app]. f_equal. exact IH.
Qed.

Lemma requests_of_bind {A B} (m : prog A) (k : A -> prog B) :
  requests_of (trace (P.bind m k))
  = (requests_of (trace m)
     ++ match final m with
        | Done a => requests_of (trace (k a))
        | Stopped _ => []
        end)%list.
Proof.
  unfold P.bind. cbn [trace]. rewrite requests_of_app.
  destruct (final m); reflexivity.
Qed.

Lemma requests_of_try {A} (body : prog A) (handler : exn -> prog A) :
  requests_of (trace body) = [] ->
  (forall e, requests_of (trace (handler e)) = []) ->
  requests_of (trace (P.try_except body handler)) = [].
Proof.
  intros Hb Hh. unfold P.try_except.
  destruct (final body) as [a|[code|e]]; try exact Hb.
  cbn [trace]. rewrite requests_of_app, Hb, Hh. reflexivity.
Qed.

Lemma requests_of_of_res {A} (r : res A) : requests_of (trace (P.of_res r)) = [].
Proof. destruct r; reflexivity. Qed.

Lemma requests_of_write_file (w : World) filename text :
  requests_of (trace (write_file w filename text)) = [].
Proof.
  unfold write_file. rewrite requests_of_bind, requests_of_of_res.
  destruct (final _); reflexivity.
Qed.

Lemma export_to_json_requests c w ip_info additional_info filename :
  requests_of (trace (export_to_json c w ip_info additional_info filename)) = [].
Proof.
  unfold export_to_json. rewrite requests_of_bind, requests_of_write_file.
  destruct (final _); reflexivity.
Qed.

Lemma export_to_csv_requests rt c w ip_info additional_info filename :
  requests_of (trace (export_to_csv rt c w ip_info additional_info filename)) = [].
Proof.
  unfold export_to_csv. rewrite requests_of_bind, requests_of_write_file.
  destruct (final _); reflexivity.
Qed.

Lemma export_to_html_requests rt c w ip_info additional_info filename :
  requests_of (trace (export_to_html rt c w ip_info additional_info filename)) = [].
Proof.
  unfold export_to_html.
  rewrite requests_of_bind, requests_of_of_res.
  destruct (final _) as [page|]; [|reflexivity].
  rewrite requests_of_bind, requests_of_write_file.
  destruct (final _) as [[]|]; [|reflexivity].
  rewrite requests_of_bind. cbn [P.say P.emit trace final requests_of flat_map app].
  rewrite requests_of_bind. cbn [P.say P.emit trace final requests_of flat_map app].
  rewrite requests_of_bind, requests_of_of_res.
  destruct (final _) as [answer|]; [|reflexivity].
  unfold P.when. destruct (answered_yes answer); [|reflexivity].
  cbn [app]. apply requests_of_try.
  - rewrite requests_of_bind, requests_of_of_res.
    destruct (final _) as [[|]|]; reflexivity.
  - intros e. reflexivity.
Qed.

Lemma enrich_requests rt w c args ip_info :
  requests_of (trace (enrich rt w c args ip_info))
  = if detailed args && Dict.contains ip_info "countryCode"
    then [country_url rt (Dict.get ip_info "countryCode")]
    else [].
Proof.
  unfold enrich. destruct (detailed args); [|reflexivity].
  pose proof (enrichment_requests_shape rt (country_data_service w) ip_info) as Hreq.
  destruct (get_additional_info rt (country_data_service w) ip_info)
    as [requests result].
  cbn [fst] in Hreq.
  rewrite requests_of_bind. cbn [P.say P.emit trace final requests_of flat_map app].
  rewrite requests_of_bind. cbn [trace final].
  rewrite requests_of_requested, requests_of_bind, requests_of_of_res.
  cbn [andb app]. rewrite Hreq.
  destruct (final _); cbn [P.ret trace requests_of flat_map app]; apply app_nil_r.
Qed.

Lemma enrich_done rt w c args ip_info :
  exists additional_info,
    final (enrich rt w c args ip_info) = Done additional_info.
Proof.
  unfold enrich. destruct (detailed args); [|eexists; reflexivity].
  destruct (enrichment_returns rt (country_data_service w) ip_info) as [d Hd].
  destruct (get_additional_info rt (country_data_service w) ip_info)
    as [requests result].
  cbn [snd] in Hd. subst result. eexists. reflexivity.
Qed.

(** X6.  The requests of a run whose address is resolved and whose
    geolocation request is answered, in order: the public-IP request when
    no address was given, one geolocation request for the address, and,
    in detailed mode when the answer has a [countryCode] key, one request
    for that country.  Rendering and exporting send none. *)
Theorem main_requests (rt : Runtime) (w : World) (args : Args)
        (address : string) (ip_info : dict) :
  output_given args = true ->
  (if missing (ip args)
   then public_ip_service w = Ret address
   else validate_ip (text_of (ip args)) = Ret true /\ text_of (ip args) = address) ->
  geolocation_service w (geolocation_url address (detailed args)) = Ret ip_info ->
  requests_of (trace (main rt w args))
  = ((if missing (ip args) then ["https://api.ipify.org"] else [])
     ++ [geolocation_url address (detailed args)]
     ++ (if detailed args && Dict.contains ip_info "countryCode"
         then [country_url rt (Dict.get ip_info "countryCode")]
         else []))%list.
Proof.
  intros Hout Hip Hgeo. unfold main.
  rewrite (output_given_true args Hout).
  set (c := if simple args then colors_simple else colors_ansi).
  rewrite requests_of_bind. cbn [P.say P.emit trace final requests_of flat_map app].
  rewrite requests_of_bind. cbn [P.say P.emit trace final requests_of flat_map app].
  rewrite requests_of_bind.
  assert (Hres : requests_of (trace (resolve_ip w c args))
                 = (if missing (ip args) then ["https://api.ipify.org"] else [])
                 /\ final (resolve_ip w c args) = Done address).
  { unfold resolve_ip, get_public_ip. destruct (missing (ip args)).
    - rewrite Hip. split; reflexivity.
    - destruct Hip as [-> ->]. split; reflexivity. }
  destruct Hres as [-> ->]. f_equal.
  rewrite requests_of_bind. cbn [P.say P.emit trace final requests_of flat_map app].
  rewrite requests_of_bind.
  assert (Hinfo : get_ip_info w c address (detailed args)
                  = Prog [Requested (geolocation_url address (detailed args))]
                         (Done ip_info)).
  { unfold get_ip_info. cbv zeta. rewrite Hgeo. reflexivity. }
  rewrite Hinfo. cbn [trace final requests_of flat_map app]. f_equal.
  rewrite requests_of_bind, enrich_requests.
  destruct (enrich_done rt w c args ip_info) as [additional_info ->].
  assert (Hrender : forall T (x : list T) y, y = [] -> (x ++ y)%list = x).
  { intros T x y ->. apply app_nil_r. }
  apply Hrender.
  destruct (format args).
  - unfold P.of_run. cbn [trace]. apply requests_of_printed.
  - apply export_to_json_requests.
  - apply export_to_csv_requests.
  - apply export_to_html_requests.
Qed.

Lemma main_requests_witness :
  requests_of (trace (main sample_runtime sample_world args_detailed_no_ip))
  = [ "https://api.ipify.org";
      geolocation_url "8.8.8.8" true;
      "https://restcountries.com/v3.1/alpha/US" ].
Proof.
  apply (main_requests sample_runtime sample_world args_detailed_no_ip
           "8.8.8.8" geo_google);
    reflexivity.
Defined.

Lemma enrich_failure (rt : Runtime) (w : World) (c : Colors)
      (args : Args) (ip_info : dict) :
  detailed args = true ->
  (forall url, exists e, country_data_service w url = Raise e) ->
  enrich rt w c args ip_info
  = Prog (Printed (YELLOW c ++ "Fetching additional demographic information..."
                     ++ ENDC c)
          :: (if Dict.contains ip_info "countryCode"
              then [Requested (country_url rt (Dict.get ip_info "countryCode"))]
              else []))
         (Done (Some [])).
Proof.
  intros Hd Hfail. unfold enrich. rewrite Hd.
  unfold get_additional_info, lookup_country, subscript, Dict.contains, Dict.get.
  destruct (Dict.lookup ip_info "countryCode") as [code|]; [|reflexivity].
  cbv beta iota.
  destruct (Hfail (country_url rt code)) as [e ->]. reflexivity.
Qed.

(** X7.  In a detailed run, a country-data service that fails is not
    reported: after the request the run goes on exactly as it would
    without enrichment, in each of the four formats. *)
Theorem main_enrichment_failure (rt : Runtime) (w : World) (args : Args)
        (address : string) (ip_info : dict) :
  output_given args = true ->
  ip args = Some address ->
  address <> "" ->
  validate_ip address = Ret true ->
  detailed args = true ->
  geolocation_service w (geolocation_url address true) = Ret ip_info ->
  (forall url, exists e, country_data_service w url = Raise e) ->
  main rt w args
  = let c := if simple args then colors_simple else colors_ansi in
    (Prog ([ScreenCleared; Printed (banner c); Validated address true;
            Printed (YELLOW c ++ "Fetching geolocation data..." ++ ENDC c);
            Requested (geolocation_url address true);
            Printed (YELLOW c ++ "Fetching additional demographic information..."
                       ++ ENDC c)]
           ++ (if Dict.contains ip_info "countryCode"
               then [Requested (country_url rt (Dict.get ip_info "countryCode"))]
               else []))
          (Done tt) ;;
     match format args with
     | terminal => P.of_run (display_ip_info rt c (surroundings w) ip_info None)
     | json => export_to_json c w ip_info None (text_of (output args))
     | csv => export_to_csv rt c w ip_info None (text_of (output args))
     | html => export_to_html rt c w ip_info None (text_of (output args))
     end)%prog.
Proof.
  intros Hout Hip Hne Hv Hd Hgeo Hfail. unfold main, resolve_ip, get_ip_info.
  rewrite (output_given_true args Hout).
  destruct (given_not_missing args address Hip Hne) as [-> ->].
  rewrite Hv.
  set (c := if simple args then colors_simple else colors_ansi).
  assert (Hrender :
    forall filename,
      (match format args with
       | terminal => P.of_run (display_ip_info rt c (surroundings w) ip_info (Some []))
       | json => export_to_json c w ip_info (Some []) filename
       | csv => export_to_csv rt c w ip_info (Some []) filename
       | html => export_to_html rt c w ip_info (Some []) filename
       end)
      = (match format args with
         | terminal => P.of_run (display_ip_info rt c (surroundings w) ip_info None)
         | json => export_to_json c w ip_info None filename
         | csv => export_to_csv rt c w ip_info None filename
         | html => export_to_html rt c w ip_info None filename
         end)).
  { intros filename. destruct (format args); reflexivity. }
  cbv zeta. rewrite <- Hrender.
  cbv beta iota zeta delta [P.bind P.of_res P.ret P.emit P.say trace final app negb].
  rewrite Hd, Hgeo.
  cbv beta iota zeta delta [P.bind P.of_res P.ret P.emit P.say trace final app negb].
  rewrite (enrich_failure rt w c args ip_info Hd Hfail).
  cbv beta iota zeta delta [trace final app].
  destruct (Dict.contains ip_info "countryCode"); reflexivity.
Qed.

Lemma main_enrichment_failure_witness :
  main sample_runtime world_no_country args_detailed
  = (Prog [ScreenCleared; Printed (banner colors_simple);
           Validated "8.8.8.8" true;
           Printed "Fetching geolocation data...";
           Requested (geolocation_url "8.8.8.8" true);
           Printed "Fetching additional demographic information...";
           Requested "https://restcountries.com/v3.1/alpha/US"]
          (Done tt) ;;
     P.of_run (display_ip_info sample_runtime colors_simple env_wide
                 geo_google None))%prog.
Proof.
  apply (main_enrichment_failure sample_runtime world_no_country args_detailed
           "8.8.8.8" geo_google);
    [reflexivity | reflexivity | discriminate | reflexivity | reflexivity
    | reflexivity | intros url; exists URLError; reflexivity].
Defined.

(** X8.  A plain run with the JSON format, from the arguments to the
    file: the screen is cleared, the banner printed, the address
    validated, one request sent, and the answer written with its
    timestamp to the output file, whatever the status of the answer is;
    the run ends normally. *)
Theorem main_json_run (rt : Runtime) (w : World) (args : Args)
        (address filename : string) (ip_info : dict) :
  format args = json ->
  output args = Some filename ->
  filename <> "" ->
  ip args = Some address ->
  address <> "" ->
  validate_ip address = Ret true ->
  detailed args = false ->
  geolocation_service w (geolocation_url address false) = Ret ip_info ->
  open_for_writing w filename = Ret tt ->
  main rt w args
  = let c := if simple args then colors_simple else colors_ansi in
    Prog [ScreenCleared; Printed (banner c); Validated address true;
          Printed (YELLOW c ++ "Fetching geolocation data..." ++ ENDC c);
          Requested (geolocation_url address false);
          FileWritten filename
            (Json.dumps (VDict (json_data w ip_info None)));
          Printed (GREEN c ++ "Data exported to " ++ filename ++ ENDC c)]
         (Done tt).
Proof.
  intros Hformat Houtput Hfile Hip Hne Hv Hd Hgeo Hopen.
  unfold main, resolve_ip, get_ip_info, enrich, export_to_json, write_file,
    exported_line.
  destruct (given_not_missing args address Hip Hne) as [-> ->].
  rewrite Hformat, Houtput, Hv, Hd.
  cbn [missing text_of negb andb].
  replace (String.eqb filename "") with false
    by (symmetry; apply String.eqb_neq; exact Hfile).
  cbv beta iota zeta delta [P.bind P.of_res P.ret P.emit P.say trace final app negb].
  rewrite Hgeo.
  cbv beta iota zeta delta [P.bind P.of_res P.ret P.emit P.say trace final app negb].
  rewrite Hopen. reflexivity.
Qed.

Lemma main_json_run_witness :
  main sample_runtime sample_world args_json
  = Prog [ScreenCleared; Printed (banner colors_simple);
          Validated "8.8.8.8" true;
          Printed "Fetching geolocation data...";
          Requested (geolocation_url "8.8.8.8" false);
          FileWritten "out.json"
            (Json.dumps (VDict (json_data sample_world geo_google None)));
          Printed "Data exported to out.json"]
         (Done tt).
Proof.
  apply (main_json_run sample_runtime sample_world args_json "8.8.8.8"
           "out.json" geo_google);
    try reflexivity; discriminate.
Defined.

(** ** The exporters, the file system and the browser *)

(** X9.  When the output file cannot be opened, each exporter ends
    with the exception of [open]: nothing is written and the line
    [Data exported to ...] is not printed. *)
Theorem export_unwritable_file (rt : Runtime) (c : Colors) (w : World)
        (ip_info : dict) (additional_info : option dict) (filename : string)
        (e : exn) :
  open_for_writing w filename = Raise e ->
  export_to_json c w ip_info additional_info filename
    = Prog [] (Stopped (Uncaught e))
  /\ export_to_csv rt c w ip_info additional_info filename
    = Prog [] (Stopped (Uncaught e))
  /\ (forall page, html_document rt w ip_info additional_info = Ret page ->
      export_to_html rt c w ip_info additional_info filename
      = Prog [] (Stopped (Uncaught e))).
Proof.
  intros He. repeat split.
  - unfold export_to_json, write_file. rewrite He. reflexivity.
  - unfold export_to_csv, write_file. cbv zeta. rewrite He. reflexivity.
  - intros page Hpage. unfold export_to_html, write_file.
    rewrite Hpage. cbv beta iota zeta delta [P.bind P.of_res P.ret trace final app].
    rewrite He. reflexivity.
Qed.

Lemma export_unwritable_file_witness :
  export_to_json colors_simple world_offline geo_google None "out.json"
    = Prog [] (Stopped (Uncaught OSError))
  /\ export_to_csv sample_runtime colors_simple world_offline geo_google None
       "out.csv"
     = Prog [] (Stopped (Uncaught OSError)).
Proof.
  split.
  - apply (export_unwritable_file sample_runtime colors_simple world_offline
             geo_google None "out.json" OSError).
    reflexivity.
  - apply (export_unwritable_file sample_runtime colors_simple world_offline
             geo_google None "out.csv" OSError).
    reflexivity.
Defined.

(** X10.  After the page is written, the HTML exporter prints the
    confirmation and asks whether to open the page.  It calls
    [webbrowser.open] on the absolute path of the file exactly when the
    answer is [y] or [Y], and does not look at what the call returns:
    when no browser could be started and the call returns [False],
    nothing more is printed.  The advice to open the file by hand is
    printed only when the call raises.  In every case the export ends
    normally. *)
Theorem export_to_html_browser (rt : Runtime) (c : Colors) (w : World)
        (ip_info : dict) (additional_info : option dict) (filename : string)
        (page answer : string) :
  html_document rt w ip_info additional_info = Ret page ->
  open_for_writing w filename = Ret tt ->
  typed_answer w = Ret answer ->
  export_to_html rt c w ip_info additional_info filename
  = Prog ([FileWritten filename page;
           Printed (exported_line c filename);
           Prompted (YELLOW c
                       ++ "Do you want to open the HTML report in your browser? (y/n): "
                       ++ ENDC c)]
          ++ (if answered_yes answer
              then match open_browser w ("file://" ++ abspath w filename) with
                   | Ret true => [BrowserOpened ("file://" ++ abspath w filename)]
                   | Ret false => []
                   | Raise _ =>
                       [Printed (RED c ++ "Could not open browser automatically. Please open "
                                   ++ filename ++ " manually." ++ ENDC c)]
                   end
              else []))
         (Done tt).
Proof.
  intros Hpage Hopen Hanswer. unfold export_to_html, write_file.
  rewrite Hpage, Hanswer.
  cbv beta iota zeta delta [P.bind P.of_res P.ret P.emit P.say trace final app].
  rewrite Hopen.
  cbv beta iota zeta delta [P.bind P.of_res P.ret P.emit P.say trace final app].
  unfold P.when at 1. destruct (answered_yes answer); [|reflexivity].
  unfold P.try_except.
  cbv beta iota zeta delta [P.bind P.of_res P.ret P.emit P.say P.throw trace final app].
  destruct (open_browser w ("file://" ++ abspath w filename)) as [[|]|e];
    reflexivity.
Qed.

Lemma export_to_html_browser_witness :
  export_to_html sample_runtime colors_simple world_no_browser geo_google None
    "report.html"
  = Prog [FileWritten "report.html" sample_page;
          Printed "Data exported to report.html";
          Prompted "Do you want to open the HTML report in your browser? (y/n): "]
         (Done tt).
Proof.
  apply (export_to_html_browser sample_runtime colors_simple world_no_browser
           geo_google None "report.html" sample_page "Y");
    [vm_compute; reflexivity | reflexivity | reflexivity].
Defined.

(** X11.  An empty enrichment record counts as no enrichment: the
    terminal report and the three exports are the same for the empty
    record and for [None]. *)
Theorem empty_enrichment_is_no_enrichment (rt : Runtime) (c : Colors)
        (w : World) (ip_info : dict) (filename : string) :
  display_ip_info rt c (surroundings w) ip_info (Some [])
    = display_ip_info rt c (surroundings w) ip_info None
  /\ export_to_json c w ip_info (Some []) filename
    = export_to_json c w ip_info None filename
  /\ export_to_csv rt c w ip_info (Some []) filename
    = export_to_csv rt c w ip_info None filename
  /\ export_to_html rt c w ip_info (Some []) filename
    = export_to_html rt c w ip_info None filename.
Proof.
  repeat split; reflexivity.
Qed.

Section HtmlReads.

Variable rt : Runtime.
Variable w : World.
Variables ip_info other : dict.
Hypothesis same :
  forall k, In k html_fields -> Dict.lookup other k = Dict.lookup ip_info k.

Ltac same_field :=
  match goal with
  | |- context [Dict.lookup other ?k] =>
      rewrite (same k) by (cbn [html_fields In]; tauto)
  end.

Lemma html_map_reads : html_map rt other = html_map rt ip_info.
Proof.
  unfold html_map, Dict.get, Dict.get_default, Dict.contains.
  repeat same_field. reflexivity.
Qed.

Lemma location_parts_reads : location_parts rt other = location_parts rt ip_info.
Proof.
  unfold location_parts, subscript, Dict.get, Dict.get_default, Dict.contains.
  repeat same_field. reflexivity.
Qed.

Lemma html_info_rows_reads (location : string) :
  html_info_rows rt other location = html_info_rows rt ip_info location.
Proof.
  unfold html_info_rows, Dict.get, Dict.get_default, Dict.contains.
  repeat same_field. reflexivity.
Qed.

Lemma html_page_reads (timestamp info_rows additional_html flag_html map_html : string) :
  html_page rt other timestamp info_rows additional_html flag_html map_html
  = html_page rt ip_info timestamp info_rows additional_html flag_html map_html.
Proof.
  unfold html_page, Dict.get_default.
  repeat same_field. reflexivity.
Qed.

Lemma html_document_reads (additional_info : option dict) :
  html_document rt w other additional_info
  = html_document rt w ip_info additional_info.
Proof.
  unfold html_document.
  rewrite html_map_reads, location_parts_reads.
  destruct (html_additional rt additional_info) as [additional_html|];
    cbn [res_bind]; [|reflexivity].
  destruct (location_parts rt ip_info) as [parts|];
    cbn [res_bind]; [|reflexivity].
  destruct (py_join ", " parts) as [location|];
    cbn [res_bind]; [|reflexivity].
  rewrite html_info_rows_reads, html_page_reads. reflexivity.
Qed.

End HtmlReads.

(** X12.  The HTML page depends on sixteen fields of the record only.
    Setting any other field, such as [district], [zip], [offset],
    [reverse] or [asname], which the terminal report shows, leaves the
    page unchanged. *)
Theorem html_reads_only_its_fields (rt : Runtime) (w : World) (ip_info : dict)
        (additional_info : option dict) (k : string) (v : value) :
  ~ In k html_fields ->
  html_document rt w (Dict.set ip_info k v) additional_info
  = html_document rt w ip_info additional_info.
Proof.
  intros Hk. apply html_document_reads. intros k' Hk'.
  apply lookup_set_other. intros ->. exact (Hk Hk').
Qed.

Lemma html_reads_only_its_fields_witness :
  html_document sample_runtime sample_world
    (Dict.set geo_google "zip" (VStr "94043")) None
  = html_document sample_runtime sample_world geo_google None.
Proof.
  apply (html_reads_only_its_fields sample_runtime sample_world geo_google None
           "zip" (VStr "94043")).
  simpl. intuition discriminate.
Defined.

(** X13.  The page is built before the file is opened: when building
    it raises, the HTML exporter ends with that exception and no file is
    written, no line printed and no question asked. *)
Theorem html_page_built_before_file (rt : Runtime) (c : Colors) (w : World)
        (ip_info : dict) (additional_info : option dict) (filename : string)
        (e : exn) :
  html_document rt w ip_info additional_info = Raise e ->
  export_to_html rt c w ip_info additional_info filename
  = Prog [] (Stopped (Uncaught e)).
Proof.
  intros H. unfold export_to_html. rewrite H. reflexivity.
Qed.

Lemma html_page_built_before_file_witness :
  export_to_html sample_runtime colors_simple sample_world geo_google
    (Some enrichment_odd_currencies) "report.html"
  = Prog [] (Stopped (Uncaught AttributeError)).
Proof.
  apply (html_page_built_before_file sample_runtime colors_simple sample_world
           geo_google (Some enrichment_odd_currencies) "report.html"
           AttributeError).
  reflexivity.
Defined.

(** ** The renderer at its limits *)

(** X14.  For a successful record, the renderer needs a terminal and
    the [query] field.  Without a terminal it raises [OSError] and prints
    nothing; with a terminal and without [query] it raises [KeyError]
    after the first line of the banner. *)
Theorem display_needs_terminal_and_query (rt : Runtime) (c : Colors) (env : Env)
        (ip_info : dict) (additional_info : option dict) :
  eq_str (Dict.get ip_info "status") "success" = true ->
  terminal_columns env = None \/ Dict.lookup ip_info "query" = None ->
  display_ip_info rt c env ip_info additional_info
  = match terminal_columns env with
    | None => Run [] (Raise OSError)
    | Some columns =>
        Run [Str.newline ++ BG_BLUE c ++ BOLD c
               ++ Str.times " " (Z.min 80 (columns - 4)) ++ ENDC c]
            (Raise KeyError)
    end.
Proof.
  intros Hstatus Hedge. unfold display_ip_info, box_width. rewrite Hstatus.
  cbn [negb].
  destruct (terminal_columns env) as [columns|]; [|reflexivity].
  destruct Hedge as [Hedge|Hquery]; [discriminate Hedge|].
  unfold header_banner, subscript. rewrite Hquery. reflexivity.
Qed.

Lemma display_needs_terminal_and_query_witness :
  display_ip_info sample_runtime colors_simple env_piped geo_google None
  = Run [] (Raise OSError).
Proof.
  apply (display_needs_terminal_and_query sample_runtime colors_simple
           env_piped geo_google None);
    [reflexivity | left; reflexivity].
Defined.

Lemma append_not_empty (a b : string) (ch : ascii) :
  String.eqb (a ++ String ch b) "" = false.
Proof. destruct a; reflexivity. Qed.

(** X15.  On a terminal of 8 columns or fewer the renderer cannot
    finish a successful record that has a [timezone] key: the box is at
    most 4 wide, and the local-time line is wrapped to the width minus 4,
    which [textwrap.fill] refuses. *)
Theorem display_narrow_terminal (rt : Runtime) (c : Colors) (env : Env)
        (ip_info : dict) (additional_info : option dict) (columns : Z) :
  eq_str (Dict.get ip_info "status") "success" = true ->
  terminal_columns env = Some columns ->
  columns <= 8 ->
  Dict.contains ip_info "timezone" = true ->
  exists e, outcome (display_ip_info rt c env ip_info additional_info) = Raise e.
Proof.
  intros Hstatus Hcolumns Hnarrow Htz.
  destruct (outcome (display_ip_info rt c env ip_info additional_info))
    as [[]|e] eqn:Hout; [exfalso | exists e; reflexivity].
  unfold display_ip_info, box_width in Hout.
  rewrite Hstatus, Hcolumns in Hout. cbn [negb] in Hout.
  rewrite bind_lift_ret in Hout.
  set (width := Z.min 80 (columns - 4)) in Hout.
  destruct (outcome_bind_ret _ _ _ Hout) as [[] [_ H1]].
  destruct (outcome_bind_ret _ _ _ H1) as [parts [_ H2]].
  destruct (outcome_bind_ret _ _ _ H2) as [location [_ H3]].
  destruct (outcome_bind_ret _ _ _ H3) as [[] [Hbox _]].
  unfold box in Hbox.
  destruct (outcome_bind_ret _ _ _ Hbox) as [[] [Hloc _]].
  unfold location_block in Hloc.
  do 8 (let H := fresh "H" in
        destruct (outcome_bind_ret _ _ _ Hloc) as [[] [_ H]];
        clear Hloc; rename H into Hloc).
  unfold time_lines, time_info in Hloc. rewrite Htz in Hloc.
  change (BLUE c ++ "Local Time:" ++ ENDC c ++ " " ++ clock env
            ++ " (Approx. based on timezone)")
    with (BLUE c ++ String "L" ("ocal Time:" ++ ENDC c ++ " " ++ clock env
            ++ " (Approx. based on timezone)")) in Hloc.
  rewrite append_not_empty in Hloc. cbn [negb when] in Hloc.
  unfold fill_lines in Hloc.
  replace (width - 4 <=? 0) with true in Hloc
    by (symmetry; apply Z.leb_le; unfold width; lia).
  discriminate Hloc.
Qed.

Lemma display_narrow_terminal_witness :
  exists e,
    outcome (display_ip_info sample_runtime colors_simple env_narrow geo_google
               None)
    = Raise e.
Proof.
  apply (display_narrow_terminal sample_runtime colors_simple env_narrow
           geo_google None 8);
    [reflexivity | reflexivity | lia | reflexivity].
Defined.

(** X16.  A [proxy] flag that is present and not [None] opens the
    additional block even without enrichment, and is printed right under
    its title: [Yes] for a true value, [No] for a false one, which is
    therefore shown and not skipped. *)
Theorem present_flag_is_shown (rt : Runtime) (c : Colors) (ip_info : dict)
        (additional_info : option dict) (width : Z) (v : value) :
  Dict.lookup ip_info "proxy" = Some v ->
  is_not_none v = true ->
  firstn 4 (printed (additional_block rt c ip_info additional_info width))
  = [ rule c "├" "┤" width;
      title c "Additional Information" (width - 23);
      rule c "├" "┤" width;
      row c "Using Proxy:" " " (yes_no v) (width - 15 - Str.len (yes_no v)) ].
Proof.
  intros Hproxy Hv. unfold additional_block, flag_field at 1, subscript, Dict.get.
  rewrite Hproxy, Hv. reflexivity.
Qed.

Lemma present_flag_is_shown_witness :
  firstn 4 (printed (additional_block sample_runtime colors_simple
                       [("proxy", VBool false)] None 80))
  = [ rule colors_simple "├" "┤" 80;
      title colors_simple "Additional Information" 57;
      rule colors_simple "├" "┤" 80;
      row colors_simple "Using Proxy:" " " "No" 63 ].
Proof.
  apply (present_flag_is_shown sample_runtime colors_simple
           [("proxy", VBool false)] None 80 (VBool false));
    reflexivity.
Defined.

Lemma outcome_seq {A B} (m : run A) (k : A -> run B) (a : A) (r : res B) :
  outcome m = Ret a -> outcome (k a) = r -> outcome (bind m k) = r.
Proof. unfold bind. cbn [outcome]. intros -> H. exact H. Qed.

Lemma outcome_for_each_print {A} (xs : list A) (line : A -> string) :
  outcome (for_each xs (fun x => print (line x))) = Ret tt.
Proof.
  induction xs as [|x xs IH]; [reflexivity|].
  cbn [for_each]. apply (outcome_seq _ _ tt); [reflexivity | exact IH].
Qed.

Lemma truthy_get_lookup (d : dict) (k : string) :
  truthy (Dict.get d k) = true -> Dict.lookup d k = Some (Dict.get d k).
Proof.
  unfold Dict.get. destruct (Dict.lookup d k); [reflexivity | discriminate].
Qed.

Lemma present_get_lookup (d : dict) (k : string) :
  is_not_none (Dict.get d k) = true -> Dict.lookup d k = Some (Dict.get d k).
Proof.
  unfold Dict.get. destruct (Dict.lookup d k); [reflexivity | discriminate].
Qed.

Lemma contains_lookup (d : dict) (k : string) :
  Dict.contains d k = true -> exists v, Dict.lookup d k = Some v.
Proof.
  unfold Dict.contains. destruct (Dict.lookup d k) as [v|];
    [exists v; reflexivity | discriminate].
Qed.

Section Completes.

Variable rt : Runtime.
Variable c : Colors.
Variable env : Env.

Lemma plain_field_completes (ip_info : dict) (k label : string) (base : Z) :
  text_or_absent (Dict.get ip_info k) = true ->
  outcome (plain_field rt c ip_info k label base) = Ret tt.
Proof.
  intros Htext. unfold plain_field, subscript.
  destruct (truthy (Dict.get ip_info k)) eqn:Ht; [|reflexivity].
  rewrite (truthy_get_lookup _ _ Ht).
  destruct (Dict.get ip_info k); try discriminate Htext;
    try discriminate Ht; reflexivity.
Qed.

Lemma wrapped_lines_completes (label gap : string) (lines : list string)
      (first_base : Z) (indent : string) (rest_base : Z) :
  lines <> [] ->
  outcome (wrapped_lines c label gap lines first_base indent rest_base) = Ret tt.
Proof.
  intros Hne. destruct lines as [|first rest]; [contradiction|].
  cbn [wrapped_lines]. apply (outcome_seq _ _ tt); [reflexivity|].
  apply outcome_for_each_print.
Qed.

Lemma split_char_not_empty (a : ascii) (s : string) : Str.split_char a s <> [].
Proof.
  destruct s as [|b s]; cbn [Str.split_char]; [discriminate|].
  destruct (Ascii.eqb b a); [discriminate|].
  destruct (Str.split_char a s); discriminate.
Qed.

Lemma fill_lines_completes (s : string) (width : Z) :
  0 < width ->
  exists lines, fill_lines rt (VStr s) width = Ret lines /\ lines <> [].
Proof.
  intros Hw. unfold fill_lines.
  replace (width <=? 0) with false by (symmetry; apply Z.leb_gt; exact Hw).
  eexists. split; [reflexivity | apply split_char_not_empty].
Qed.

Lemma wrapped_field_completes (ip_info : dict) (k label gap : string)
      (fill_width first_base : Z) (indent : string) (rest_base : Z) :
  text_or_absent (Dict.get ip_info k) = true ->
  0 < fill_width ->
  outcome (wrapped_field rt c ip_info k label gap fill_width first_base indent
             rest_base) = Ret tt.
Proof.
  intros Htext Hw. unfold wrapped_field, subscript.
  destruct (truthy (Dict.get ip_info k)) eqn:Ht; [|reflexivity].
  rewrite (truthy_get_lookup _ _ Ht).
  destruct (Dict.get ip_info k) as [| | | |s| |]; try discriminate Htext;
    try discriminate Ht.
  destruct (fill_lines_completes s fill_width Hw) as [lines [Hfill Hne]].
  cbn [when]. rewrite bind_lift_ret, Hfill, bind_lift_ret.
  apply wrapped_lines_completes. exact Hne.
Qed.

Lemma flag_field_completes (ip_info : dict) (k label : string) (base : Z) :
  outcome (flag_field c ip_info k label base) = Ret tt.
Proof.
  unfold flag_field, subscript.
  destruct (is_not_none (Dict.get ip_info k)) eqn:Hp; [|reflexivity].
  rewrite (present_get_lookup _ _ Hp). reflexivity.
Qed.

Lemma mapping_field_completes (additional_info : option dict) (k : string)
      (entry : string * value -> string) (label : string)
      (fill_width first_base : Z) (indent : string) (rest_base : Z) :
  (forall info, additional_info = Some info ->
                mapping_or_absent (Dict.get info k) = true) ->
  0 < fill_width ->
  outcome (mapping_field rt c additional_info k entry label fill_width
             first_base indent rest_base) = Ret tt.
Proof.
  intros Hmap Hw. unfold mapping_field, info_has, info_subscript, subscript.
  destruct additional_info as [info|]; [|reflexivity].
  specialize (Hmap info eq_refl).
  destruct (has_info (Some info) && truthy (Dict.get info k)) eqn:Hc;
    [|reflexivity].
  apply andb_prop in Hc. destruct Hc as [_ Ht].
  rewrite (truthy_get_lookup _ _ Ht).
  destruct (Dict.get info k) as [| | | | | |d]; try discriminate Hmap;
    try discriminate Ht.
  cbn [when]. rewrite bind_lift_ret. cbn [dict_items].
  rewrite bind_lift_ret. cbv beta zeta.
  destruct (fill_lines_completes
              (Str.join ", " (map entry (Dict.items d))) fill_width Hw)
    as [lines [Hfill Hne]].
  rewrite Hfill, bind_lift_ret.
  apply wrapped_lines_completes. exact Hne.
Qed.

Lemma header_banner_completes (ip_info : dict) (width : Z) :
  Dict.contains ip_info "query" = true ->
  outcome (header_banner rt c ip_info width) = Ret tt.
Proof.
  intros Hq. destruct (contains_lookup _ _ Hq) as [v Hv].
  unfold header_banner, subscript. rewrite Hv. reflexivity.
Qed.

Lemma time_lines_completes (ip_info : dict) (width : Z) :
  4 < width -> outcome (time_lines rt c env ip_info width) = Ret tt.
Proof.
  intros Hw. unfold time_lines.
  destruct (negb (String.eqb (time_info c env ip_info) "")); [|reflexivity].
  cbn [when]. cbv zeta.
  destruct (fill_lines_completes
              (Str.replace (Str.replace (time_info c env ip_info) (BLUE c) "")
                 (ENDC c) "")
              (width - 4)) as [lines [Hfill Hne]]; [lia|].
  rewrite Hfill, bind_lift_ret.
  destruct lines as [|line rest]; [reflexivity|].
  apply (outcome_seq _ _ tt); [reflexivity | apply outcome_for_each_print].
Qed.

Lemma location_completes (ip_info : dict) :
  text_or_absent (Dict.get ip_info "city") = true ->
  text_or_absent (Dict.get ip_info "regionName") = true ->
  text_or_absent (Dict.get ip_info "country") = true ->
  exists parts location,
    location_parts rt ip_info = Ret parts
    /\ py_join ", " parts = Ret location.
Proof.
  intros Hcity Hregion Hcountry.
  unfold location_parts, subscript.
  destruct (truthy (Dict.get ip_info "city")) eqn:Tcity;
    [rewrite (truthy_get_lookup _ _ Tcity)|];
    (destruct (truthy (Dict.get ip_info "regionName")) eqn:Tregion;
     [rewrite (truthy_get_lookup _ _ Tregion)|]);
    (destruct (truthy (Dict.get ip_info "country")) eqn:Tcountry;
     [rewrite (truthy_get_lookup _ _ Tcountry)|]);
    (destruct (truthy (Dict.get ip_info "countryCode")) eqn:Tcode;
     [rewrite ?(truthy_get_lookup _ _ Tcode)|]);
    cbn [res_bind app];
    destruct (Dict.get ip_info "city"); try discriminate Hcity;
    try discriminate Tcity;
    destruct (Dict.get ip_info "regionName"); try discriminate Hregion;
    try discriminate Tregion;
    destruct (Dict.get ip_info "country"); try discriminate Hcountry;
    try discriminate Tcountry;
    do 2 eexists; (split; [reflexivity|]); reflexivity.
Qed.

Lemma location_block_completes (ip_info : dict) (location : string) (width : Z) :
  record_typed ip_info = true ->
  4 < width ->
  outcome (location_block rt c env ip_info location width) = Ret tt.
Proof.
  intros Htyped Hw. unfold record_typed in Htyped.
  apply andb_prop in Htyped. destruct Htyped as [Htext Hoffset].
  cbn [forallb text_fields] in Htext.
  repeat (apply andb_prop in Htext; let H := fresh "Hf" in destruct Htext as [H Htext]).
  unfold location_block.
  apply (outcome_seq _ _ tt); [reflexivity|].
  apply (outcome_seq _ _ tt); [reflexivity|].
  apply (outcome_seq _ _ tt).
  { destruct (truthy (Dict.get ip_info "continent")) eqn:Ht; [|reflexivity].
    cbn [when]. unfold subscript. rewrite (truthy_get_lookup _ _ Ht). reflexivity. }
  apply (outcome_seq _ _ tt); [apply plain_field_completes; assumption|].
  apply (outcome_seq _ _ tt).
  { unfold Dict.contains, subscript.
    destruct (Dict.lookup ip_info "lat"); [|reflexivity].
    destruct (Dict.lookup ip_info "lon"); reflexivity. }
  apply (outcome_seq _ _ tt); [apply plain_field_completes; assumption|].
  apply (outcome_seq _ _ tt); [apply plain_field_completes; assumption|].
  apply (outcome_seq _ _ tt).
  { destruct (is_not_none (Dict.get ip_info "offset")) eqn:Hp; [|reflexivity].
    cbn [when]. unfold subscript. rewrite (present_get_lookup _ _ Hp).
    destruct (Dict.get ip_info "offset"); try discriminate Hoffset;
      try discriminate Hp; reflexivity. }
  apply time_lines_completes. exact Hw.
Qed.

Lemma additional_block_completes (ip_info : dict)
      (additional_info : option dict) (width : Z) :
  enrichment_typed additional_info = true ->
  13 < width ->
  outcome (additional_block rt c ip_info additional_info width) = Ret tt.
Proof.
  intros Htyped Hw. unfold additional_block.
  match goal with |- context [when ?b _] => destruct b end; [|reflexivity].
  cbn [when].
  apply (outcome_seq _ _ tt); [reflexivity|].
  apply (outcome_seq _ _ tt); [reflexivity|].
  apply (outcome_seq _ _ tt); [reflexivity|].
  apply (outcome_seq _ _ tt); [apply flag_field_completes|].
  apply (outcome_seq _ _ tt); [apply flag_field_completes|].
  apply (outcome_seq _ _ tt); [apply flag_field_completes|].
  apply (outcome_seq _ _ tt).
  { unfold info_has, info_subscript, subscript.
    destruct additional_info as [info|]; [|reflexivity].
    destruct (has_info (Some info) && truthy (Dict.get info "population")) eqn:Hc;
      [|reflexivity].
    apply andb_prop in Hc. destruct Hc as [_ Ht].
    rewrite (truthy_get_lookup _ _ Ht).
    cbn [enrichment_typed] in Htyped.
    apply andb_prop in Htyped. destruct Htyped as [Htyped _].
    apply andb_prop in Htyped. destruct Htyped as [Htyped _].
    apply andb_prop in Htyped. destruct Htyped as [Hpop _].
    destruct (Dict.get info "population"); try discriminate Hpop;
      try discriminate Ht; reflexivity. }
  apply (outcome_seq _ _ tt).
  { unfold info_has, info_subscript, subscript.
    destruct additional_info as [info|]; [|reflexivity].
    destruct (has_info (Some info) && truthy (Dict.get info "capital")) eqn:Hc;
      [|reflexivity].
    apply andb_prop in Hc. destruct Hc as [_ Ht].
    rewrite (truthy_get_lookup _ _ Ht).
    cbn [enrichment_typed] in Htyped.
    apply andb_prop in Htyped. destruct Htyped as [Htyped _].
    apply andb_prop in Htyped. destruct Htyped as [Htyped _].
    apply andb_prop in Htyped. destruct Htyped as [_ Hcap].
    destruct (Dict.get info "capital"); try discriminate Hcap;
      try discriminate Ht; reflexivity. }
  apply (outcome_seq _ _ tt).
  { apply mapping_field_completes; [|lia].
    intros info ->. cbn [enrichment_typed] in Htyped.
    apply andb_prop in Htyped. destruct Htyped as [Htyped _].
    apply andb_prop in Htyped. destruct Htyped as [_ H]. exact H. }
  apply mapping_field_completes; [|lia].
  intros info ->. cbn [enrichment_typed] in Htyped.
  apply andb_prop in Htyped. destruct Htyped as [_ H]. exact H.
Qed.

Lemma network_block_completes (ip_info : dict) (width : Z) :
  record_typed ip_info = true ->
  15 < width ->
  outcome (network_block rt c ip_info width) = Ret tt.
Proof.
  intros Htyped Hw. unfold record_typed in Htyped.
  apply andb_prop in Htyped. destruct Htyped as [Htext _].
  cbn [forallb text_fields] in Htext.
  repeat (apply andb_prop in Htext; let H := fresh "Hf" in destruct Htext as [H Htext]).
  unfold network_block.
  apply (outcome_seq _ _ tt); [reflexivity|].
  apply (outcome_seq _ _ tt); [reflexivity|].
  apply (outcome_seq _ _ tt); [reflexivity|].
  apply (outcome_seq _ _ tt); [apply wrapped_field_completes; [assumption | lia]|].
  apply (outcome_seq _ _ tt); [apply wrapped_field_completes; [assumption | lia]|].
  apply (outcome_seq _ _ tt); [apply wrapped_field_completes; [assumption | lia]|].
  apply (outcome_seq _ _ tt); [apply wrapped_field_completes; [assumption | lia]|].
  apply wrapped_field_completes; [assumption | lia].
Qed.

Lemma trailer_completes (ip_info : dict) (additional_info : option dict) :
  outcome (trailer rt c ip_info additional_info) = Ret tt.
Proof.
  unfold trailer.
  apply (outcome_seq _ _ tt).
  { unfold Dict.contains, subscript.
    destruct (Dict.lookup ip_info "lat"); [|reflexivity].
    destruct (Dict.lookup ip_info "lon"); reflexivity. }
  unfold info_has, info_subscript, subscript.
  destruct additional_info as [info|]; [|reflexivity].
  destruct (has_info (Some info) && truthy (Dict.get info "flag")) eqn:Hc;
    [|reflexivity].
  apply andb_prop in Hc. destruct Hc as [_ Ht].
  rewrite (truthy_get_lookup _ _ Ht). reflexivity.
Qed.

End Completes.

Lemma renderer_completes (rt : Runtime) (c : Colors) (env : Env)
        (ip_info : dict) (additional_info : option dict) (columns : Z) :
  eq_str (Dict.get ip_info "status") "success" = true ->
  terminal_columns env = Some columns ->
  20 <= columns ->
  Dict.contains ip_info "query" = true ->
  record_typed ip_info = true ->
  enrichment_typed additional_info = true ->
  outcome (display_ip_info rt c env ip_info additional_info) = Ret tt.
Proof.
  intros Hstatus Hcolumns Hwide Hquery Htyped Henrich.
  unfold display_ip_info, box_width. rewrite Hstatus, Hcolumns.
  cbn [negb]. rewrite bind_lift_ret.
  set (width := Z.min 80 (columns - 4)).
  assert (Hw : 15 < width) by (unfold width; lia).
  destruct (location_completes rt ip_info) as [parts [location [Hparts Hjoin]]].
  { unfold record_typed in Htyped. cbn [forallb text_fields] in Htyped.
    repeat (apply andb_prop in Htyped; destruct Htyped as [Htyped ?]).
    assumption. }
  { unfold record_typed in Htyped. cbn [forallb text_fields] in Htyped.
    apply andb_prop in Htyped. destruct Htyped as [Htyped _].
    apply andb_prop in Htyped. destruct Htyped as [_ Htyped].
    apply andb_prop in Htyped. destruct Htyped as [H _]. exact H. }
  { unfold record_typed in Htyped. cbn [forallb text_fields] in Htyped.
    apply andb_prop in Htyped. destruct Htyped as [Htyped _].
    apply andb_prop in Htyped. destruct Htyped as [_ Htyped].
    apply andb_prop in Htyped. destruct Htyped as [_ Htyped].
    apply andb_prop in Htyped. destruct Htyped as [H _]. exact H. }
  apply (outcome_seq _ _ tt); [apply header_banner_completes; exact Hquery|].
  rewrite Hparts, bind_lift_ret, Hjoin, bind_lift_ret.
  apply (outcome_seq _ _ tt); [|apply trailer_completes].
  unfold box.
  apply (outcome_seq _ _ tt); [apply location_block_completes; [exact Htyped | lia]|].
  apply (outcome_seq _ _ tt); [apply additional_block_completes; [exact Henrich | lia]|].
  apply (outcome_seq _ _ tt); [apply network_block_completes; [exact Htyped | lia]|].
  reflexivity.
Qed.

(** X17.  The renderer never fails for a missing optional field.  On a
    terminal of at least 20 columns it runs to its end on every
    successful record that has a [query] field, provided the text fields
    that are present hold texts, the offset is a number, and the
    enrichment record, if any, has a numeric population, a text capital
    and mappings for currencies and languages. *)
Theorem display_completes (rt : Runtime) (c : Colors) (env : Env)
        (ip_info : dict) (additional_info : option dict) (columns : Z) :
  eq_str (Dict.get ip_info "status") "success" = true ->
  terminal_columns env = Some columns ->
  20 <= columns ->
  Dict.contains ip_info "query" = true ->
  record_typed ip_info = true ->
  enrichment_typed additional_info = true ->
  outcome (display_ip_info rt c env ip_info additional_info) = Ret tt.
Proof.
  exact (renderer_completes rt c env ip_info additional_info columns).
Qed.

Lemma display_completes_witness :
  outcome (display_ip_info sample_runtime colors_ansi env_wide geo_google None)
  = Ret tt.
Proof.
  apply (display_completes sample_runtime colors_ansi env_wide geo_google None
           120);
    try reflexivity; lia.
Defined.

(** ** Which sections the renderer prints, and when it reaches its end *)

(** C5, amended.  For a successful record on a terminal, only the
    additional block is conditional: it is empty when no connection flag
    is present and the enrichment is absent or empty, and starts with
    rule, title and rule otherwise.  The other sections do not depend on
    their fields: whenever the renderer runs to its end, its output is
    the banner of three lines, the location block, which starts with the
    top border and the [Location:] line, the additional block, the
    network block, which starts with its rule, its title and a rule, the
    bottom border and the trailer, in this order, whether or not any
    field of the location or of the network section is present.  The
    renderer does run to its end when the box is at least 16 wide and the
    record has a [query] field and is well typed, with a well-typed
    enrichment record if any. *)
Theorem sections_printed :
  forall (rt : Runtime) (c : Colors) (env : Env) (ip_info : dict)
         (additional_info : option dict) (width : Z),
    eq_str (Dict.get ip_info "status") "success" = true ->
    box_width env = Ret width ->
    (16 <= width ->
     Dict.contains ip_info "query" = true ->
     record_typed ip_info = true ->
     enrichment_typed additional_info = true ->
     outcome (display_ip_info rt c env ip_info additional_info) = Ret tt)
    /\ (outcome (display_ip_info rt c env ip_info additional_info) = Ret tt ->
       exists location : string,
         res_bind (location_parts rt ip_info) (py_join ", ") = Ret location
         /\ printed (display_ip_info rt c env ip_info additional_info)
            = (printed (header_banner rt c ip_info width)
               ++ printed (location_block rt c env ip_info location width)
               ++ printed (additional_block rt c ip_info additional_info width)
               ++ printed (network_block rt c ip_info width)
               ++ [rule c "└" "┘" width]
               ++ printed (trailer rt c ip_info additional_info))%list
         /\ List.length (printed (header_banner rt c ip_info width)) = 3%nat
         /\ (exists rest,
                printed (location_block rt c env ip_info location width)
                = rule c "┌" "┐" width
                  :: row c "Location:" " " location (width - 11 - Str.len location)
                  :: rest)
         /\ (exists rest,
                printed (network_block rt c ip_info width)
                = rule c "├" "┤" width
                  :: title c "Network Information" (width - 21)
                  :: rule c "├" "┤" width
                  :: rest)
         /\ (additional_guard ip_info additional_info = false ->
             printed (additional_block rt c ip_info additional_info width) = [])
         /\ (additional_guard ip_info additional_info = true ->
             exists rest,
               printed (additional_block rt c ip_info additional_info width)
               = rule c "├" "┤" width
                 :: title c "Additional Information" (width - 23)
                 :: rule c "├" "┤" width
                 :: rest)).
Proof.
  intros rt c env ip_info additional_info width Hstatus Hwidth.
  split.
  - intros Hwide Hquery Htyped Henrich.
    unfold box_width in Hwidth.
    destruct (terminal_columns env) as [columns|] eqn:Hcolumns;
      [|discriminate Hwidth].
    injection Hwidth as <-.
    apply (renderer_completes rt c env ip_info additional_info columns);
      try assumption.
    lia.
  - intros Hend.
    exact (sections_of_complete_run rt c env ip_info additional_info width
             Hstatus Hwidth Hend).
Qed.

Lemma sections_printed_witness :
  outcome (display_ip_info sample_runtime colors_simple env_wide geo_bare None)
  = Ret tt
  /\ exists location : string,
    res_bind (location_parts sample_runtime geo_bare) (py_join ", ") = Ret location
    /\ printed (network_block sample_runtime colors_simple geo_bare 80)
       = [rule colors_simple "├" "┤" 80;
          title colors_simple "Network Information" (80 - 21);
          rule colors_simple "├" "┤" 80]
    /\ printed (additional_block sample_runtime colors_simple geo_bare None 80) = [].
Proof.
  destruct (sections_printed sample_runtime colors_simple env_wide geo_bare None 80
              eq_refl eq_refl)
    as [Hruns Hshape].
  assert (Hend : outcome (display_ip_info sample_runtime colors_simple env_wide
                            geo_bare None) = Ret tt).
  { apply Hruns; [lia | reflexivity | reflexivity | reflexivity]. }
  split; [exact Hend|].
  destruct (Hshape Hend) as [location [Hloc [_ [_ [_ [_ [Hnone _]]]]]]].
  exists location. split; [exact Hloc|]. split; [reflexivity|].
  apply Hnone. reflexivity.
Defined.

(** ** The address validator beyond four octets *)

Lemma aton_needs_digit (fuel parts : nat) (s : string) :
  no_leading_digit s = true -> Inet.aton fuel parts s = false.
Proof.
  intros H. destruct fuel as [|fuel]; [reflexivity|].
  destruct s as [|a s]; [reflexivity|].
  cbn [Inet.aton]. cbn [no_leading_digit] in H. rewrite H. reflexivity.
Qed.

Lemma aton_dot_step (fuel parts : nat) (a : Z) (rest : string) :
  0 <= a <= 255 ->
  Inet.aton (S fuel) parts (Str.of_Z a ++ String "." rest)
  = if (2 <? parts)%nat then false else Inet.aton fuel (S parts) rest.
Proof.
  intros Ha.
  destruct (octet_parses a Ha) as [[ch [o' [Ho Hd]]] [_ Hs]].
  specialize (Hs (String "." rest) (or_intror (ex_intro _ rest eq_refl))).
  rewrite Ho in *. simpl append in *.
  cbn [Inet.aton]. rewrite Hd, Hs. cbn [negb].
  replace (4294967295 <? a) with false by (symmetry; apply Z.ltb_ge; lia).
  replace (255 <? a) with false by (symmetry; apply Z.ltb_ge; lia).
  rewrite orb_false_r. reflexivity.
Qed.

Lemma aton_dotted_needs_digit (octets : list Z) (rest : string) :
  Forall is_octet_value octets ->
  no_leading_digit rest = true ->
  forall fuel parts, Inet.aton fuel parts (dotted octets ++ rest) = false.
Proof.
  intros Hoct Hrest. induction Hoct as [|o os Ho _ IH]; intros fuel parts.
  - apply aton_needs_digit. exact Hrest.
  - destruct fuel as [|fuel]; [reflexivity|].
    cbn [dotted]. rewrite !append_assoc.
    change ("." ++ dotted os ++ rest) with (String "." (dotted os ++ rest)).
    rewrite aton_dot_step by exact Ho.
    destruct (2 <? parts)%nat; [reflexivity | apply IH].
Qed.

Lemma aton_too_many_dots (octets : list Z) (rest : string) :
  Forall is_octet_value octets ->
  forall fuel parts,
    octets <> [] -> (4 <= parts + List.length octets)%nat ->
    Inet.aton fuel parts (dotted octets ++ rest) = false.
Proof.
  intros Hoct. induction Hoct as [|o os Ho _ IH]; intros fuel parts Hne Hlen.
  - contradiction.
  - destruct fuel as [|fuel]; [reflexivity|].
    cbn [dotted]. rewrite !append_assoc.
    change ("." ++ dotted os ++ rest) with (String "." (dotted os ++ rest)).
    rewrite aton_dot_step by exact Ho.
    destruct (2 <? parts)%nat eqn:Hparts; [reflexivity|].
    apply Nat.ltb_ge in Hparts.
    apply IH.
    + intros ->. cbn [List.length] in Hlen. lia.
    + cbn [List.length] in Hlen. lia.
Qed.

Lemma not_accepted (s : string) :
  Inet.inet_aton s = false -> validate_ip s <> Ret true.
Proof.
  intros H. unfold validate_ip. rewrite H.
  destruct (Inet.has_nul s); discriminate.
Qed.

(** X18.  A text that starts with four or more octets, each followed
    by a dot, is never accepted, whatever follows. *)
Theorem validate_ip_rejects_fourth_dot (octets : list Z) (rest : string) :
  Forall is_octet_value octets ->
  (4 <= List.length octets)%nat ->
  validate_ip (dotted octets ++ rest) <> Ret true.
Proof.
  intros Hoct Hlen. apply not_accepted. unfold Inet.inet_aton.
  apply aton_too_many_dots; [exact Hoct | | exact Hlen].
  intros ->. cbn [List.length] in Hlen. lia.
Qed.

Lemma validate_ip_rejects_fourth_dot_witness :
  validate_ip (dotted [1; 2; 3; 4] ++ "5") <> Ret true.
Proof.
  apply (validate_ip_rejects_fourth_dot [1; 2; 3; 4] "5");
    [repeat constructor; unfold is_octet_value; lia | simpl; lia].
Defined.

(** X19.  Every part of an address must start with a digit: octets
    followed by dots and then the end of the text, or a character that is
    not a digit, are not accepted.  This covers the empty string, a
    leading sign or space, a doubled dot and a trailing dot. *)
Theorem validate_ip_rejects_empty_part (octets : list Z) (rest : string) :
  Forall is_octet_value octets ->
  no_leading_digit rest = true ->
  validate_ip (dotted octets ++ rest) <> Ret true.
Proof.
  intros Hoct Hrest. apply not_accepted. unfold Inet.inet_aton.
  apply aton_dotted_needs_digit; assumption.
Qed.

Lemma validate_ip_rejects_empty_part_witness :
  validate_ip (dotted [1; 2; 3] ++ "") <> Ret true.
Proof.
  apply (validate_ip_rejects_empty_part [1; 2; 3] "");
    [repeat constructor; unfold is_octet_value; lia | reflexivity].
Defined.

Lemma space_facts (sp : ascii) :
  Inet.is_space sp = true ->
  (forall base, Inet.digit_value base sp = None)
  /\ Inet.is_x sp = false
  /\ (Inet.code sp =? 0) = false.
Proof.
  destruct sp as [[] [] [] [] [] [] [] []]; intros H; try discriminate H;
    repeat split; reflexivity.
Qed.

Lemma digits_before_stop (base : Z) (s : string) (stop : ascii) (t : string) :
  Inet.digit_value base stop = None ->
  forall acc v,
    Inet.digits base acc s = (v, "") ->
    Inet.digits base acc (s ++ String stop t) = (v, String stop t).
Proof.
  intros Hstop. induction s as [|a s IH]; intros acc v H.
  - cbn [Inet.digits] in H. injection H as <-.
    cbn [append Inet.digits]. rewrite Hstop. reflexivity.
  - cbn [append Inet.digits] in *.
    destruct (Inet.digit_value base a) as [d|].
    + apply IH. exact H.
    + discriminate H.
Qed.

Ltac octet_decimal_case :=
  split; [reflexivity|];
  let H := fresh "H" in
  let r := fresh "r" in
  intros H r; first [reflexivity | exfalso; apply H; reflexivity].

Lemma octet_decimal_nat (n : nat) :
  (n < 256)%nat ->
  Inet.digits 10 0 (Str.of_Z (Z.of_nat n)) = (Z.of_nat n, "")
  /\ (n <> 0%nat ->
      forall r, Inet.strtoul (Str.of_Z (Z.of_nat n) ++ r)
                = Inet.digits 10 0 (Str.of_Z (Z.of_nat n) ++ r)).
Proof.
  intros Hn.
  do 256 (destruct n as [|n]; [octet_decimal_case|]).
  exfalso. lia.
Qed.

Lemma strtoul_before_space (a : Z) (sp : ascii) (t : string) :
  0 <= a <= 255 ->
  Inet.is_space sp = true ->
  Inet.strtoul (Str.of_Z a ++ String sp t) = (a, String sp t).
Proof.
  intros Ha Hsp.
  destruct (space_facts sp Hsp) as [Hdigit [Hx _]].
  destruct (Z.eq_dec a 0) as [->|Hnz].
  - change (Str.of_Z 0 ++ String sp t) with (String "0" (String sp t)).
    unfold Inet.strtoul. rewrite Hx.
    assert (Hoct : Inet.digits 8 0 (String "0" (String sp t)) = (0, String sp t)).
    { cbn [Inet.digits]. change (Inet.digit_value 8 "0") with (Some 0).
      cbn [Inet.digits]. rewrite Hdigit. reflexivity. }
    destruct t; exact Hoct.
  - rewrite <- (Z2Nat.id a) by lia.
    destruct (octet_decimal_nat (Z.to_nat a)) as [Hdec Hstr]; [lia|].
    rewrite Hstr by lia.
    apply digits_before_stop; [apply Hdigit | exact Hdec].
Qed.

Lemma aton_last_space (fuel : nat) (a : Z) (sp : ascii) (t : string) :
  0 <= a <= 255 ->
  Inet.is_space sp = true ->
  Inet.aton (S fuel) 3 (Str.of_Z a ++ String sp t) = true.
Proof.
  intros Ha Hsp.
  pose proof (strtoul_before_space a sp t Ha Hsp) as Hs.
  destruct (octet_parses a Ha) as [[ch [o' [Ho Hd]]] _].
  rewrite Ho in *. cbn [append] in *.
  cbn [Inet.aton]. rewrite Hd, Hs. cbn [negb].
  replace (4294967295 <? a) with false by (symmetry; apply Z.ltb_ge; lia).
  destruct sp as [[] [] [] [] [] [] [] []]; try discriminate Hsp;
    cbn [Inet.trailing_ok Inet.last_max]; rewrite Hsp;
    apply Z.leb_le; lia.
Qed.

(** X20.  The validator reads the address up to the first white
    space: four octets followed by a white-space character and any text
    without a NUL character are accepted. *)
Theorem validate_ip_ignores_text_after_space (a b c d : Z) (sp : ascii)
        (t : string) :
  0 <= a <= 255 -> 0 <= b <= 255 -> 0 <= c <= 255 -> 0 <= d <= 255 ->
  Inet.is_space sp = true ->
  Inet.has_nul t = false ->
  validate_ip (Str.of_Z a ++ "." ++ Str.of_Z b ++ "." ++ Str.of_Z c
                 ++ "." ++ Str.of_Z d ++ String sp t)
  = Ret true.
Proof.
  intros Ha Hb Hc Hd Hsp Ht.
  unfold validate_ip.
  destruct (octet_parses a Ha) as [_ [Hna _]].
  destruct (octet_parses b Hb) as [_ [Hnb _]].
  destruct (octet_parses c Hc) as [_ [Hnc _]].
  destruct (octet_parses d Hd) as [_ [Hnd _]].
  destruct (space_facts sp Hsp) as [_ [_ Hcode]].
  rewrite !has_nul_append, Hna, Hnb, Hnc, Hnd.
  cbn [Inet.has_nul orb]. rewrite Hcode, Ht.
  change (Inet.code "." =? 0) with false. cbn [orb].
  f_equal. unfold Inet.inet_aton.
  set (s := Str.of_Z a ++ "." ++ Str.of_Z b ++ "." ++ Str.of_Z c ++ "."
              ++ Str.of_Z d ++ String sp t).
  assert (Hlen : (3 <= String.length s)%nat).
  { unfold s. rewrite !length_append. simpl. lia. }
  assert (Hrun : forall n, (3 <= n)%nat -> Inet.aton (S n) 0 s = true).
  { intros n Hn. destruct n as [|[|[|fuel]]]; try lia.
    unfold s. cbn [append].
    rewrite !aton_dot by (auto; lia).
    apply aton_last_space; assumption. }
  apply Hrun. exact Hlen.
Qed.

Lemma validate_ip_ignores_text_after_space_witness :
  validate_ip (Str.of_Z 10 ++ "." ++ Str.of_Z 0 ++ "." ++ Str.of_Z 0 ++ "."
                 ++ Str.of_Z 1 ++ String " " "# home")
  = Ret true.
Proof.
  apply (validate_ip_ignores_text_after_space 10 0 0 1 " " "# home");
    try lia; reflexivity.
Defined.

(** ** The order of the exported fields *)

Lemma set_appends (d : dict) (k : string) (v : value) :
  ~ In k (Dict.keys d) -> Dict.set d k v = (d ++ [(k, v)])%list.
Proof.
  induction d as [|[k' v'] d IH]; intros Hk.
  - reflexivity.
  - cbn [Dict.set]. destruct (String.eqb_spec k' k) as [->|Hne].
    + exfalso. apply Hk. left. reflexivity.
    + cbn [app]. f_equal. apply IH. intros Hin. apply Hk. right. exact Hin.
Qed.

Lemma keys_app (d e : dict) :
  Dict.keys (d ++ e)%list = (Dict.keys d ++ Dict.keys e)%list.
Proof. unfold Dict.keys. apply map_app. Qed.

Lemma flatten_into_appends (rt : Runtime) (info : dict) :
  forall d : dict,
    NoDup (Dict.keys d ++ Dict.keys (flat_items rt info)) ->
    flatten_into rt d (Dict.items info) = (d ++ flat_items rt info)%list.
Proof.
  induction info as [|[key v] info IH]; intros d Hnd.
  - cbn. symmetry. apply app_nil_r.
  - change (flatten_into rt d (Dict.items ((key, v) :: info)))
      with (flatten_into rt (Dict.set d ("additional_" ++ key) (flat_value rt v))
              (Dict.items info)).
    change (flat_items rt ((key, v) :: info))
      with (("additional_" ++ key, flat_value rt v) :: flat_items rt info) in *.
    assert (Hfresh : ~ In ("additional_" ++ key) (Dict.keys d)).
    { intros Hin. apply NoDup_remove_2 in Hnd. apply Hnd.
      apply in_or_app. left. exact Hin. }
    rewrite (set_appends d _ _ Hfresh).
    rewrite IH.
    + rewrite <- app_assoc. reflexivity.
    + rewrite keys_app. cbn [Dict.keys map fst app] in *.
      rewrite <- app_assoc. exact Hnd.
Qed.

(** X21.  When no column name occurs twice, the CSV exporter keeps the
    fields of the record in their order, appends one column per field of
    the enrichment record in its order, named [additional_] and the key,
    and puts the timestamp last. *)
Theorem csv_columns_in_order (rt : Runtime) (w : World) (ip_info info : dict) :
  info <> [] ->
  NoDup (Dict.keys ip_info ++ Dict.keys (flat_items rt info) ++ ["timestamp"]) ->
  csv_flat_data rt w ip_info (Some info)
  = (ip_info ++ flat_items rt info
       ++ [("timestamp", VStr (clock (surroundings w)))])%list
  /\ csv_header (csv_flat_data rt w ip_info (Some info))
     = (Dict.keys ip_info ++ map (append "additional_") (Dict.keys info)
          ++ ["timestamp"])%list.
Proof.
  intros Hne Hnd.
  assert (Hdata : csv_flat_data rt w ip_info (Some info)
                  = (ip_info ++ flat_items rt info
                       ++ [("timestamp", VStr (clock (surroundings w)))])%list).
  { unfold csv_flat_data.
    replace (has_info (Some info)) with true
      by (destruct info; [contradiction | reflexivity]).
    rewrite flatten_into_appends.
    - rewrite set_appends; [rewrite <- app_assoc; reflexivity|].
      rewrite keys_app. rewrite app_assoc in Hnd.
      apply NoDup_remove_2 in Hnd. rewrite app_nil_r in Hnd. exact Hnd.
    - rewrite app_assoc in Hnd. apply NoDup_remove_1 in Hnd.
      rewrite app_nil_r in Hnd. exact Hnd. }
  split; [exact Hdata|].
  rewrite Hdata. unfold csv_header. rewrite !keys_app. do 2 f_equal.
  unfold Dict.keys, flat_items. rewrite !map_map. reflexivity.
Qed.

Lemma csv_columns_in_order_witness :
  csv_flat_data sample_runtime sample_world geo_bare
    (Some [("capital", VStr "Paris")])
  = (geo_bare ++ flat_items sample_runtime [("capital", VStr "Paris")]
       ++ [("timestamp", VStr (clock (surroundings sample_world)))])%list
  /\ csv_header (csv_flat_data sample_runtime sample_world geo_bare
                   (Some [("capital", VStr "Paris")]))
     = ["status"; "query"; "additional_capital"; "timestamp"].
Proof.
  apply (csv_columns_in_order sample_runtime sample_world geo_bare
           [("capital", VStr "Paris")]);
    [discriminate | repeat constructor; simpl; intuition discriminate].
Defined.

(** X22.  When the record has no [additional_info] and no [timestamp]
    field of its own, the JSON exporter writes the fields of the record
    in their order, then the enrichment record under [additional_info]
    when it is not empty, then the timestamp. *)
Theorem json_fields_in_order (w : World) (ip_info info : dict) :
  info <> [] ->
  ~ In "additional_info" (Dict.keys ip_info) ->
  ~ In "timestamp" (Dict.keys ip_info) ->
  json_data w ip_info (Some info)
  = (ip_info ++ [("additional_info", VDict info);
                 ("timestamp", VStr (clock (surroundings w)))])%list
  /\ json_data w ip_info None
     = (ip_info ++ [("timestamp", VStr (clock (surroundings w)))])%list.
Proof.
  intros Hne Hadd Hts. unfold json_data. split.
  - replace (has_info (Some info)) with true
      by (destruct info; [contradiction | reflexivity]).
    rewrite (set_appends ip_info _ _ Hadd).
    rewrite set_appends.
    + rewrite <- app_assoc. reflexivity.
    + rewrite keys_app. intros Hin. apply in_app_or in Hin.
      destruct Hin as [Hin|[E|[]]]; [exact (Hts Hin) | discriminate E].
  - apply set_appends. exact Hts.
Qed.

Lemma json_fields_in_order_witness :
  json_data sample_world geo_bare (Some [("capital", VStr "Paris")])
  = [ ("status", VStr "success"); ("query", VStr "8.8.8.8");
      ("additional_info", VDict [("capital", VStr "Paris")]);
      ("timestamp", VStr "2024-01-01 12:00:00") ]
  /\ json_data sample_world geo_bare None
     = [ ("status", VStr "success"); ("query", VStr "8.8.8.8");
         ("timestamp", VStr "2024-01-01 12:00:00") ].
Proof.
  apply (json_fields_in_order sample_world geo_bare [("capital", VStr "Paris")]);
    [discriminate | simpl; intuition discriminate | simpl; intuition discriminate].
Defined.

(** ** Well-typed answers: no run-time failure *)

Lemma assign_all_typed (country : value) :
  country_typed country = true ->
  enrichment_typed (Some (fst (assign_all [] (country_fields country)))) = true.
Proof.
  intros Htyped. unfold country_fields, value_get.
  destruct country as [| | | | | |fields]; try reflexivity.
  cbn [country_typed] in Htyped.
  apply andb_prop in Htyped. destruct Htyped as [Htyped Hlang].
  apply andb_prop in Htyped. destruct Htyped as [Htyped Hcur].
  apply andb_prop in Htyped. destruct Htyped as [Hpop Hcap].
  unfold Dict.get in Hpop, Hcur, Hlang. unfold Dict.get_default.
  cbn [res_bind].
  set (population := match Dict.lookup fields "population" with
                     | Some v => v | None => VNone end) in *.
  set (currencies := match Dict.lookup fields "currencies" with
                     | Some v => v | None => VDict [] end).
  set (languages := match Dict.lookup fields "languages" with
                    | Some v => v | None => VDict [] end).
  assert (Hcur' : mapping_or_absent currencies = true).
  { unfold currencies. destruct (Dict.lookup fields "currencies");
      [exact Hcur | reflexivity]. }
  assert (Hlang' : mapping_or_absent languages = true).
  { unfold languages. destruct (Dict.lookup fields "languages");
      [exact Hlang | reflexivity]. }
  clearbody population currencies languages.
  assert (Hfirst : forall capital,
             index0 match Dict.lookup fields "capital" with
                    | Some v => v | None => VList [VStr ""] end = Ret capital ->
             text_or_absent capital = true).
  { intros capital. destruct (Dict.lookup fields "capital") as [v|].
    - destruct v as [| | | |s|l|d]; try discriminate.
      + destruct s; [discriminate|]. intros H. injection H as <-. reflexivity.
      + destruct l as [|first rest]; [discriminate|].
        intros H. injection H as <-. exact Hcap.
    - intros H. injection H as <-. reflexivity. }
  destruct (index0 match Dict.lookup fields "capital" with
                   | Some v => v | None => VList [VStr ""] end) as [capital|e].
  2:{ cbn. rewrite Hpop. reflexivity. }
  specialize (Hfirst capital eq_refl).
  destruct (match Dict.lookup fields "flags" with
            | Some v => v | None => VDict [] end) as [| | | | | |flags];
    cbn; rewrite Hpop, Hfirst, Hcur', Hlang'; reflexivity.
Qed.

Lemma result_typed (rt : Runtime) (service : string -> res value)
        (ip_info d : dict) :
  (forall url country_data,
      service url = Ret country_data -> answer_typed country_data = true) ->
  snd (get_additional_info rt service ip_info) = Ret d ->
  enrichment_typed (Some d) = true.
Proof.
  intros Hprovider Hd.
  unfold get_additional_info, lookup_country, subscript, Dict.contains in Hd.
  destruct (Dict.lookup ip_info "countryCode") as [code|].
  2:{ injection Hd as <-. reflexivity. }
  destruct (service (country_url rt code)) as [country_data|e] eqn:Hservice.
  2:{ injection Hd as <-. reflexivity. }
  specialize (Hprovider _ _ Hservice). unfold answer_typed in Hprovider.
  unfold extract_country in Hd.
  destruct (truthy country_data).
  2:{ injection Hd as <-. reflexivity. }
  destruct (len_positive country_data) as [[|]|e].
  2,3:(injection Hd as <-; reflexivity).
  destruct (index0 country_data) as [country|e].
  2:{ injection Hd as <-. reflexivity. }
  pose proof (assign_all_typed country Hprovider) as Htyped.
  destruct (assign_all [] (country_fields country)) as [d' r].
  cbn [fst] in Htyped.
  assert (d = d') as ->; [|exact Htyped].
  destruct r as [[]|e]; cbn in Hd; injection Hd as <-; reflexivity.
Qed.

(** X23.  What the enrichment client returns is fit for the renderer
    and the HTML exporter whenever the provider's answers are: if the
    first element of every answer has a numeric population, a text as
    first capital and mappings for currencies and languages, where
    present, then so has the returned record, also when the extraction
    stops half way. *)
Theorem client_result_typed (rt : Runtime) (service : string -> res value)
        (ip_info d : dict) :
  (forall url country_data,
      service url = Ret country_data -> answer_typed country_data = true) ->
  snd (get_additional_info rt service ip_info) = Ret d ->
  enrichment_typed (Some d) = true.
Proof.
  exact (result_typed rt service ip_info d).
Qed.

Lemma client_result_typed_witness :
  enrichment_typed (Some enrichment_france) = true.
Proof.
  apply (client_result_typed sample_runtime (fun _ => Ret country_france)
           geo_google enrichment_france).
  - intros url country_data H. injection H as <-. reflexivity.
  - reflexivity.
Defined.

(** X24.  The HTML page can always be built from a record whose
    city, region name and country, where present, are texts, and an
    enrichment record with a numeric population and mappings for
    currencies and languages: no absent field makes it fail. *)
Theorem html_document_completes (rt : Runtime) (w : World) (ip_info : dict)
        (additional_info : option dict) :
  location_typed ip_info = true ->
  tables_typed additional_info = true ->
  exists page, html_document rt w ip_info additional_info = Ret page.
Proof.
  intros Htyped Henrich. unfold location_typed in Htyped.
  apply andb_prop in Htyped. destruct Htyped as [Htyped Hcountry].
  apply andb_prop in Htyped. destruct Htyped as [Hcity Hregion].
  destruct (location_completes rt ip_info Hcity Hregion Hcountry)
    as [parts [location [Hparts Hjoin]]].
  assert (Hadd : exists additional_html,
             html_additional rt additional_info = Ret additional_html).
  { unfold html_additional.
    destruct additional_info as [info|]; [|eexists; reflexivity].
    destruct (has_info (Some info)); [|eexists; reflexivity].
    cbn [tables_typed] in Henrich.
    apply andb_prop in Henrich. destruct Henrich as [Henrich Hlang].
    apply andb_prop in Henrich. destruct Henrich as [Hpop Hcur].
    assert (Hrows : exists rows, html_additional_rows rt info = Ret rows).
    { unfold html_additional_rows, html_population_row, html_currencies_row,
        html_languages_row.
      destruct (Dict.get info "population"); try discriminate Hpop;
        destruct (Dict.get info "currencies"); try discriminate Hcur;
        destruct (Dict.get info "languages"); try discriminate Hlang;
        cbn [truthy format_grouped dict_items res_bind];
        repeat match goal with
               | |- context [if ?b then _ else _] => destruct b
               end;
        cbn [res_bind]; eexists; reflexivity. }
    destruct Hrows as [rows ->]. cbn [res_bind].
    destruct (negb (String.eqb rows "")); eexists; reflexivity. }
  destruct Hadd as [additional_html Hadd].
  unfold html_document. rewrite Hadd, Hparts. cbn [res_bind].
  rewrite Hjoin. cbn [res_bind]. eexists. reflexivity.
Qed.

Lemma html_document_completes_witness :
  exists page,
    html_document sample_runtime sample_world geo_numeric_zip
      (Some enrichment_france)
    = Ret page.
Proof.
  apply (html_document_completes sample_runtime sample_world geo_numeric_zip
           (Some enrichment_france));
    reflexivity.
Defined.

Lemma final_bind {A B} (m : prog A) (k : A -> prog B) (a : A) :
  final m = Done a -> final (P.bind m k) = final (k a).
Proof. unfold P.bind. cbn [final]. intros ->. reflexivity. Qed.

Lemma enrich_typed (rt : Runtime) (w : World) (c : Colors) (args : Args)
      (ip_info : dict) :
  (forall url country_data,
      country_data_service w url = Ret country_data ->
      answer_typed country_data = true) ->
  exists additional_info,
    final (enrich rt w c args ip_info) = Done additional_info
    /\ enrichment_typed additional_info = true.
Proof.
  intros Hprovider. unfold enrich.
  destruct (detailed args); [|exists None; split; reflexivity].
  destruct (enrichment_returns rt (country_data_service w) ip_info) as [d Hd].
  pose proof (result_typed rt (country_data_service w) ip_info d Hprovider Hd)
    as Htyped.
  destruct (get_additional_info rt (country_data_service w) ip_info)
    as [requests result].
  cbn [snd] in Hd. subst result.
  exists (Some d). split; [reflexivity | exact Htyped].
Qed.

(** X25.  A terminal run ends normally, in plain and in detailed
    mode, when the address is accepted, the geolocation service answers
    with a successful, well-typed record that has a [query] field, the
    terminal has at least 20 columns and the answers of the country-data
    service, if any, are well typed.  A country-data service that fails
    does not change this. *)
Theorem main_terminal_run_completes (rt : Runtime) (w : World) (args : Args)
        (address : string) (ip_info : dict) (columns : Z) :
  format args = terminal ->
  ip args = Some address ->
  address <> "" ->
  validate_ip address = Ret true ->
  geolocation_service w (geolocation_url address (detailed args)) = Ret ip_info ->
  eq_str (Dict.get ip_info "status") "success" = true ->
  Dict.contains ip_info "query" = true ->
  record_typed ip_info = true ->
  terminal_columns (surroundings w) = Some columns ->
  20 <= columns ->
  (forall url country_data,
      country_data_service w url = Ret country_data ->
      answer_typed country_data = true) ->
  final (main rt w args) = Done tt.
Proof.
  intros Hformat Hip Hne Hv Hgeo Hstatus Hquery Htyped Hcolumns Hwide Hprovider.
  unfold main. rewrite Hformat. cbn [negb andb].
  set (c := if simple args then colors_simple else colors_ansi).
  rewrite (final_bind _ _ tt) by reflexivity.
  rewrite (final_bind _ _ tt) by reflexivity.
  rewrite (final_bind _ _ address).
  2:{ unfold resolve_ip.
      destruct (given_not_missing args address Hip Hne) as [-> ->].
      rewrite Hv. reflexivity. }
  rewrite (final_bind _ _ tt) by reflexivity.
  rewrite (final_bind _ _ ip_info).
  2:{ unfold get_ip_info. cbv zeta. rewrite Hgeo. reflexivity. }
  destruct (enrich_typed rt w c args ip_info Hprovider)
    as [additional_info [Henrich Hadd]].
  rewrite (final_bind _ _ additional_info) by exact Henrich.
  unfold P.of_run. cbn [final].
  rewrite (renderer_completes rt c (surroundings w) ip_info additional_info
             columns Hstatus Hcolumns Hwide Hquery Htyped Hadd).
  reflexivity.
Qed.

Lemma main_terminal_run_completes_witness :
  final (main sample_runtime sample_world args_detailed) = Done tt.
Proof.
  apply (main_terminal_run_completes sample_runtime sample_world args_detailed
           "8.8.8.8" geo_google 120);
    try reflexivity; try discriminate; try lia.
  intros url country_data H. injection H as <-. reflexivity.
Defined.
